(** * MCP tool servers (Gmail, Calendar, Drive, Video, Jira): a shallow embedding

    The development embeds the helper methods and tool functions of the
    repository as Rocq functions and proves properties of them.

    Conventions of the embedding:
    - a Python [str] is a Rocq [string]; each character stands for one code
      point up to U+00FF;
    - JSON payloads and other dynamically typed Python data are terms of
      [value]; a JSON object is an association list, looked up by first match;
    - an exception caught by [except Exception] is [Raised msg], where [msg]
      is what [str(e)] gives;
    - calls into vendor SDKs (Google API client, requests, OAuth library) are
      fields of an environment record; every such call is appended to the
      call log of the world;
    - the file system is a finite map from paths to the text of the file;
      files are opened in text mode with the default [newline=None] on a
      POSIX system: text is written as it is, and read with universal
      newlines;
    - pydantic models are built in lax mode of pydantic 2: a [str] field
      takes a string, a [Dict] field a dict, and nothing is coerced;
    - logging and printing are left out, except where formatting the message
      can raise. *)

From Stdlib Require Import Ascii String ZArith NArith.
From stdpp Require Import gmap strings list fin_maps pretty.

Local Open Scope string_scope.
Local Set Warnings "-register-all".

(** ** Python data *)

Module Py.

Inductive value : Type :=
| VNone
| VBool (b : bool)
| VInt (z : Z)
| VStr (s : string)
| VList (l : list value)
| VDict (d : list (string * value)).

(** Result of evaluating Python code that may raise. *)
Inductive outcome (A : Type) : Type :=
| Returned (a : A)
| Raised (msg : string).
Arguments Returned {A} a.
Arguments Raised {A} msg.

Definition and_then {A B} (o : outcome A) (k : A -> outcome B) : outcome B :=
  match o with
  | Returned a => k a
  | Raised e => Raised e
  end.

(** [bool(v)]: truth value testing. *)
Definition truthy (v : value) : bool :=
  match v with
  | VNone => false
  | VBool b => b
  | VInt z => negb (Z.eqb z 0)
  | VStr s => negb (String.eqb s "")
  | VList l => match l with [] => false | _ => true end
  | VDict d => match d with [] => false | _ => true end
  end.

Definition str_truthy (s : string) : bool := negb (String.eqb s "").

(** Truthiness of an [Optional[str]]. *)
Definition opt_truthy (o : option string) : bool :=
  match o with Some s => str_truthy s | None => false end.

Definition of_opt (o : option string) : value :=
  match o with Some s => VStr s | None => VNone end.

(** Lookup in an association list, first match. *)
Fixpoint assoc (k : string) (d : list (string * value)) : option value :=
  match d with
  | [] => None
  | (k', v) :: rest => if String.eqb k k' then Some v else assoc k rest
  end.

(** [d.get(k, default)]; only dicts have a [get] method. *)
Definition get (v : value) (k : string) (default : value) : outcome value :=
  match v with
  | VDict d => Returned (match assoc k d with Some x => x | None => default end)
  | _ => Raised "AttributeError: object has no attribute 'get'"
  end.

(** [d[k]] on a dict: [KeyError] when the key is absent; subscripting by a
    string raises on every other kind of value. *)
Definition getitem (v : value) (k : string) : outcome value :=
  match v with
  | VDict d => match assoc k d with
               | Some x => Returned x
               | None => Raised ("KeyError: " ++ k)
               end
  | _ => Raised "TypeError: indices must be integers"
  end.

(** [k in v], for a string [k]: a key test on a dict, an element test on a
    list, a substring test on a string. *)
Definition contains (k : string) (v : value) : outcome bool :=
  match v with
  | VDict d => Returned (match assoc k d with Some _ => true | None => false end)
  | VList l => Returned (existsb (fun x => match x with
                                           | VStr s => String.eqb s k
                                           | _ => false
                                           end) l)
  | VStr s => Returned (match String.index 0 k s with Some _ => true | None => false end)
  | _ => Raised "TypeError: argument is not iterable"
  end.

(** [v == s] for a string [s]. *)
Definition eq_str (v : value) (s : string) : bool :=
  match v with VStr t => String.eqb t s | _ => false end.

(** Iteration [for x in v]: the items the loop visits. *)
Definition iter (v : value) : outcome (list value) :=
  match v with
  | VList l => Returned l
  | VDict d => Returned (map (fun kv => VStr (fst kv)) d)
  | VStr s => Returned (map (fun c => VStr (String c EmptyString)) (String.list_ascii_of_string s))
  | _ => Raised "TypeError: object is not iterable"
  end.

(** Whitespace as [str.isspace] sees it, for code points below U+0100. *)
Definition isspace (c : ascii) : bool :=
  let n := N_of_ascii c in
  ((9 <=? n) && (n <=? 13) || (28 <=? n) && (n <=? 32)
   || (n =? 133) || (n =? 160))%N.

Fixpoint lstrip (s : string) : string :=
  match s with
  | EmptyString => EmptyString
  | String c r => if isspace c then lstrip r else s
  end.

Fixpoint rstrip (s : string) : string :=
  match s with
  | EmptyString => EmptyString
  | String c r =>
      match rstrip r with
      | EmptyString => if isspace c then EmptyString else String c EmptyString
      | t => String c t
      end
  end.

(** [s.strip()] *)
Definition strip (s : string) : string := rstrip (lstrip s).

Definition CR : ascii := ascii_of_N 13.
Definition LF : ascii := ascii_of_N 10.

(** Reading in text mode with the default [newline=None]: the line endings
    CR LF and CR are both handed to the caller as LF. *)
Fixpoint universal_newlines (s : string) : string :=
  match s with
  | EmptyString => EmptyString
  | String c r =>
      if Ascii.eqb c CR then
        match r with
        | String c' r' =>
            if Ascii.eqb c' LF then String LF (universal_newlines r')
            else String LF (universal_newlines r)
        | EmptyString => String LF EmptyString
        end
      else String c (universal_newlines r)
  end.

End Py.
Export Py.

(** ** The world: file system, helper object, log of vendor calls *)

Module World.

(** Credentials object of the OAuth library, as the three attributes the
    helpers read. *)
Record Creds := mkCreds {
  valid : bool;
  expired : bool;
  refresh_token : option string
}.

(** A service object returned by [build(name, version, credentials=...)]. *)
Record Service := mkService {
  svc_name : string;
  svc_version : string
}.

(** Parameters of [users().history().list], the [params] dict. *)
Record HistoryParams := mkHistoryParams {
  userId : option string;
  maxResults : option Z;
  startHistoryId : string;
  historyTypes : option (list string);
  pageToken : option value
}.

Inductive Call : Type :=
| CLoadToken
| CRefresh
| CRunFlow
| CSaveToken
| CBuild (name version : string)
| CMessagesList (q : option string) (max_results : option Z)
| CMessagesGet (id : value)
| CGetProfile (user_id : option string)
| CHistoryList (params : HistoryParams)
| CLabelsList (user_id : option string)
| CLabelsUpdate (user_id : option string) (label_id : string)
    (body : gmap string value)
| CHttpGet (url : string) (user token : string).

Record World := mkWorld {
  fs : gmap string string;
  service : option Service;
  credentials : option Creds;
  calls : list Call
}.

(** Outcomes of the calls one [authenticate] run makes outside the helper,
    one per call site:
    - [token_exists]: [self.token_path.exists()];
    - [from_authorized_user_file]: loading the token file;
    - [refresh]: [creds.refresh(GoogleRequest())], giving the credentials as
      they are after the refresh;
    - [run_local_server]: the new OAuth flow, from
      [InstalledAppFlow.from_client_secrets_file] to [flow.run_local_server];
    - [write_token]: opening the token file and writing [creds.to_json()];
    - [build]: building the service object. *)
Record AuthOutcomes := mkAuthOutcomes {
  token_exists : bool;
  from_authorized_user_file : outcome Creds;
  refresh : outcome Creds;
  run_local_server : outcome Creds;
  write_token : outcome unit;
  build : outcome unit
}.

(** The Gmail REST resources the helper calls, each [...execute()] taken as
    a function of the request. *)
Record GmailApi := mkGmailApi {
  messages_list : option string -> option Z -> outcome value;
  messages_get : value -> outcome value;
  getProfile : option string -> outcome value;
  history_list : HistoryParams -> outcome value;
  labels_list : option string -> outcome value;
  labels_update : option string -> string -> gmap string value -> outcome value
}.

Record Env := mkEnv {
  auth : AuthOutcomes;
  api : GmailApi;
  (** [open(path, 'w')] raises [OSError] with this text, when not [None] *)
  open_write_error : string -> option string;
  (** after the file has been opened, and so truncated, writing the text
      (from [f.write] to the flush when the file is closed) raises with this
      text once that many characters of it have reached the file, when not
      [None] *)
  write_error : string -> string -> option (string * nat);
  (** the same for [open(path, 'r')] of an existing file *)
  open_read_error : string -> option string;
  (** the text [str()] gives for a list or a dict *)
  repr : value -> string
}.

(** Computations: a run either does not finish within its fuel ([None]) or
    ends, returning or raising, in a new world. *)
Definition M (A : Type) : Type := World -> option (outcome A * World).

Definition ret {A} (a : A) : M A := fun w => Some (Returned a, w).

Definition raise {A} (msg : string) : M A := fun w => Some (Raised msg, w).

Definition bind {A B} (m : M A) (k : A -> M B) : M B :=
  fun w =>
    match m w with
    | None => None
    | Some (Returned a, w') => k a w'
    | Some (Raised e, w') => Some (Raised e, w')
    end.

(** [try: m  except Exception as e: handler(str(e))] *)
Definition try_except {A} (m : M A) (handler : string -> M A) : M A :=
  fun w =>
    match m w with
    | None => None
    | Some (Returned a, w') => Some (Returned a, w')
    | Some (Raised e, w') => handler e w'
    end.

(** [try: m  finally: cleanup]: the cleanup runs however [m] ends, and an
    exception it raises replaces what [m] returned or raised. *)
Definition finally {A} (m : M A) (cleanup : M unit) : M A :=
  fun w =>
    match m w with
    | None => None
    | Some (o, w') =>
        match cleanup w' with
        | None => None
        | Some (Returned _, w'') => Some (o, w'')
        | Some (Raised e, w'') => Some (Raised e, w'')
        end
    end.

Definition lift {A} (o : outcome A) : M A := fun w => Some (o, w).

(** A vendor call: logged, then its outcome. *)
Definition vendor {A} (c : Call) (o : outcome A) : M A :=
  fun w => Some (o, mkWorld (fs w) (service w) (credentials w) (calls w ++ [c])).

Definition get_service : M (option Service) :=
  fun w => Some (Returned (service w), w).

Definition set_service (s : Service) : M unit :=
  fun w => Some (Returned tt,
                 mkWorld (fs w) (Some s) (credentials w) (calls w)).

Definition set_credentials (c : option Creds) : M unit :=
  fun w => Some (Returned tt, mkWorld (fs w) (service w) c (calls w)).

(** [with open(path, 'w') as f: f.write(text)]: opening truncates the
    file, so a write that fails leaves it with what had been written. *)
Definition write_file (E : Env) (path text : string) : M unit :=
  fun w =>
    match open_write_error E path with
    | Some e => Some (Raised e, w)
    | None =>
        match write_error E path text with
        | Some (e, n) =>
            Some (Raised e,
                  mkWorld (<[path := String.substring 0 n text]> (fs w))
                          (service w) (credentials w) (calls w))
        | None =>
            Some (Returned tt,
                  mkWorld (<[path := text]> (fs w)) (service w)
                          (credentials w) (calls w))
        end
    end.

(** [Path(path).exists()] *)
Definition path_exists (path : string) : M bool :=
  fun w => Some (Returned (bool_decide (is_Some (fs w !! path))), w).

(** [with open(path, 'r') as f: f.read()] *)
Definition read_file (E : Env) (path : string) : M string :=
  fun w =>
    match fs w !! path with
    | None => Some (Raised ("No such file or directory: " ++ path), w)
    | Some text =>
        match open_read_error E path with
        | Some e => Some (Raised e, w)
        | None => Some (Returned (universal_newlines text), w)
        end
    end.

(** [creds and creds.valid], for [creds] that may be [None] *)
Definition creds_valid (c : option Creds) : bool :=
  match c with Some c => valid c | None => false end.

(** [creds and creds.expired and creds.refresh_token] *)
Definition wants_refresh (c : option Creds) : bool :=
  match c with
  | Some c => expired c && opt_truthy (refresh_token c)
  | None => false
  end.

End World.
Export World.

Notation "'given' x <- o ; k" := (and_then o (fun x => k))
  (at level 10, x name, o at level 100, k at level 200).
Notation "'do' x <- m ; k" := (bind m (fun x => k))
  (at level 10, x name, m at level 100, k at level 200).
Notation "'do' '_' <- m ; k" := (bind m (fun _ => k))
  (at level 10, m at level 100, k at level 200).

(** ** Further requests to the Google APIs *)

Module Requests.

(** The requests the other helper methods send, each with the parameters
    the helper passes before [.execute()]. *)
Inductive Request : Type :=
| MessagesModify (userId : option string) (id : string)
    (body : list (string * value))
| ThreadsList (userId q : option string) (maxResults : option Z)
| ThreadsGet (userId : option string) (id : string) (format : option string)
| CalendarsDelete (calendarId : string)
| EventsQuickAdd (calendarId : option string) (text : string).

(** What [.execute()] does: it returns the decoded answer, raises an
    [HttpError] or raises something else; an exception is given by its
    [str()]. *)
Inductive reply : Type :=
| Ok (v : value)
| HttpError (msg : string)
| OtherError (msg : string).

Record Api := mkApi { execute : Request -> reply }.

(** The world together with the log of these requests. *)
Record Session := mkSession {
  world : World;
  requests : list Request
}.

Definition RM (A : Type) : Type := Session -> option (outcome A * Session).

Definition rret {A} (a : A) : RM A := fun s => Some (Returned a, s).

Definition rraise {A} (msg : string) : RM A := fun s => Some (Raised msg, s).

Definition rbind {A B} (m : RM A) (k : A -> RM B) : RM B :=
  fun s =>
    match m s with
    | None => None
    | Some (Returned a, s') => k a s'
    | Some (Raised e, s') => Some (Raised e, s')
    end.

(** [try: m  except Exception as e: handler(str(e))] *)
Definition rtry_except {A} (m : RM A) (handler : string -> RM A) : RM A :=
  fun s =>
    match m s with
    | None => None
    | Some (Returned a, s') => Some (Returned a, s')
    | Some (Raised e, s') => handler e s'
    end.

Definition rlift {A} (o : outcome A) : RM A := fun s => Some (o, s).

(** A computation on the world, run in a session. *)
Definition of_M {A} (m : M A) : RM A :=
  fun s =>
    match m (world s) with
    | None => None
    | Some (o, w') => Some (o, mkSession w' (requests s))
    end.

(** A request: logged, then answered. *)
Definition request (R : Api) (r : Request) : RM reply :=
  fun s => Some (Returned (execute R r),
                 mkSession (world s) (requests s ++ [r])).

End Requests.
Export Requests.

Notation "'rdo' x <- m ; k" := (rbind m (fun x => k))
  (at level 10, x name, m at level 100, k at level 200).
Notation "'rdo' '_' <- m ; k" := (rbind m (fun _ => k))
  (at level 10, m at level 100, k at level 200).

(** ** gmail_mcp_tool/helper.py *)

Module GmailHelper.

(** The dict a helper method returns: its payload keys and ["error"]. *)
Record result (P : Type) := mkResult {
  payload : P;
  error : option string
}.
Arguments mkResult {P} payload error.
Arguments payload {P} r.
Arguments error {P} r.

(** Payload of [get_history]: the keys ["history"] and ["latest_history_id"]. *)
Record HistoryData := mkHistoryData {
  history : value;
  latest_history_id : value
}.

Section Methods.

Variable E : Env.

(** [GmailHelper.authenticate]. The inner [option] layers stand for the
    early [return False] of the nested handlers. *)
Definition authenticate : M bool :=
  try_except
    (do loaded <-
        (if token_exists (auth E) then
           try_except
             (do c <- vendor CLoadToken (from_authorized_user_file (auth E));
              ret (Some (Some c)))
             (fun _ => ret None)
         else ret (Some None));
     match loaded with
     | None => ret false
     | Some creds =>
         do ready <-
            (if negb (creds_valid creds) then
               do creds1 <-
                  (if wants_refresh creds then
                     try_except
                       (do c <- vendor CRefresh (refresh (auth E));
                        ret (Some c))
                       (fun _ => ret None)
                   else ret creds);
               do creds2 <-
                  (if negb (creds_valid creds1) then
                     try_except
                       (do c <- vendor CRunFlow (run_local_server (auth E));
                        ret (Some c))
                       (fun _ => ret None)
                   else ret creds1);
               match creds2 with
               | None => ret None
               | Some creds3 =>
                   try_except
                     (do _ <- vendor CSaveToken (write_token (auth E));
                      ret (Some (Some creds3)))
                     (fun _ => ret None)
               end
             else ret (Some creds));
         match ready with
         | None => ret false
         | Some creds4 =>
             do _ <- vendor (CBuild "gmail" "v1") (build (auth E));
             do _ <- set_service (mkService "gmail" "v1");
             ret true
         end
     end)
    (fun _ => ret false).

(** [if not self.service: if not self.authenticate(): return ...]:
    [true] when a service is at hand afterwards. *)
Definition ensure_service : M bool :=
  do s <- get_service;
  match s with
  | Some _ => ret true
  | None => authenticate
  end.

(** [headers[k] = v] on a dict kept as an association list. *)
Fixpoint dict_set (k : string) (v : value) (d : list (string * value))
  : list (string * value) :=
  match d with
  | [] => [(k, v)]
  | (k', v') :: rest =>
      if String.eqb k k' then (k, v) :: rest else (k', v') :: dict_set k v rest
  end.

(** [name in ['Subject', 'From', 'Date']] *)
Definition wanted_header (name : value) : option string :=
  match name with
  | VStr n =>
      if String.eqb n "Subject" || String.eqb n "From" || String.eqb n "Date"
      then Some n else None
  | _ => None
  end.

Fixpoint collect_headers (hs : list value) (headers : list (string * value))
  : outcome (list (string * value)) :=
  match hs with
  | [] => Returned headers
  | header :: rest =>
      match getitem header "name" with
      | Raised e => Raised e
      | Returned name =>
          match wanted_header name with
          | Some n =>
              match getitem header "value" with
              | Raised e => Raised e
              | Returned v => collect_headers rest (dict_set n v headers)
              end
          | None => collect_headers rest headers
          end
      end
  end.

(** Body of the inner [try] of [list_messages], for one message. *)
Definition process_message (message : value) : M value :=
  do id <- lift (getitem message "id");
  do msg <- vendor (CMessagesGet id) (messages_get (api E) id);
  do pl <- lift (getitem msg "payload");
  do hs <- lift (getitem pl "headers");
  do items <- lift (iter hs);
  do headers <- lift (collect_headers items []);
  do id' <- lift (getitem message "id");
  do snippet <- lift (get msg "snippet" (VStr ""));
  ret (VDict [("id", id'); ("headers", VDict headers); ("snippet", snippet)]).

(** The [for message in messages] loop; the handler formats
    [message['id']] into its log line, which may raise in turn. *)
Fixpoint process_messages (ms : list value) (processed : list value)
  : M (list value) :=
  match ms with
  | [] => ret processed
  | message :: rest =>
      do r <- try_except
                (do x <- process_message message; ret (Some x))
                (fun _ => do _ <- lift (getitem message "id"); ret None);
      process_messages rest
        (match r with Some x => processed ++ [x] | None => processed end)
  end.

Definition list_messages (query : option string) (max_results : option Z)
  : M (result (list value)) :=
  do ok <- ensure_service;
  if negb ok then
    ret (mkResult [] (Some "Failed to authenticate with Gmail"))
  else
    try_except
      (do response <- vendor (CMessagesList query max_results)
                        (messages_list (api E) query max_results);
       do messages <- lift (get response "messages" (VList []));
       if negb (truthy messages) then
         ret (mkResult []
                (Some ("No messages found matching query: "
                       ++ match query with Some q => q | None => "None" end)))
       else
         do items <- lift (iter messages);
         do processed <- process_messages items [];
         match processed with
         | [] => ret (mkResult []
                        (Some "No messages could be processed successfully"))
         | _ => ret (mkResult processed None)
         end)
      (fun e => ret (mkResult [] (Some ("Error listing messages: " ++ e)))).

(** [str(v)] *)
Definition py_str (v : value) : string :=
  match v with
  | VNone => "None"
  | VBool true => "True"
  | VBool false => "False"
  | VInt z => pretty z
  | VStr s => s
  | _ => repr E v
  end.

(** [len(v)] *)
Definition py_len (v : value) : outcome nat :=
  match v with
  | VList l => Returned (length l)
  | VDict d => Returned (length d)
  | VStr s => Returned (String.length s)
  | _ => Raised "TypeError: object has no len()"
  end.

Definition default_history_file : string :=
  "gmail_mcp_tool/last_history_id.txt".

Definition save_history_id (history_id : value) (file_path : string)
  : M (result bool) :=
  try_except
    (do _ <- write_file E file_path (py_str history_id);
     ret (mkResult true None))
    (fun e => ret (mkResult false (Some ("Error saving historyId: " ++ e)))).

Definition load_history_id (file_path : string)
  : M (result (option string)) :=
  try_except
    (do present <- path_exists file_path;
     if present then
       do text <- read_file E file_path;
       ret (mkResult (Some (strip text)) None)
     else
       ret (mkResult None
              (Some ("No history ID file found at " ++ file_path))))
    (fun e => ret (mkResult None (Some ("Error loading historyId: " ++ e)))).

Definition with_pageToken (params : HistoryParams) (tok : value)
  : HistoryParams :=
  mkHistoryParams (userId params) (maxResults params) (startHistoryId params)
                  (historyTypes params) (Some tok).

(** [history.extend(more)] *)
Definition extend (history more : value) : outcome value :=
  match history with
  | VList l =>
      match iter more with
      | Returned xs => Returned (VList (l ++ xs))
      | Raised e => Raised e
      end
  | _ => Raised "AttributeError: object has no attribute 'extend'"
  end.

(** [history[-1]] *)
Definition last_item (history : value) : outcome value :=
  match history with
  | VList l =>
      match last l with
      | Some x => Returned x
      | None => Raised "IndexError: list index out of range"
      end
  | VStr s =>
      match last (String.list_ascii_of_string s) with
      | Some c => Returned (VStr (String c EmptyString))
      | None => Raised "IndexError: string index out of range"
      end
  | VDict _ => Raised "KeyError: -1"
  | _ => Raised "TypeError: object is not subscriptable"
  end.

(** The [while next_page_token] loop of [get_history]; one unit of fuel per
    further page. *)
Fixpoint paginate (fuel : nat) (params : HistoryParams)
    (history next_page_token : value) : M value :=
  if negb (truthy next_page_token) then ret history
  else
    match fuel with
    | O => fun _ => None
    | S fuel' =>
        let params' := with_pageToken params next_page_token in
        do response <- vendor (CHistoryList params')
                         (history_list (api E) params');
        do _ <- lift (match history with
                      | VList _ => Returned tt
                      | _ => Raised "AttributeError: object has no attribute 'extend'"
                      end);
        do more <- lift (get response "history" (VList []));
        do history' <- lift (extend history more);
        do tok <- lift (get response "nextPageToken" VNone);
        paginate fuel' params' history' tok
    end.

Definition history_failure (msg : string) : result HistoryData :=
  mkResult (mkHistoryData (VList []) VNone) (Some msg).

(** The branch [if not start_history_id] of [get_history]. *)
Definition history_baseline (user_id : option string)
  : M (result HistoryData) :=
  try_except
    (do profile <- vendor (CGetProfile user_id) (getProfile (api E) user_id);
     do latest_id <- lift (get profile "historyId" VNone);
     ret (mkResult (mkHistoryData (VList []) latest_id) None))
    (fun e => ret (history_failure ("Error getting latest historyId: " ++ e))).

(** [if history_types: params['historyTypes'] = history_types]: the key is
    set for a non-empty list only. *)
Definition given_types (history_types : option (list string))
  : option (list string) :=
  match history_types with
  | Some (t :: ts) => Some (t :: ts)
  | _ => None
  end.

(** The rest of [get_history], for a non-empty [start_history_id]. *)
Definition history_since (fuel : nat) (start : string)
    (history_types : option (list string)) (max_results : option Z)
    (user_id : option string) : M (result HistoryData) :=
  try_except
    (let params :=
       mkHistoryParams user_id max_results start
         (given_types history_types) None in
     do response <- vendor (CHistoryList params) (history_list (api E) params);
     do first <- lift (get response "history" (VList []));
     do tok <- lift (get response "nextPageToken" VNone);
     do history <- paginate fuel params first tok;
     do latest_id <-
        (if truthy history then
           do record <- lift (last_item history);
           lift (getitem record "id")
         else ret (VStr start));
     do _ <- lift (py_len history);
     ret (mkResult (mkHistoryData history latest_id) None))
    (fun e => ret (history_failure ("Error retrieving history: " ++ e))).

Definition get_history (fuel : nat) (start_history_id : option string)
    (history_types : option (list string)) (max_results : option Z)
    (user_id : option string) : M (result HistoryData) :=
  do ok <- ensure_service;
  if negb ok then ret (history_failure "Failed to authenticate with Gmail")
  else
    match start_history_id with
    | Some start =>
        if str_truthy start
        then history_since fuel start history_types max_results user_id
        else history_baseline user_id
    | None => history_baseline user_id
    end.

Definition list_labels (user_id : option string) : M (result value) :=
  do ok <- ensure_service;
  if negb ok then
    ret (mkResult (VList []) (Some "Failed to authenticate with Gmail"))
  else
    try_except
      (do response <- vendor (CLabelsList user_id)
                        (labels_list (api E) user_id);
       do labels <- lift (get response "labels" (VList []));
       do _ <- lift (py_len labels);
       ret (mkResult labels None))
      (fun e => ret (mkResult (VList []) (Some ("Error listing labels: " ++ e)))).

Definition update_label (label_id : string) (updated_label : gmap string value)
    (user_id : option string) : M (result value) :=
  do ok <- ensure_service;
  if negb ok then
    ret (mkResult VNone (Some "Failed to authenticate with Gmail"))
  else
    try_except
      (do updated <- vendor (CLabelsUpdate user_id label_id updated_label)
                       (labels_update (api E) user_id label_id updated_label);
       ret (mkResult updated None))
      (fun e => ret (mkResult VNone (Some ("Error updating label: " ++ e)))).

(** [GmailHelper.get_profile]; the log line reads
    [profile.get('emailAddress')]. *)
Definition get_profile (user_id : option string) : M (result value) :=
  do ok <- ensure_service;
  if negb ok then
    ret (mkResult VNone (Some "Failed to authenticate with Gmail"))
  else
    try_except
      (do profile <- vendor (CGetProfile user_id) (getProfile (api E) user_id);
       do _ <- lift (get profile "emailAddress" VNone);
       ret (mkResult profile None))
      (fun e => ret (mkResult VNone (Some ("Error retrieving profile: " ++ e)))).

(** The dict [ensure_authenticated] returns; [email] is [None] where the
    dict has no such key. *)
Record AuthStatus := mkAuthStatus {
  authenticated : bool;
  status_error : option string;
  message : string;
  email : option value
}.

(** The module-level [ensure_authenticated] of helper.py, on the default
    helper instance. *)
Definition ensure_authenticated : M AuthStatus :=
  try_except
    (do success <- authenticate;
     if success then
       do profile_result <- get_profile (Some "me");
       if opt_truthy (error profile_result) then
         ret (mkAuthStatus false (error profile_result)
                "Authentication validated but profile retrieval failed" None)
       else
         do address <- lift (get (payload profile_result) "emailAddress"
                               (VStr "unknown"));
         ret (mkAuthStatus true None
                ("Successfully authenticated as " ++ py_str address)
                (Some address))
     else
       ret (mkAuthStatus false (Some "Authentication failed")
              "Failed to authenticate with Gmail API" None))
    (fun e =>
       ret (mkAuthStatus false (Some ("Authentication error: " ++ e))
              "Unexpected error during authentication check" None)).


(** *** Methods that send the further requests *)

Variable R : Api.

(** Truth value of an [Optional[List[str]]]. *)
Definition labels_truthy (labels : option (list string)) : bool :=
  match labels with
  | Some (_ :: _) => true
  | _ => false
  end.

Definition labels_value (labels : option (list string)) : value :=
  match labels with
  | Some l => VList (map VStr l)
  | None => VNone
  end.

(** The [body] dict of [modify_message]. *)
Definition modify_body (add_labels remove_labels : option (list string))
  : list (string * value) :=
  ((if labels_truthy add_labels
    then [("addLabelIds", labels_value add_labels)] else [])
   ++ (if labels_truthy remove_labels
       then [("removeLabelIds", labels_value remove_labels)] else []))%list.

(** [GmailHelper.modify_message]: its [except] clause names [HttpError]
    only, any other exception leaves the method. *)
Definition modify_message (message_id : string)
    (add_labels remove_labels : option (list string))
    (user_id : option string) : RM (result value) :=
  rdo ok <- of_M ensure_service;
  if negb ok then
    rret (mkResult VNone (Some "Failed to authenticate with Gmail"))
  else
    rdo r <- request R (MessagesModify user_id message_id
                          (modify_body add_labels remove_labels));
    match r with
    | Ok modified_message => rret (mkResult modified_message None)
    | HttpError e =>
        rret (mkResult VNone (Some ("Error modifying message: " ++ e)))
    | OtherError e => rraise e
    end.

(** [GmailHelper.list_threads] *)
Definition list_threads (query : option string) (max_results : option Z)
    (user_id : option string) : RM (result value) :=
  rdo ok <- of_M ensure_service;
  if negb ok then
    rret (mkResult (VList []) (Some "Failed to authenticate with Gmail"))
  else
    rtry_except
      (rdo r <- request R (ThreadsList user_id query max_results);
       match r with
       | Ok response =>
           rdo threads <- rlift (get response "threads" (VList []));
           if negb (truthy threads) then
             rret (mkResult (VList [])
                     (Some ("No threads found matching query: "
                            ++ match query with
                               | Some q => q
                               | None => "None"
                               end)))
           else
             rdo _ <- rlift (py_len threads);
             rret (mkResult threads None)
       | HttpError e | OtherError e => rraise e
       end)
      (fun e =>
         rret (mkResult (VList []) (Some ("Error listing threads: " ++ e)))).

(** [name in ['Subject', 'From', 'To', 'Date']] *)
Definition thread_header (name : value) : option string :=
  match name with
  | VStr n =>
      if String.eqb n "Subject" || String.eqb n "From" || String.eqb n "To"
         || String.eqb n "Date"
      then Some n else None
  | _ => None
  end.

Fixpoint collect_thread_headers (hs : list value)
    (headers : list (string * value)) : outcome (list (string * value)) :=
  match hs with
  | [] => Returned headers
  | header :: rest =>
      given name <- getitem header "name";
      match thread_header name with
      | Some n =>
          given v <- getitem header "value";
          collect_thread_headers rest (dict_set n v headers)
      | None => collect_thread_headers rest headers
      end
  end.

(** Body of the loop of [get_thread], for one message of the thread. *)
Definition thread_message (message : value) : outcome value :=
  given id <- get message "id" VNone;
  given threadId <- get message "threadId" VNone;
  given labelIds <- get message "labelIds" (VList []);
  given snippet <- get message "snippet" (VStr "");
  given has_payload <- contains "payload" message;
  given has_headers <-
    (if has_payload then
       given pl <- getitem message "payload";
       contains "headers" pl
     else Returned false);
  given headers <-
    (if has_headers then
       given pl <- getitem message "payload";
       given hs <- getitem pl "headers";
       given items <- iter hs;
       collect_thread_headers items []
     else Returned []);
  Returned (VDict [("id", id); ("threadId", threadId);
                   ("labelIds", labelIds); ("snippet", snippet);
                   ("headers", VDict headers)]).

Fixpoint thread_messages (ms : list value) : outcome (list value) :=
  match ms with
  | [] => Returned []
  | message :: rest =>
      given m <- thread_message message;
      given more <- thread_messages rest;
      Returned (m :: more)
  end.

(** The test of the inner handler of [get_thread]. *)
Definition full_not_allowed (format : option string) (error : string) : bool :=
  match format with
  | Some f =>
      String.eqb f "full"
      && match String.index 0 "Metadata scope doesn't allow format FULL" error with
         | Some _ => true
         | None => false
         end
  | None => false
  end.

(** [GmailHelper.get_thread] *)
Definition get_thread (thread_id : string) (user_id format : option string)
  : RM (result value) :=
  rdo ok <- of_M ensure_service;
  if negb ok then
    rret (mkResult VNone (Some "Failed to authenticate with Gmail"))
  else
    rtry_except
      (rdo r <- request R (ThreadsGet user_id thread_id format);
       rdo thread <-
         match r with
         | Ok thread => rret thread
         | HttpError e =>
             if full_not_allowed format e then
               rdo r2 <- request R (ThreadsGet user_id thread_id
                                      (Some "metadata"));
               match r2 with
               | Ok thread => rret thread
               | HttpError e2 | OtherError e2 => rraise e2
               end
             else rraise e
         | OtherError e => rraise e
         end;
       rdo logged <- rlift (get thread "messages" (VList []));
       rdo _ <- rlift (py_len logged);
       rdo id <- rlift (get thread "id" VNone);
       rdo historyId <- rlift (get thread "historyId" VNone);
       rdo messages <- rlift (get thread "messages" (VList []));
       rdo items <- rlift (iter messages);
       rdo processed <- rlift (thread_messages items);
       rret (mkResult (VDict [("id", id); ("historyId", historyId);
                              ("messages", VList processed)]) None))
      (fun e =>
         rret (mkResult VNone (Some ("Error getting thread details: " ++ e)))).

End Methods.

End GmailHelper.

(** ** The tool functions registered with [@mcp.tool()] *)

Module Tool.

Inductive server : Type := Gmail | Drive | Calendar | Video | Jira.

(** What a tool function returns: a pydantic model object, given by its
    class name and its fields in declaration order, or a plain [str]. *)
Inductive response : Type :=
| Model (cls : string) (fields : list (string * value))
| Plain (s : string).

Definition field (name : string) (r : response) : option value :=
  match r with
  | Model _ fields => assoc name fields
  | Plain _ => None
  end.


Inductive tool : Type :=
| list_gmail_messages
| get_gmail_profile
| setup_gmail_watch
| create_gmail_draft
| delete_gmail_draft
| get_gmail_draft
| list_gmail_drafts
| send_gmail_draft
| update_gmail_draft
| load_saved_history_id
| get_gmail_history
| authenticate_gmail
| send_gmail_message
| modify_gmail_message
| list_gmail_threads
| get_gmail_thread
| list_gmail_labels
| create_gmail_label
| update_gmail_label
| list_gmail_filters
| create_gmail_filter
| list_drive_files
| get_file_metadata
| create_drive_folder
| create_drive_document
| create_drive_spreadsheet
| create_drive_presentation
| download_drive_file
| delete_drive_file
| share_drive_file
| upload_file_to_drive
| authenticate_drive
| get_document_content_tool
| update_document_content_tool
| get_spreadsheet_content_tool
| update_spreadsheet_content_tool
| update_spreadsheet_values_tool
| get_presentation_content_tool
| update_presentation_content_tool
| move_drive_file
| list_calendars
| get_calendar
| create_calendar
| delete_calendar
| list_events
| get_event
| create_event
| update_event
| delete_event
| find_free_busy
| quick_add_event
| authenticate_calendar
| transcribe_video
| summarize_video_transcript
| summarize_video
| extract_jira_issue
.

Definition server_of (t : tool) : server :=
  match t with
  | list_gmail_messages
  | get_gmail_profile
  | setup_gmail_watch
  | create_gmail_draft
  | delete_gmail_draft
  | get_gmail_draft
  | list_gmail_drafts
  | send_gmail_draft
  | update_gmail_draft
  | load_saved_history_id
  | get_gmail_history
  | authenticate_gmail
  | send_gmail_message
  | modify_gmail_message
  | list_gmail_threads
  | get_gmail_thread
  | list_gmail_labels
  | create_gmail_label
  | update_gmail_label
  | list_gmail_filters
  | create_gmail_filter => Gmail
  | list_drive_files
  | get_file_metadata
  | create_drive_folder
  | create_drive_document
  | create_drive_spreadsheet
  | create_drive_presentation
  | download_drive_file
  | delete_drive_file
  | share_drive_file
  | upload_file_to_drive
  | authenticate_drive
  | get_document_content_tool
  | update_document_content_tool
  | get_spreadsheet_content_tool
  | update_spreadsheet_content_tool
  | update_spreadsheet_values_tool
  | get_presentation_content_tool
  | update_presentation_content_tool
  | move_drive_file => Drive
  | list_calendars
  | get_calendar
  | create_calendar
  | delete_calendar
  | list_events
  | get_event
  | create_event
  | update_event
  | delete_event
  | find_free_busy
  | quick_add_event
  | authenticate_calendar => Calendar
  | transcribe_video
  | summarize_video_transcript
  | summarize_video => Video
  | extract_jira_issue => Jira
  end.

Definition except_response (t : tool) (e : string) : response :=
  match t with
  | list_gmail_messages =>
      Model "GmailMessageResponse"
      [("messages", VList []);
       ("error", VStr ("Error in list_gmail_messages: " ++ e))]
  | get_gmail_profile =>
      Model "GmailProfileResponse"
      [("profile", VNone);
       ("error", VStr ("Error in get_gmail_profile: " ++ e))]
  | setup_gmail_watch =>
      Model "GmailWatchResponse"
      [("watch_data", VNone);
       ("error", VStr ("Error in setup_gmail_watch: " ++ e))]
  | create_gmail_draft =>
      Model "DraftResponse"
      [("draft", VNone);
       ("error", VStr ("Error in create_gmail_draft: " ++ e))]
  | delete_gmail_draft =>
      Model "DeleteDraftResponse"
      [("success", VBool false);
       ("error", VStr ("Error in delete_gmail_draft: " ++ e))]
  | get_gmail_draft =>
      Model "DraftResponse"
      [("draft", VNone); ("error", VStr ("Error in get_gmail_draft: " ++ e))]
  | list_gmail_drafts =>
      Model "ListDraftsResponse"
      [("drafts", VList []);
       ("error", VStr ("Error in list_gmail_drafts: " ++ e))]
  | send_gmail_draft =>
      Model "SendDraftResponse"
      [("message", VNone);
       ("error", VStr ("Error in send_gmail_draft: " ++ e))]
  | update_gmail_draft =>
      Model "DraftResponse"
      [("draft", VNone);
       ("error", VStr ("Error in update_gmail_draft: " ++ e))]
  | load_saved_history_id =>
      Model "LoadHistoryIdResponse"
      [("history_id", VNone);
       ("error", VStr ("Error loading saved history ID: " ++ e))]
  | get_gmail_history =>
      Model "HistoryResponse"
      [("history_records", VList []);
       ("latest_history_id", VNone);
       ("error", VStr ("Error in get_gmail_history: " ++ e))]
  | authenticate_gmail =>
      Model "AuthenticationResponse"
      [("authenticated", VBool false);
       ("message", VStr "Unexpected error during authentication");
       ("email", VNone);
       ("error", VStr ("Error in authenticate_gmail: " ++ e))]
  | send_gmail_message =>
      Model "MessageResponse"
      [("message", VNone);
       ("error", VStr ("Error in send_gmail_message: " ++ e))]
  | modify_gmail_message =>
      Model "MessageResponse"
      [("message", VNone);
       ("error", VStr ("Error in modify_gmail_message: " ++ e))]
  | list_gmail_threads =>
      Model "ThreadListResponse"
      [("threads", VList []);
       ("error", VStr ("Error in list_gmail_threads: " ++ e))]
  | get_gmail_thread =>
      Model "ThreadResponse"
      [("thread", VNone);
       ("error", VStr ("Error in get_gmail_thread: " ++ e))]
  | list_gmail_labels =>
      Model "LabelsResponse"
      [("labels", VList []);
       ("error", VStr ("Error in list_gmail_labels: " ++ e))]
  | create_gmail_label =>
      Model "LabelResponse"
      [("label", VNone);
       ("error", VStr ("Error in create_gmail_label: " ++ e))]
  | update_gmail_label =>
      Model "LabelResponse"
      [("label", VNone);
       ("error", VStr ("Error in update_gmail_label: " ++ e))]
  | list_gmail_filters =>
      Model "FiltersResponse"
      [("filters", VList []);
       ("error", VStr ("Error in list_gmail_filters: " ++ e))]
  | create_gmail_filter =>
      Model "FilterResponse"
      [("filter", VNone);
       ("error", VStr ("Error in create_gmail_filter: " ++ e))]
  | list_drive_files =>
      Model "DriveFilesResponse"
      [("files", VList []);
       ("error", VStr ("Error in list_drive_files: " ++ e))]
  | get_file_metadata =>
      Model "FileMetadataResponse"
      [("metadata", VNone);
       ("error", VStr ("Error in get_file_metadata: " ++ e))]
  | create_drive_folder =>
      Model "FolderResponse"
      [("folder", VNone);
       ("error", VStr ("Error in create_drive_folder: " ++ e))]
  | create_drive_document =>
      Model "DocumentResponse"
      [("document", VNone);
       ("error", VStr ("Error in create_drive_document: " ++ e))]
  | create_drive_spreadsheet =>
      Model "SpreadsheetResponse"
      [("spreadsheet", VNone);
       ("error", VStr ("Error in create_drive_spreadsheet: " ++ e))]
  | create_drive_presentation =>
      Model "PresentationResponse"
      [("presentation", VNone);
       ("error", VStr ("Error in create_drive_presentation: " ++ e))]
  | download_drive_file =>
      Model "DownloadFileResponse"
      [("content", VNone);
       ("mime_type", VNone);
       ("file_name", VNone);
       ("error", VStr ("Error in download_drive_file: " ++ e))]
  | delete_drive_file =>
      Model "DeleteFileResponse"
      [("success", VBool false);
       ("error", VStr ("Error in delete_drive_file: " ++ e))]
  | share_drive_file =>
      Model "ShareFileResponse"
      [("permission", VNone);
       ("error", VStr ("Error in share_drive_file: " ++ e))]
  | upload_file_to_drive =>
      Model "UploadFileResponse"
      [("file", VNone);
       ("error", VStr ("Error in upload_file_to_drive: " ++ e))]
  | authenticate_drive =>
      Model "AuthenticationResponse"
      [("authenticated", VBool false);
       ("message", VStr "Unexpected error during authentication");
       ("error", VStr ("Error in authenticate_drive: " ++ e))]
  | get_document_content_tool =>
      Model "DocumentContentResponse"
      [("content", VNone);
       ("error", VStr ("Error in get_document_content_tool: " ++ e))]
  | update_document_content_tool =>
      Model "UpdateDocumentResponse"
      [("result", VNone);
       ("error", VStr ("Error in update_document_content_tool: " ++ e))]
  | get_spreadsheet_content_tool =>
      Model "SpreadsheetContentResponse"
      [("content", VNone);
       ("error", VStr ("Error in get_spreadsheet_content_tool: " ++ e))]
  | update_spreadsheet_content_tool =>
      Model "UpdateSpreadsheetResponse"
      [("result", VNone);
       ("error", VStr ("Error in update_spreadsheet_content_tool: " ++ e))]
  | update_spreadsheet_values_tool =>
      Model "UpdateSpreadsheetValuesResponse"
      [("result", VNone);
       ("error", VStr ("Error in update_spreadsheet_values_tool: " ++ e))]
  | get_presentation_content_tool =>
      Model "PresentationContentResponse"
      [("content", VNone);
       ("error", VStr ("Error in get_presentation_content_tool: " ++ e))]
  | update_presentation_content_tool =>
      Model "UpdatePresentationResponse"
      [("result", VNone);
       ("error", VStr ("Error in update_presentation_content_tool: " ++ e))]
  | move_drive_file =>
      Model "MoveFileResponse"
      [("file", VNone); ("error", VStr ("Error in move_drive_file: " ++ e))]
  | list_calendars =>
      Model "CalendarsResponse"
      [("calendars", VList []);
       ("error", VStr ("Error in list_calendars: " ++ e))]
  | get_calendar =>
      Model "CalendarResponse"
      [("calendar", VNone); ("error", VStr ("Error in get_calendar: " ++ e))]
  | create_calendar =>
      Model "CalendarResponse"
      [("calendar", VNone);
       ("error", VStr ("Error in create_calendar: " ++ e))]
  | delete_calendar =>
      Model "DeleteCalendarResponse"
      [("success", VBool false);
       ("error", VStr ("Error in delete_calendar: " ++ e))]
  | list_events =>
      Model "EventsResponse"
      [("events", VList []); ("error", VStr ("Error in list_events: " ++ e))]
  | get_event =>
      Model "EventResponse"
      [("event", VNone); ("error", VStr ("Error in get_event: " ++ e))]
  | create_event =>
      Model "EventResponse"
      [("event", VNone); ("error", VStr ("Error in create_event: " ++ e))]
  | update_event =>
      Model "EventResponse"
      [("event", VNone); ("error", VStr ("Error in update_event: " ++ e))]
  | delete_event =>
      Model "DeleteEventResponse"
      [("success", VBool false);
       ("error", VStr ("Error in delete_event: " ++ e))]
  | find_free_busy =>
      Model "FreeBusyResponse"
      [("calendars", VDict []);
       ("error", VStr ("Error in find_free_busy: " ++ e))]
  | quick_add_event =>
      Model "EventResponse"
      [("event", VNone); ("error", VStr ("Error in quick_add_event: " ++ e))]
  | authenticate_calendar =>
      Model "AuthenticationResponse"
      [("authenticated", VBool false);
       ("message", VStr "Authentication failed due to an error");
       ("error", VStr ("Error in authenticate_calendar: " ++ e))]
  | transcribe_video =>
      Model "VideoTranscriptionResponse"
      [("transcript", VStr "");
       ("error", VStr ("Error transcribing video: " ++ e))]
  | summarize_video_transcript =>
      Plain ("Error summarizing transcript: " ++ e)
  | summarize_video =>
      Model "VideoSummarizationResponse"
      [("summary", VStr "");
       ("error", VStr ("Error summarizing video: " ++ e))]
  | extract_jira_issue =>
      Model "JiraIssueResponse"
      [("summary", VStr "");
       ("description", VStr "");
       ("error", VStr ("Error extracting Jira issue: " ++ e))]
  end.


(** [try: body  except Exception as e: ...] of tool [t], for any body. This
    is the whole of every tool function but [transcribe_video], whose [try]
    statement has a [finally] clause besides: see
    [VideoServer.transcribe_video]. *)
Definition run (t : tool) (body : M response) : M response :=
  try_except body (fun e => ret (except_response t e)).

End Tool.

(** ** The Starlette application of a server *)

Module Starlette.

(** [SseServerTransport(endpoint)] *)
Record SseServerTransport := mkSse { sse_endpoint : string }.

(** The low-level MCP server object [mcp._mcp_server], by its name. *)
Record Server := mkServer { server_name : string }.

(** The ASGI callables the applications route to: the closure [handle_sse],
    which opens [sse.connect_sse] and runs [mcp_server] on the two streams,
    and the bound method [sse.handle_post_message]. *)
Inductive asgi : Type :=
| handle_sse (sse : SseServerTransport) (mcp_server : Server)
| handle_post_message (sse : SseServerTransport).

Inductive route : Type :=
| Route (path : string) (endpoint : asgi)
| Mount (path : string) (app : asgi).

Record app := mkApp {
  debug : bool;
  routes : list route
}.

End Starlette.

(** ** gmail_mcp_tool/gmail_mcp_server.py *)

Module GmailServer.

Import GmailHelper Tool.

(** Validation of a [List[Dict[str, Any]]] field. *)
Definition list_of_dicts (l : list value) : outcome value :=
  if forallb (fun v => match v with VDict _ => true | _ => false end) l
  then Returned (VList l)
  else Raised "ValidationError: Input should be a valid dictionary".

(** Validation of an [Optional[str]] field. *)
Definition optional_str (v : value) : outcome value :=
  match v with
  | VNone | VStr _ => Returned v
  | _ => Raised "ValidationError: Input should be a valid string"
  end.

(** Validation of an [Optional[Dict[str, Any]]] field. *)
Definition optional_dict (v : value) : outcome value :=
  match v with
  | VNone | VDict _ => Returned v
  | _ => Raised "ValidationError: Input should be a valid dictionary"
  end.

Definition GmailMessageResponse (messages : list value) (error : option string)
  : outcome response :=
  given ms <- list_of_dicts messages;
  Returned (Model "GmailMessageResponse"
              [("messages", ms); ("error", of_opt error)]).

Definition HistoryResponse (history_records : list value)
    (latest_history_id : value) (error : option string) : outcome response :=
  given hs <- list_of_dicts history_records;
  given latest <- optional_str latest_history_id;
  Returned (Model "HistoryResponse"
              [("history_records", hs); ("latest_history_id", latest);
               ("error", of_opt error)]).

Definition LabelResponse (label : value) (error : option string)
  : outcome response :=
  given l <- optional_dict label;
  Returned (Model "LabelResponse" [("label", l); ("error", of_opt error)]).

(** Where a change entry takes its [label_ids] from. *)
Inductive label_ids_source : Type := FromMessage | FromItem | Omitted.

(** One entry appended to [processed_record['changes']]. *)
Definition change (type : string) (src : label_ids_source) (item : value)
  : outcome value :=
  given message <- get item "message" (VDict []);
  given message_id <- get message "id" VNone;
  given thread_id <- get message "threadId" VNone;
  match src with
  | FromMessage =>
      given label_ids <- get message "labelIds" (VList []);
      Returned (VDict [("type", VStr type); ("message_id", message_id);
                       ("thread_id", thread_id); ("label_ids", label_ids)])
  | FromItem =>
      given label_ids <- get item "labelIds" (VList []);
      Returned (VDict [("type", VStr type); ("message_id", message_id);
                       ("thread_id", thread_id); ("label_ids", label_ids)])
  | Omitted =>
      Returned (VDict [("type", VStr type); ("message_id", message_id);
                       ("thread_id", thread_id)])
  end.

Fixpoint changes_of (type : string) (src : label_ids_source)
    (items : list value) : outcome (list value) :=
  match items with
  | [] => Returned []
  | item :: rest =>
      given c <- change type src item;
      given cs <- changes_of type src rest;
      Returned (c :: cs)
  end.

(** [if key in record: for x in record[key]: changes.append(...)] *)
Definition changes_under (key type : string) (src : label_ids_source)
    (record : value) (changes : list value) : outcome (list value) :=
  given present <- contains key record;
  if present then
    given v <- getitem record key;
    given items <- iter v;
    given cs <- changes_of type src items;
    Returned (changes ++ cs)%list
  else Returned changes.

Definition process_record (record : value) : outcome value :=
  given id <- get record "id" VNone;
  given c1 <- changes_under "messagesAdded" "messageAdded" FromMessage record [];
  given c2 <- changes_under "messagesDeleted" "messageDeleted" Omitted record c1;
  given c3 <- changes_under "labelsAdded" "labelAdded" FromItem record c2;
  given c4 <- changes_under "labelsRemoved" "labelRemoved" FromItem record c3;
  Returned (VDict [("id", id); ("changes", VList c4)]).

Fixpoint process_history (records : list value) : outcome (list value) :=
  match records with
  | [] => Returned []
  | record :: rest =>
      given r <- process_record record;
      given rs <- process_history rest;
      Returned (r :: rs)
  end.

Section Tools.

Variable E : Env.

Definition list_gmail_messages (query : option string)
    (max_results : option Z) : M response :=
  run Tool.list_gmail_messages
    (do result <- list_messages E query max_results;
     if opt_truthy (error result) then
       lift (GmailMessageResponse [] (error result))
     else
       lift (GmailMessageResponse (payload result) None)).

Definition get_gmail_history (fuel : nat) (start_history_id : option string)
    (history_types : option (list string)) (max_results : option Z)
    (user_id : option string) : M response :=
  run Tool.get_gmail_history
    (do result <- get_history E fuel start_history_id history_types
                    max_results user_id;
     if opt_truthy (error result) then
       lift (HistoryResponse [] VNone (error result))
     else
       do records <- lift (iter (history (payload result)));
       do processed_history <- lift (process_history records);
       do _ <- (if truthy (latest_history_id (payload result)) then
                  do _ <- save_history_id E (latest_history_id (payload result))
                            default_history_file;
                  ret tt
                else ret tt);
       lift (HistoryResponse processed_history
               (latest_history_id (payload result)) None)).

(** The [for label in ...: if label.get('id') == request.label_id] search. *)
Fixpoint find_label (label_id : string) (labels : list value)
  : outcome (option value) :=
  match labels with
  | [] => Returned None
  | label :: rest =>
      given id <- get label "id" VNone;
      if eq_str id label_id then Returned (Some label)
      else find_label label_id rest
  end.

(** A colour of the request, or else the one of the existing label. *)
Definition fill_color (requested : option string) (key : string)
    (target_label : value) : outcome value :=
  match requested with
  | Some c => Returned (VStr c)
  | None =>
      given present <- contains "color" target_label;
      if present then
        given color <- getitem target_label "color";
        get color key VNone
      else Returned VNone
  end.

(** The [updated_label] dict built by [update_gmail_label]. *)
Definition updated_label_body (target_label : value)
    (name text_color background_color message_list_visibility
       label_list_visibility : option string)
  : outcome (gmap string value) :=
  given n <- match name with
             | Some x => Returned (VStr x)
             | None => get target_label "name" VNone
             end;
  given mlv <- match message_list_visibility with
               | Some x => Returned (VStr x)
               | None => get target_label "messageListVisibility" VNone
               end;
  given llv <- match label_list_visibility with
               | Some x => Returned (VStr x)
               | None => get target_label "labelListVisibility" VNone
               end;
  let updated_label : gmap string value :=
    <["labelListVisibility" := llv]>
      (<["messageListVisibility" := mlv]> (<["name" := n]> ∅)) in
  match text_color, background_color with
  | None, None => Returned updated_label
  | _, _ =>
      given tc <- fill_color text_color "textColor" target_label;
      given bc <- fill_color background_color "backgroundColor" target_label;
      if truthy tc && truthy bc then
        Returned (<["color" := VDict [("textColor", tc);
                                      ("backgroundColor", bc)]]> updated_label)
      else Returned updated_label
  end.

Definition update_gmail_label (label_id : string)
    (name text_color background_color message_list_visibility
       label_list_visibility user_id : option string) : M response :=
  run Tool.update_gmail_label
    (do existing <- list_labels E user_id;
     if opt_truthy (error existing) then
       lift (LabelResponse VNone
               (Some ("Failed to retrieve existing label: "
                      ++ default "" (error existing))))
     else
       do labels <- lift (iter (payload existing));
       do found <- lift (find_label label_id labels);
       match found with
       | Some target_label =>
           if truthy target_label then
             do body <- lift (updated_label_body target_label name text_color
                                background_color message_list_visibility
                                label_list_visibility);
             do result <- update_label E label_id body user_id;
             if opt_truthy (error result) then
               lift (LabelResponse VNone (error result))
             else lift (LabelResponse (payload result) None)
           else
             lift (LabelResponse VNone
                     (Some ("Label with ID " ++ label_id ++ " not found")))
       | None =>
           lift (LabelResponse VNone
                   (Some ("Label with ID " ++ label_id ++ " not found")))
       end).

Definition GmailProfileResponse (profile : value) (error : option string)
  : outcome response :=
  given p <- optional_dict profile;
  Returned (Model "GmailProfileResponse"
              [("profile", p); ("error", of_opt error)]).

Definition get_gmail_profile (user_id : option string) : M response :=
  run Tool.get_gmail_profile
    (do result <- get_profile E user_id;
     if opt_truthy (error result) then
       lift (GmailProfileResponse VNone (error result))
     else
       do _ <- lift (get (payload result) "emailAddress" VNone);
       lift (GmailProfileResponse (payload result) None)).

Definition AuthenticationResponse (authenticated : bool) (message : string)
    (email : value) (error : option string) : outcome response :=
  given e <- optional_str email;
  Returned (Model "AuthenticationResponse"
              [("authenticated", VBool authenticated);
               ("message", VStr message); ("email", e);
               ("error", of_opt error)]).

Definition authenticate_gmail : M response :=
  run Tool.authenticate_gmail
    (do auth_result <- ensure_authenticated E;
     if authenticated auth_result then
       lift (AuthenticationResponse true (message auth_result)
               (default VNone (email auth_result)) None)
     else
       lift (AuthenticationResponse false (message auth_result) VNone
               (status_error auth_result))).

Definition LoadHistoryIdResponse (history_id error : option string)
  : response :=
  Model "LoadHistoryIdResponse"
    [("history_id", of_opt history_id); ("error", of_opt error)].

Definition load_saved_history_id : M response :=
  run Tool.load_saved_history_id
    (do result <- load_history_id E default_history_file;
     ret (LoadHistoryIdResponse (payload result) (error result))).

(** [LabelsResponse]: [labels] is a [List[Dict[str, Any]]]. *)
Definition LabelsResponse (labels : value) (error : option string)
  : outcome response :=
  match labels with
  | VList l =>
      given ls <- list_of_dicts l;
      Returned (Model "LabelsResponse" [("labels", ls); ("error", of_opt error)])
  | _ => Raised "ValidationError: Input should be a valid list"
  end.

Definition list_gmail_labels (user_id : option string) : M response :=
  run Tool.list_gmail_labels
    (do result <- list_labels E user_id;
     if opt_truthy (error result) then
       lift (LabelsResponse (VList []) (error result))
     else
       do _ <- lift (py_len (payload result));
       lift (LabelsResponse (payload result) None)).

(** *** Tools over the further requests *)

Variable R : Api.

Definition rrun (t : tool) (body : RM response) : RM response :=
  rtry_except body (fun e => rret (except_response t e)).

Definition MessageResponse (message : value) (error : option string)
  : outcome response :=
  given m <- optional_dict message;
  Returned (Model "MessageResponse" [("message", m); ("error", of_opt error)]).

Definition modify_gmail_message (message_id : string)
    (add_labels remove_labels : option (list string))
    (user_id : option string) : RM response :=
  rrun Tool.modify_gmail_message
    (if negb (labels_truthy add_labels) && negb (labels_truthy remove_labels)
     then
       rlift (MessageResponse VNone
                (Some "At least one of add_labels or remove_labels must be provided"))
     else
       rdo result <- modify_message E R message_id add_labels remove_labels
                       user_id;
       if opt_truthy (error result) then
         rlift (MessageResponse VNone (error result))
       else
         rlift (MessageResponse (payload result) None)).

(** [ThreadListResponse]: [threads] is a [List[Dict[str, Any]]]. *)
Definition ThreadListResponse (threads : value) (error : option string)
  : outcome response :=
  match threads with
  | VList l =>
      given ts <- list_of_dicts l;
      Returned (Model "ThreadListResponse"
                  [("threads", ts); ("error", of_opt error)])
  | _ => Raised "ValidationError: Input should be a valid list"
  end.

Definition list_gmail_threads (query : option string)
    (max_results : option Z) (user_id : option string) : RM response :=
  rrun Tool.list_gmail_threads
    (rdo result <- list_threads E R query max_results user_id;
     if opt_truthy (error result) then
       rlift (ThreadListResponse (VList []) (error result))
     else
       rdo _ <- rlift (py_len (payload result));
       rlift (ThreadListResponse (payload result) None)).

End Tools.

Definition create_starlette_app (mcp_server : Starlette.Server)
    (debug : bool) : Starlette.app :=
  let sse := Starlette.mkSse "/messages/" in
  Starlette.mkApp debug
    [Starlette.Route "/sse" (Starlette.handle_sse sse mcp_server);
     Starlette.Mount "/messages/" (Starlette.handle_post_message sse)].

End GmailServer.

(** ** google_calender_mcp_tool/calendar_helper.py *)

Module GoogleCalendarHelper.

Section Methods.

Variable E : Env.

(** [GoogleCalendarHelper.authenticate] *)
Definition authenticate : M bool :=
  try_except
    (do loaded <-
        (if token_exists (auth E) then
           try_except
             (do c <- vendor CLoadToken (from_authorized_user_file (auth E));
              ret (Some (Some c)))
             (fun _ => ret None)
         else ret (Some None));
     match loaded with
     | None => ret false
     | Some creds =>
         do ready <-
            (if negb (creds_valid creds) then
               do creds1 <-
                  (if wants_refresh creds then
                     try_except
                       (do c <- vendor CRefresh (refresh (auth E));
                        ret (Some c))
                       (fun _ => ret None)
                   else ret creds);
               do creds2 <-
                  (if negb (creds_valid creds1) then
                     try_except
                       (do c <- vendor CRunFlow (run_local_server (auth E));
                        ret (Some c))
                       (fun _ => ret None)
                   else ret creds1);
               match creds2 with
               | None => ret None
               | Some creds3 =>
                   try_except
                     (do _ <- vendor CSaveToken (write_token (auth E));
                      ret (Some (Some creds3)))
                     (fun _ => ret None)
               end
             else ret (Some creds));
         match ready with
         | None => ret false
         | Some creds4 =>
             do _ <- set_credentials creds4;
             do _ <- vendor (CBuild "calendar" "v3") (build (auth E));
             do _ <- set_service (mkService "calendar" "v3");
             ret true
         end
     end)
    (fun _ => ret false).

(** The module-level [ensure_authenticated] of calendar_helper.py. *)
Definition ensure_authenticated : M (GmailHelper.result bool) :=
  do s <- get_service;
  match s with
  | Some _ => ret (GmailHelper.mkResult true None)
  | None =>
      do success <- authenticate;
      if negb success then
        ret (GmailHelper.mkResult false
               (Some "Failed to authenticate with Google Calendar"))
      else ret (GmailHelper.mkResult true None)
  end.


(** *** Methods that send requests *)

Variable R : Api.

(** [if not self.service: if not self.authenticate(): return ...]:
    [true] when a service is at hand afterwards. *)
Definition ensure_service : M bool :=
  do s <- get_service;
  match s with
  | Some _ => ret true
  | None => authenticate
  end.

(** [c.lower()], for code points below U+0100. *)
Definition lower_char (c : ascii) : ascii :=
  let n := N_of_ascii c in
  if ((65 <=? n) && (n <=? 90)
      || (192 <=? n) && (n <=? 222) && negb (n =? 215))%N
  then ascii_of_N (n + 32) else c.

(** [s.lower()] *)
Fixpoint lower (s : string) : string :=
  match s with
  | EmptyString => EmptyString
  | String c r => String (lower_char c) (lower r)
  end.

(** [GoogleCalendarHelper.delete_calendar] *)
Definition delete_calendar (calendar_id : string)
  : RM (GmailHelper.result bool) :=
  rdo ok <- of_M ensure_service;
  if negb ok then
    rret (GmailHelper.mkResult false
            (Some "Failed to authenticate with Google Calendar"))
  else
    rtry_except
      (if String.eqb (lower calendar_id) "primary" then
         rret (GmailHelper.mkResult false
                 (Some "Cannot delete primary calendar"))
       else
         rdo r <- request R (CalendarsDelete calendar_id);
         match r with
         | Ok _ => rret (GmailHelper.mkResult true None)
         | HttpError e | OtherError e => rraise e
         end)
      (fun e =>
         rret (GmailHelper.mkResult false
                 (Some ("Error deleting calendar " ++ calendar_id ++ ": "
                        ++ e)))).

(** [GoogleCalendarHelper.quick_add_event] *)
Definition quick_add_event (calendar_id : option string) (text : string)
  : RM (GmailHelper.result value) :=
  rdo ok <- of_M ensure_service;
  if negb ok then
    rret (GmailHelper.mkResult VNone
            (Some "Failed to authenticate with Google Calendar"))
  else if negb (str_truthy text) then
    rret (GmailHelper.mkResult VNone
            (Some "Text describing the event is required"))
  else
    rtry_except
      (rdo r <- request R (EventsQuickAdd calendar_id text);
       match r with
       | Ok created_event =>
           rdo _ <- rlift (get created_event "summary" VNone);
           rret (GmailHelper.mkResult created_event None)
       | HttpError e | OtherError e => rraise e
       end)
      (fun e =>
         rret (GmailHelper.mkResult VNone
                 (Some ("Error quick-adding event: " ++ e)))).

End Methods.

End GoogleCalendarHelper.

(** ** The other servers' [create_starlette_app] *)

Module DriveServer.

Definition create_starlette_app (mcp_server : Starlette.Server)
    (debug : bool) : Starlette.app :=
  let sse := Starlette.mkSse "/messages/" in
  Starlette.mkApp debug
    [Starlette.Route "/sse" (Starlette.handle_sse sse mcp_server);
     Starlette.Mount "/messages/" (Starlette.handle_post_message sse)].

End DriveServer.

Module CalendarServer.

Section Tools.

Variable E : Env.
Variable R : Api.

Definition DeleteCalendarResponse (success : bool) (error : option string)
  : Tool.response :=
  Tool.Model "DeleteCalendarResponse"
    [("success", VBool success); ("error", of_opt error)].

Definition delete_calendar (calendar_id : string) : RM Tool.response :=
  GmailServer.rrun Tool.delete_calendar
    (rdo result <- GoogleCalendarHelper.delete_calendar E R calendar_id;
     if opt_truthy (GmailHelper.error result) then
       rret (DeleteCalendarResponse false (GmailHelper.error result))
     else
       rret (DeleteCalendarResponse true None)).

Definition EventResponse (event : value) (error : option string)
  : outcome Tool.response :=
  given e <- GmailServer.optional_dict event;
  Returned (Tool.Model "EventResponse"
              [("event", e); ("error", of_opt error)]).

Definition quick_add_event (calendar_id : option string) (text : string)
  : RM Tool.response :=
  GmailServer.rrun Tool.quick_add_event
    (rdo result <- GoogleCalendarHelper.quick_add_event E R calendar_id text;
     if opt_truthy (GmailHelper.error result) then
       rlift (EventResponse VNone (GmailHelper.error result))
     else
       rdo _ <- rlift (get (GmailHelper.payload result) "summary" VNone);
       rlift (EventResponse (GmailHelper.payload result) None)).

End Tools.

Definition create_starlette_app (mcp_server : Starlette.Server)
    (debug : bool) : Starlette.app :=
  let sse := Starlette.mkSse "/messages/" in
  Starlette.mkApp debug
    [Starlette.Route "/sse" (Starlette.handle_sse sse mcp_server);
     Starlette.Mount "/messages/" (Starlette.handle_post_message sse)].

End CalendarServer.

Module VideoServer.

(** [os.unlink(path)] raises [OSError] with this text, when not [None]. *)
Record Disk := mkDisk {
  unlink_error : string -> option string
}.

(** [os.unlink(path)] *)
Definition unlink (D : Disk) (path : string) : M unit :=
  fun w =>
    match unlink_error D path with
    | Some e => Some (Raised e, w)
    | None => Some (Returned tt,
                    mkWorld (delete path (fs w)) (service w)
                            (credentials w) (calls w))
    end.

(** [if temp and os.path.exists(temp): os.unlink(temp)] *)
Definition remove_temporary (D : Disk) (temp : option string) : M unit :=
  match temp with
  | Some path =>
      if str_truthy path then
        do present <- path_exists path;
        if present then unlink D path else ret tt
      else ret tt
  | None => ret tt
  end.

(** The [finally] clause of [transcribe_video]; [temp_audio] and
    [temp_video] are the values the two variables have when the [try]
    statement is left. *)
Definition cleanup (D : Disk) (temp_audio temp_video : option string)
  : M unit :=
  do _ <- remove_temporary D temp_audio;
  remove_temporary D temp_video.

(** [transcribe_video], for any body of its [try] block. *)
Definition transcribe_video (D : Disk) (temp_audio temp_video : option string)
    (body : M Tool.response) : M Tool.response :=
  finally (Tool.run Tool.transcribe_video body)
    (cleanup D temp_audio temp_video).

Definition create_starlette_app (mcp_server : Starlette.Server)
    (debug : bool) : Starlette.app :=
  let sse := Starlette.mkSse "/messages/" in
  Starlette.mkApp debug
    [Starlette.Route "/sse" (Starlette.handle_sse sse mcp_server);
     Starlette.Mount "/messages/" (Starlette.handle_post_message sse)].

End VideoServer.

(** ** jira_mcp_tool/jira_mcp_server.py *)

Module JiraServer.

Import Tool.

(** What the tool reads of a [requests.Response]. *)
Record HttpResponse := mkHttpResponse {
  status_code : Z;
  text : string;
  json : outcome value
}.

Record JiraEnv := mkJiraEnv {
  getenv : string -> option string;
  (** [requests.get(url, auth=(user, token), headers=...)] *)
  requests_get : string -> string -> string -> outcome HttpResponse
}.

(** [a or b] on two [Optional[str]] *)
Definition py_or (a b : option string) : option string :=
  if opt_truthy a then a else b.

(** [sep.join(l)] *)
Fixpoint join (sep : string) (l : list string) : string :=
  match l with
  | [] => ""
  | [x] => x
  | x :: rest => x ++ sep ++ join sep rest
  end.

Definition JiraIssueResponse (summary description : value)
    (error : option string) : outcome response :=
  match summary, description with
  | VStr _, VStr _ =>
      Returned (Model "JiraIssueResponse"
                  [("summary", summary); ("description", description);
                   ("error", of_opt error)])
  | _, _ => Raised "ValidationError: Input should be a valid string"
  end.

(** The inner loop: the text nodes of one paragraph, appended to
    [description_text]. *)
Fixpoint paragraph_text (nodes : list value) (description_text : string)
  : outcome string :=
  match nodes with
  | [] => Returned description_text
  | text_content :: rest =>
      given type <- get text_content "type" VNone;
      if eq_str type "text" then
        given t <- get text_content "text" (VStr "");
        match t with
        | VStr t => paragraph_text rest (description_text ++ t)
        | _ => Raised "TypeError: can only concatenate str to str"
        end
      else paragraph_text rest description_text
  end.

(** The outer loop over the top-level elements of the document. *)
Fixpoint document_text (elements : list value) (description_text : string)
  : outcome string :=
  match elements with
  | [] => Returned description_text
  | content :: rest =>
      given type <- get content "type" VNone;
      given has_content <- (if eq_str type "paragraph"
                            then contains "content" content
                            else Returned false);
      if has_content then
        given inner <- get content "content" (VList []);
        given nodes <- iter inner;
        given description_text' <- paragraph_text nodes description_text;
        document_text rest (description_text' ++ String LF EmptyString)
      else document_text rest description_text
  end.

(** [description], after the Atlassian Document Format branch. *)
Definition plain_description (description : value) : outcome value :=
  match description with
  | VDict d =>
      match assoc "content" d with
      | Some _ =>
          given content <- get description "content" (VList []);
          given elements <- iter content;
          given description_text <- document_text elements "";
          Returned (VStr description_text)
      | None => Returned description
      end
  | _ => Returned description
  end.

Section Tools.

Variable J : JiraEnv.

Definition missing_vars (jira_base_url jira_email jira_api_token : option string)
  : list string :=
  ((if opt_truthy jira_base_url then [] else ["JIRA_BASE_URL/JIRA_INSTANCE_URL"])
   ++ (if opt_truthy jira_email then [] else ["JIRA_EMAIL/JIRA_USERNAME"])
   ++ (if opt_truthy jira_api_token then [] else ["JIRA_API_TOKEN"]))%list.

Definition extract_jira_issue (issue_key : string) : M response :=
  run Tool.extract_jira_issue
    (let jira_base_url := py_or (getenv J "JIRA_BASE_URL")
                                (getenv J "JIRA_INSTANCE_URL") in
     let jira_email := py_or (getenv J "JIRA_EMAIL")
                             (getenv J "JIRA_USERNAME") in
     let jira_api_token := getenv J "JIRA_API_TOKEN" in
     if negb (opt_truthy jira_base_url) || negb (opt_truthy jira_email)
        || negb (opt_truthy jira_api_token)
     then
       lift (JiraIssueResponse (VStr "") (VStr "")
               (Some ("Jira credentials not found in environment variables: "
                      ++ join ", " (missing_vars jira_base_url jira_email
                                      jira_api_token))))
     else
       let api_url := default "" jira_base_url ++ "/rest/api/3/issue/"
                      ++ issue_key in
       do response <- vendor (CHttpGet api_url (default "" jira_email)
                                (default "" jira_api_token))
                        (requests_get J api_url (default "" jira_email)
                           (default "" jira_api_token));
       if negb (Z.eqb (status_code response) 200) then
         lift (JiraIssueResponse (VStr "") (VStr "")
                 (Some ("Failed to fetch Jira issue: "
                        ++ pretty (status_code response) ++ " - "
                        ++ text response)))
       else
         do issue_data <- lift (json response);
         do fields <- lift (get issue_data "fields" (VDict []));
         do summary <- lift (get fields "summary" (VStr ""));
         do fields' <- lift (get issue_data "fields" (VDict []));
         do description <- lift (get fields' "description" (VStr ""));
         do description' <- lift (plain_description description);
         lift (JiraIssueResponse summary description' None)).

End Tools.

Definition create_starlette_app (mcp_server : Starlette.Server)
    (debug : bool) : Starlette.app :=
  let sse := Starlette.mkSse "/messages/" in
  Starlette.mkApp debug
    [Starlette.Route "/sse" (Starlette.handle_sse sse mcp_server);
     Starlette.Mount "/messages/" (Starlette.handle_post_message sse)].

End JiraServer.

(** [create_starlette_app] of each server module. *)
Definition app_of (s : Tool.server) : Starlette.Server -> bool -> Starlette.app :=
  match s with
  | Tool.Gmail => GmailServer.create_starlette_app
  | Tool.Drive => DriveServer.create_starlette_app
  | Tool.Calendar => CalendarServer.create_starlette_app
  | Tool.Video => VideoServer.create_starlette_app
  | Tool.Jira => JiraServer.create_starlette_app
  end.

(** A tool function, for any body of its [try] block: the [try] statement
    with its handler and, for [transcribe_video], its [finally] clause. *)
Definition tool_function (D : VideoServer.Disk)
    (temp_audio temp_video : option string) (t : Tool.tool)
    (body : M Tool.response) : M Tool.response :=
  match t with
  | Tool.transcribe_video =>
      VideoServer.transcribe_video D temp_audio temp_video body
  | _ => Tool.run t body
  end.

(** * Properties *)

(** ** Statements taken from the specification, as predicates *)

Module Claims.

Import Tool.



(** A match of a search that cannot be retrieved: it has an [id], and the
    request for the message of that [id] raises. *)
Definition retrieval_fails (E : Env) (message : value) : Prop :=
  exists id e,
    getitem message "id" = Returned id
    /\ messages_get (api E) id = Raised e.

(** The text of a query in an f-string. *)
Definition query_text (query : option string) : string :=
  match query with Some q => q | None => "None" end.


Definition first_char (s : string) : option ascii :=
  match s with
  | EmptyString => None
  | String c _ => Some c
  end.

Fixpoint last_char (s : string) : option ascii :=
  match s with
  | EmptyString => None
  | String c r =>
      match r with
      | EmptyString => Some c
      | String _ _ => last_char r
      end
  end.

(** "no leading or trailing whitespace" *)
Definition no_edge_whitespace (s : string) : bool :=
  match first_char s, last_char s with
  | Some a, Some b => negb (isspace a) && negb (isspace b)
  | _, _ => true
  end.

Fixpoint has_cr (s : string) : bool :=
  match s with
  | EmptyString => false
  | String c r => Ascii.eqb c CR || has_cr r
  end.

(** A call with the arguments of [build] left out. *)
Definition forget_build (c : Call) : Call :=
  match c with
  | CBuild _ _ => CBuild "" ""
  | _ => c
  end.

(** Calls of the OAuth library and of [build]. *)
Definition is_auth_call (c : Call) : bool :=
  match c with
  | CLoadToken | CRefresh | CRunFlow | CSaveToken | CBuild _ _ => true
  | _ => false
  end.

Definition is_dict (v : value) : bool :=
  match v with VDict _ => true | _ => false end.

(** What [list_messages] returns: messages and no error, or no messages and
    an error text that is not empty. *)
Definition messages_result_shape (r : GmailHelper.result (list value)) : bool :=
  match GmailHelper.error r with
  | Some e => str_truthy e
              && match GmailHelper.payload r with [] => true | _ => false end
  | None => match GmailHelper.payload r with [] => false | _ => true end
            && forallb is_dict (GmailHelper.payload r)
  end.

(** Number of [history().list] requests in a call log. *)
Definition history_list_calls (cs : list Call) : nat :=
  length (List.filter (fun c => match c with CHistoryList _ => true | _ => false end) cs).

(** The world after further vendor calls. *)
Definition add_calls (w : World) (cs : list Call) : World :=
  mkWorld (fs w) (service w) (credentials w) (calls w ++ cs).

(** The pages the Gmail API serves after a response that carried the token
    [tok]: the records they hold, in order, and the requests that fetch
    them. *)
Inductive pages (E : Env) (params : HistoryParams)
  : value -> list value -> list Call -> Prop :=
| pages_end (tok : value) :
    truthy tok = false ->
    pages E params tok [] []
| pages_next (tok response more_v tok' : value) (more rest : list value)
    (cs : list Call) :
    truthy tok = true ->
    history_list (api E) (GmailHelper.with_pageToken params tok)
    = Returned response ->
    get response "history" (VList []) = Returned more_v ->
    iter more_v = Returned more ->
    get response "nextPageToken" VNone = Returned tok' ->
    pages E (GmailHelper.with_pageToken params tok) tok' rest cs ->
    pages E params tok (more ++ rest)
      (CHistoryList (GmailHelper.with_pageToken params tok) :: cs).

(** C1 as the specification words it: one [history().list] request, whose
    records are returned as they are. *)
Definition single_call (E : Env) (fuel : nat) (start : string)
    (history_types : option (list string)) (max_results : option Z)
    (user_id : option string) (w : World) : Prop :=
  forall r w',
    GmailHelper.get_history E fuel (Some start) history_types max_results
      user_id w = Some (Returned r, w') ->
    exists params response,
      history_list_calls (calls w') = S (history_list_calls (calls w))
      /\ In (CHistoryList params) (calls w')
      /\ history_list (api E) params = Returned response
      /\ get response "history" (VList [])
         = Returned (GmailHelper.history (GmailHelper.payload r)).

(** C9 as the specification words it. *)
Definition baseline (E : Env) (fuel : nat) (start : option string)
    (history_types : option (list string)) (max_results : option Z)
    (user_id : option string) (w : World) : Prop :=
  opt_truthy start = false ->
  forall r w',
    GmailHelper.get_history E fuel start history_types max_results
      user_id w = Some (Returned r, w') ->
    history_list_calls (calls w') = history_list_calls (calls w)
    /\ exists profile,
        getProfile (api E) user_id = Returned profile
        /\ GmailHelper.history (GmailHelper.payload r) = VList []
        /\ get profile "historyId" VNone
           = Returned (GmailHelper.latest_history_id (GmailHelper.payload r))
        /\ GmailHelper.error r = None.



(** A field of the label body: the request's value, or else the existing
    label's (and [None] when the label has none). *)
Definition kept (requested : option string) (key : string)
    (d : list (string * value)) : value :=
  match requested with
  | Some x => VStr x
  | None => default VNone (assoc key d)
  end.

(** *** Atlassian Document Format, read as the specification describes *)

Definition type_is (name : string) (v : value) : bool :=
  match v with
  | VDict d => eq_str (default VNone (assoc "type" d)) name
  | _ => false
  end.

(** The text of a text node, and nothing for any other node. *)
Definition node_text (node : value) : string :=
  match node with
  | VDict d =>
      if type_is "text" node then
        match assoc "text" d with
        | Some (VStr t) => t
        | _ => ""
        end
      else ""
  | _ => ""
  end.

Definition nodes_of (element : value) : list value :=
  match element with
  | VDict d => match assoc "content" d with
               | Some (VList l) => l
               | _ => []
               end
  | _ => []
  end.

Definition has_content (element : value) : bool :=
  match element with
  | VDict d => match assoc "content" d with Some _ => true | None => false end
  | _ => false
  end.

Definition paragraph_line (element : value) : string :=
  fold_right (fun node acc => node_text node ++ acc) "" (nodes_of element)
  ++ String LF EmptyString.

(** Every top-level paragraph gives its text and a newline. *)
Definition adf_text_as_specified (elements : list value) : string :=
  fold_right (fun e acc => paragraph_line e ++ acc) ""
    (List.filter (type_is "paragraph") elements).

(** Only the paragraphs with a [content] key do. *)
Definition adf_text (elements : list value) : string :=
  fold_right (fun e acc => paragraph_line e ++ acc) ""
    (List.filter (fun e => type_is "paragraph" e && has_content e) elements).

(** Documents on which the extraction raises no exception: elements and
    nodes are dicts, the [content] of a paragraph is a list, the [text] of a
    text node is a string. *)
Definition node_ok (node : value) : bool :=
  match node with
  | VDict d =>
      if type_is "text" node then
        match assoc "text" d with
        | Some (VStr _) | None => true
        | Some _ => false
        end
      else true
  | _ => false
  end.

Definition element_ok (element : value) : bool :=
  match element with
  | VDict d =>
      if type_is "paragraph" element then
        match assoc "content" d with
        | Some (VList l) => forallb node_ok l
        | Some _ => false
        | None => true
        end
      else true
  | _ => false
  end.

(** The last part of C6 as the specification words it. *)
Definition description_as_specified (J : JiraServer.JiraEnv)
    (issue_key : string) (w : World) : Prop :=
  forall resp w' url user token response issue fields d elements,
    JiraServer.extract_jira_issue J issue_key w = Some (Returned resp, w') ->
    JiraServer.requests_get J url user token = Returned response ->
    JiraServer.status_code response = 200%Z ->
    JiraServer.json response = Returned issue ->
    get issue "fields" (VDict []) = Returned fields ->
    get fields "description" (VStr "") = Returned (VDict d) ->
    assoc "content" d = Some (VList elements) ->
    Tool.field "description" resp
    = Some (VStr (adf_text_as_specified elements)).

(** The round trip of C3 as the specification words it. *)
Definition round_trip (E : Env) (history_id path : string) (w : World) : Prop :=
  no_edge_whitespace history_id = true ->
  forall r w',
    GmailHelper.save_history_id E (VStr history_id) path w
    = Some (Returned r, w') ->
    GmailHelper.payload r = true ->
    GmailHelper.error r = None ->
    fs w' !! path = Some history_id
    /\ GmailHelper.load_history_id E path w'
       = Some (Returned (GmailHelper.mkResult (Some history_id) None), w').

End Claims.

(** ** Concrete environments used in examples *)

Module Examples.

Definition no_creds : outcome Creds := Raised "no token".

(** Every OAuth call fails. *)
Definition failing_auth : AuthOutcomes :=
  mkAuthOutcomes false no_creds no_creds no_creds
    (Raised "read-only") (Raised "no network").

(** Every Gmail call fails. *)
Definition failing_api : GmailApi :=
  mkGmailApi (fun _ _ => Raised "unavailable") (fun _ => Raised "unavailable")
    (fun _ => Raised "unavailable") (fun _ => Raised "unavailable")
    (fun _ => Raised "unavailable") (fun _ _ _ => Raised "unavailable").

(** Files can be opened at will. *)
Definition open_env (a : AuthOutcomes) (g : GmailApi) : Env :=
  mkEnv a g (fun _ => None) (fun _ _ => None) (fun _ => None)
    (fun _ => "[...]").


(** The disk is full: files are opened, hence emptied, and nothing can be
    written to them. *)
Definition full_disk_env (a : AuthOutcomes) (g : GmailApi) : Env :=
  mkEnv a g (fun _ => None)
    (fun _ _ => Some ("No space left on device", 0))
    (fun _ => None) (fun _ => "[...]").

(** The OAuth token is on disk and valid. *)
Definition working_auth : AuthOutcomes :=
  mkAuthOutcomes true (Returned (mkCreds true false (Some "r")))
    (Returned (mkCreds true false (Some "r")))
    (Returned (mkCreds true false (Some "r")))
    (Returned tt) (Returned tt).

(** A world in which the Gmail service object is already built. *)
Definition ready_world : World :=
  mkWorld ∅ (Some (mkService "gmail" "v1")) None [].

Definition record (id : string) : value := VDict [("id", VStr id)].

(** A mailbox whose history comes in two pages of one record each, and
    whose profile carries the history ID 250. *)
Definition two_pages_api : GmailApi :=
  mkGmailApi (fun _ _ => Raised "unavailable") (fun _ => Raised "unavailable")
    (fun _ => Returned (VDict [("emailAddress", VStr "a@b.c");
                               ("historyId", VStr "250")]))
    (fun params =>
       match pageToken params with
       | None => Returned (VDict [("history", VList [record "101"]);
                                  ("nextPageToken", VStr "p2")])
       | Some _ => Returned (VDict [("history", VList [record "102"])])
       end)
    (fun _ => Raised "unavailable") (fun _ _ _ => Raised "unavailable").

(** A mailbox with a single history record, 42, on a single page. *)
Definition one_record_api : GmailApi :=
  mkGmailApi (fun _ _ => Raised "unavailable") (fun _ => Raised "unavailable")
    (fun _ => Raised "unavailable")
    (fun _ => Returned (VDict [("history", VList [record "42"])]))
    (fun _ => Raised "unavailable") (fun _ _ _ => Raised "unavailable").

(** A mailbox with two labels; an update answers with the body it is sent. *)
Definition work_label : list (string * value) :=
  [("id", VStr "Label_2"); ("name", VStr "Work");
   ("messageListVisibility", VStr "show");
   ("labelListVisibility", VStr "labelShow");
   ("color", VDict [("textColor", VStr "#000000");
                    ("backgroundColor", VStr "#ffffff")])].

Definition labels_api : GmailApi :=
  mkGmailApi (fun _ _ => Raised "unavailable") (fun _ => Raised "unavailable")
    (fun _ => Raised "unavailable") (fun _ => Raised "unavailable")
    (fun _ => Returned (VDict [("labels",
                                VList [VDict [("id", VStr "INBOX");
                                              ("name", VStr "INBOX")];
                                       VDict work_label])]))
    (fun _ _ body => Returned (VDict (map_to_list body))).

(** A Jira site with complete credentials whose issues all have the given
    description. *)
Definition jira_site (description : value) : JiraServer.JiraEnv :=
  JiraServer.mkJiraEnv
    (fun name =>
       if String.eqb name "JIRA_BASE_URL" then Some "https://x.atlassian.net"
       else if String.eqb name "JIRA_EMAIL" then Some "me@x.org"
       else if String.eqb name "JIRA_API_TOKEN" then Some "secret"
       else None)
    (fun _ _ _ =>
       Returned (JiraServer.mkHttpResponse 200 "{...}"
                   (Returned (VDict [("fields",
                                      VDict [("summary", VStr "Fix login");
                                             ("description", description)])])))).

Definition text_node (t : string) : value :=
  VDict [("type", VStr "text"); ("text", VStr t)].

(** A document with one empty paragraph, which has no [content] key. *)
Definition empty_paragraph_doc : value :=
  VDict [("type", VStr "doc"); ("version", VInt 1);
         ("content", VList [VDict [("type", VStr "paragraph")]])].

(** A heading, a paragraph of two text nodes around a mention, an empty
    paragraph and a last paragraph. *)
Definition sample_doc : value :=
  VDict [("type", VStr "doc"); ("version", VInt 1);
         ("content",
          VList [VDict [("type", VStr "heading");
                        ("content", VList [text_node "Title"])];
                 VDict [("type", VStr "paragraph");
                        ("content",
                         VList [text_node "Hello ";
                                VDict [("type", VStr "mention")];
                                text_node "world"])];
                 VDict [("type", VStr "paragraph")];
                 VDict [("type", VStr "paragraph");
                        ("content", VList [text_node "Bye"])]])].

(** The digits 1 and 2 with a carriage return between them. *)
Definition id_with_cr : string :=
  String "1" (String CR (String "2" EmptyString)).

End Examples.

(** ** Further notions used in the statements *)

Module Facts.

(** [True] for an outcome that is a return. *)
Definition returned {A} (o : outcome A) : bool :=
  match o with Returned _ => true | Raised _ => false end.

(** The value under ["id"] of a dict, [None] where there is none. *)
Definition id_of (v : value) : value :=
  match v with
  | VDict d => default VNone (assoc "id" d)
  | _ => VNone
  end.

(** The value under ["type"] of a change entry. *)
Definition type_of (v : value) : value :=
  match v with
  | VDict d => default VNone (assoc "type" d)
  | _ => VNone
  end.

(** Number of items the loop over [record[key]] visits. *)
Definition items_under (key : string) (d : list (string * value)) : nat :=
  match assoc key d with
  | Some v => match iter v with Returned l => length l | Raised _ => 0 end
  | None => 0
  end.

Definition wanted_name (k : string) : bool :=
  String.eqb k "Subject" || String.eqb k "From" || String.eqb k "Date".

(** An entry of the list [list_messages] returns. *)
Definition message_entry (v : value) : Prop :=
  exists id headers snippet,
    v = VDict [("id", id); ("headers", VDict headers); ("snippet", snippet)]
    /\ NoDup (map fst headers)
    /\ Forall (fun k => wanted_name k = true) (map fst headers).

Definition count_calls (p : Call -> bool) (cs : list Call) : nat :=
  length (List.filter p cs).


Definition is_messages_get (c : Call) : bool :=
  match c with CMessagesGet _ => true | _ => false end.

Definition is_threads_get (r : Request) : bool :=
  match r with ThreadsGet _ _ _ => true | _ => false end.

Definition thread_name (k : string) : bool :=
  String.eqb k "Subject" || String.eqb k "From" || String.eqb k "To"
  || String.eqb k "Date".

(** An entry of the [messages] list [get_thread] returns. *)
Definition thread_entry (v : value) : Prop :=
  exists id threadId labelIds snippet headers,
    v = VDict [("id", id); ("threadId", threadId); ("labelIds", labelIds);
               ("snippet", snippet); ("headers", VDict headers)]
    /\ NoDup (map fst headers)
    /\ Forall (fun k => thread_name k = true) (map fst headers).

(** The capital of a small ASCII letter. *)
Definition capital (l : ascii) : ascii := ascii_of_N (N_of_ascii l - 32).

(** [s] is [word] up to the case of its letters. *)
Fixpoint spelled (word s : string) : bool :=
  match word, s with
  | EmptyString, EmptyString => true
  | String l word', String c s' =>
      (Ascii.eqb c l || Ascii.eqb c (capital l)) && spelled word' s'
  | _, _ => false
  end.

(** The phrase by which the API refuses format [full]. *)
Definition refuses_full (error : string) : bool :=
  match String.index 0 "Metadata scope doesn't allow format FULL" error with
  | Some _ => true
  | None => false
  end.

(** Format [full] was asked for and the request was refused with an
    [HttpError] that says the scope does not allow it. *)
Definition full_refused (R : Api) (user_id : option string)
    (thread_id : string) (format : option string) : bool :=
  match execute R (ThreadsGet user_id thread_id format) with
  | HttpError e =>
      match format with
      | Some f => String.eqb f "full" && refuses_full e
      | None => false
      end
  | _ => false
  end.

End Facts.

(** ** Further environments *)

Module Scenarios.

(** A mailbox with two messages; the first can be fetched and carries four
    headers, the second cannot. *)
Definition inbox_api : GmailApi :=
  mkGmailApi
    (fun _ _ => Returned (VDict [("messages",
                                  VList [VDict [("id", VStr "m1")];
                                         VDict [("id", VStr "m2")]])]))
    (fun id =>
       if eq_str id "m1" then
         Returned
           (VDict [("snippet", VStr "Hi there");
                   ("payload",
                    VDict [("headers",
                            VList [VDict [("name", VStr "Subject");
                                          ("value", VStr "Hello")];
                                   VDict [("name", VStr "X-Mailer");
                                          ("value", VStr "mutt")];
                                   VDict [("name", VStr "From");
                                          ("value", VStr "a@b.c")];
                                   VDict [("name", VStr "Subject");
                                          ("value", VStr "Hello again")]])])])
       else Raised "not found")
    (fun _ => Returned (VDict [("emailAddress", VStr "me@x.org");
                               ("historyId", VStr "250")]))
    (fun _ => Raised "unavailable")
    (fun _ => Returned (VDict [("labels", VList [])]))
    (fun _ _ _ => Raised "unavailable").

(** A history record with one added message and one removed label. *)
Definition changed_record : list (string * value) :=
  [("id", VStr "7");
   ("messagesAdded",
    VList [VDict [("message",
                   VDict [("id", VStr "m1"); ("threadId", VStr "t1");
                          ("labelIds", VList [VStr "INBOX"])])]]);
   ("labelsRemoved",
    VList [VDict [("message", VDict [("id", VStr "m2")]);
                  ("labelIds", VList [VStr "UNREAD"])]])].

(** Credentials on disk that have expired and carry a refresh token; the
    refresh fails, the browser flow works. *)
Definition stale_auth : AuthOutcomes :=
  mkAuthOutcomes true (Returned (mkCreds false true (Some "r")))
    (Raised "invalid_grant")
    (Returned (mkCreds true false (Some "r2")))
    (Returned tt) (Returned tt).

(** A Jira site reached through the second pair of variable names. *)
Definition fallback_site : JiraServer.JiraEnv :=
  JiraServer.mkJiraEnv
    (fun name =>
       if String.eqb name "JIRA_BASE_URL" then Some ""
       else if String.eqb name "JIRA_INSTANCE_URL" then Some "https://y.example"
       else if String.eqb name "JIRA_USERNAME" then Some "bob"
       else if String.eqb name "JIRA_API_TOKEN" then Some "tok"
       else None)
    (fun _ _ _ =>
       Returned (JiraServer.mkHttpResponse 200 "{...}"
                   (Returned (VDict [("fields",
                                      VDict [("summary", VStr "S");
                                             ("description", VStr "plain")])])))).

(** A Jira environment in which only the base URL is set. *)
Definition url_only_site : JiraServer.JiraEnv :=
  JiraServer.mkJiraEnv
    (fun name =>
       if String.eqb name "JIRA_BASE_URL" then Some "https://y.example"
       else None)
    (fun _ _ _ => Raised "offline").

(** A Jira site whose issue has no description: the field is null. *)
Definition null_description_site : JiraServer.JiraEnv :=
  JiraServer.mkJiraEnv
    (fun name =>
       if String.eqb name "JIRA_BASE_URL" then Some "https://x.atlassian.net"
       else if String.eqb name "JIRA_EMAIL" then Some "me@x.org"
       else if String.eqb name "JIRA_API_TOKEN" then Some "secret"
       else None)
    (fun _ _ _ =>
       Returned (JiraServer.mkHttpResponse 200 "{...}"
                   (Returned (VDict [("fields",
                                      VDict [("summary", VStr "Fix login");
                                             ("description", VNone)])])))).

(** A session with the service built and nothing requested so far. *)
Definition ready_session : Session := mkSession Examples.ready_world [].

(** Every request is refused with an [HttpError]. *)
Definition refusing : Api := mkApi (fun _ => HttpError "<HttpError 403>").

Definition small_thread : value :=
  VDict [("id", VStr "t1"); ("historyId", VStr "9");
         ("messages",
          VList [VDict [("id", VStr "m1"); ("threadId", VStr "t1");
                        ("payload",
                         VDict [("headers",
                                 VList [VDict [("name", VStr "To");
                                               ("value", VStr "a@b.c")];
                                        VDict [("name", VStr "Cc");
                                               ("value", VStr "d@e.f")]])])];
                 VDict [("id", VStr "m2")]])].

(** An account whose scope allows the metadata of a thread and refuses
    format [full]. *)
Definition metadata_only : Api :=
  mkApi (fun r =>
           match r with
           | ThreadsGet _ _ (Some "full") =>
               HttpError "<HttpError 403 Metadata scope doesn't allow format FULL>"
           | ThreadsGet _ _ _ => Ok small_thread
           | _ => HttpError "<HttpError 404>"
           end).

(** Every request is accepted, with an empty answer. *)
Definition accepting : Api := mkApi (fun _ => Ok (VDict [])).

End Scenarios.

(** Case analysis on every [match] and [if] of the goal, innermost first. *)
Ltac jira_cases :=
  repeat match goal with
         | |- context [match ?x with _ => _ end] =>
             lazymatch x with
             | context [match _ with _ => _ end] => fail
             | _ => destruct x
             end
         | |- context [if ?x then _ else _] => destruct x
         end.

(** A world with nothing on disk, no service object and an empty call log. *)
Definition empty_world : World := mkWorld ∅ None None [].

(** ** The embedding on concrete inputs *)

Example strip_example : strip "  12 34 " = "12 34".
Proof. reflexivity. Qed.

Example universal_newlines_example :
  universal_newlines Examples.id_with_cr
  = String "1" (String LF (String "2" EmptyString)).
Proof. reflexivity. Qed.

Example authenticate_with_valid_token :
  GmailHelper.authenticate
    (Examples.open_env Examples.working_auth Examples.failing_api) empty_world
  = Some (Returned true,
          mkWorld ∅ (Some (mkService "gmail" "v1")) None
            [CLoadToken; CBuild "gmail" "v1"]).
Proof. reflexivity. Qed.

Example authenticate_without_anything :
  GmailHelper.authenticate
    (Examples.open_env Examples.failing_auth Examples.failing_api) empty_world
  = Some (Returned false, mkWorld ∅ None None [CRunFlow]).
Proof. reflexivity. Qed.

Example process_record_example :
  GmailServer.process_record
    (VDict [("id", VStr "7");
            ("messagesAdded",
             VList [VDict [("message",
                            VDict [("id", VStr "m1"); ("threadId", VStr "t1");
                                   ("labelIds", VList [VStr "INBOX"])])]]);
            ("labelsRemoved",
             VList [VDict [("message", VDict [("id", VStr "m2")]);
                           ("labelIds", VList [VStr "UNREAD"])]])])
  = Returned
      (VDict [("id", VStr "7");
              ("changes",
               VList [VDict [("type", VStr "messageAdded");
                             ("message_id", VStr "m1");
                             ("thread_id", VStr "t1");
                             ("label_ids", VList [VStr "INBOX"])];
                      VDict [("type", VStr "labelRemoved");
                             ("message_id", VStr "m2");
                             ("thread_id", VNone);
                             ("label_ids", VList [VStr "UNREAD"])]])]).
Proof. reflexivity. Qed.

Example adf_text_example :
  Claims.adf_text (Claims.nodes_of Examples.sample_doc)
  = "Hello world" ++ String LF ("Bye" ++ String LF EmptyString).
Proof. reflexivity. Qed.

Example missing_credentials_example :
  JiraServer.extract_jira_issue
    (JiraServer.mkJiraEnv (fun _ => None) (fun _ _ _ => Raised "offline"))
    "PROJ-1" empty_world
  = Some (Returned
            (Tool.Model "JiraIssueResponse"
               [("summary", VStr ""); ("description", VStr "");
                ("error",
                 VStr ("Jira credentials not found in environment variables: "
                       ++ "JIRA_BASE_URL/JIRA_INSTANCE_URL, "
                       ++ "JIRA_EMAIL/JIRA_USERNAME, JIRA_API_TOKEN"))]),
          empty_world).
Proof. reflexivity. Qed.

(** Case analysis on the scrutinee of the outermost [match] or [if] of the
    goal that is not itself built from one. *)
Ltac case_split :=
  match goal with
  | |- context [match ?x with _ => _ end] =>
      lazymatch x with
      | context [match _ with _ => _ end] => fail
      | _ => let H := fresh "Hcase" in destruct x eqn:H; cbn in *
      end
  | |- context [if ?x then _ else _] =>
      lazymatch x with
      | context [if _ then _ else _] => fail
      | _ => let H := fresh "Hcase" in destruct x eqn:H; cbn in *
      end
  end.

(** ** The Starlette applications *)

(** C7. In every server module [create_starlette_app] returns an application
    whose route table has exactly two entries, a [Route] at "/sse" to the SSE
    connection handler and a [Mount] at "/messages/" to the POST handler of
    the same SSE transport, and the five modules build the same
    application. *)
Theorem create_starlette_app_routes :
  forall (s : Tool.server) (mcp_server : Starlette.Server) (debug : bool),
    let sse := Starlette.mkSse "/messages/" in
    Starlette.routes (app_of s mcp_server debug)
    = [Starlette.Route "/sse" (Starlette.handle_sse sse mcp_server);
       Starlette.Mount "/messages/" (Starlette.handle_post_message sse)]
    /\ length (Starlette.routes (app_of s mcp_server debug)) = 2
    /\ Starlette.debug (app_of s mcp_server debug) = debug
    /\ forall s', app_of s' mcp_server debug = app_of s mcp_server debug.
Proof.
  intros s mcp_server dbg sse.
  destruct s; (repeat split; try reflexivity); intros s'; destruct s'; reflexivity.
Qed.

(** ** Error wrapping of the tool functions *)

Lemma run_returned (t : Tool.tool) (body : M Tool.response) w r w' :
  body w = Some (Returned r, w') ->
  Tool.run t body w = Some (Returned r, w').
Proof. intros H. unfold Tool.run, try_except. rewrite H. reflexivity. Qed.

Lemma run_raised (t : Tool.tool) (body : M Tool.response) w e w' :
  body w = Some (Raised e, w') ->
  Tool.run t body w = Some (Returned (Tool.except_response t e), w').
Proof. intros H. unfold Tool.run, try_except. rewrite H. reflexivity. Qed.



(** An exception can leave [transcribe_video]: when the body has raised and
    the handler has built its response, the [finally] clause removes the
    temporary files, and an exception of [os.unlink] there replaces the
    response. *)
Lemma transcribe_video_cleanup_raises :
  let D := VideoServer.mkDisk (fun _ => Some "Permission denied") in
  let w := mkWorld (<["/tmp/a.mp3" := ""]> ∅) None None [] in
  tool_function D (Some "/tmp/a.mp3") None Tool.transcribe_video
    (raise "boom") w
  = Some (Raised "Permission denied", w).
Proof. reflexivity. Qed.



(** ** The saved history ID *)

Lemma lstrip_clean s :
  (forall c, Claims.first_char s = Some c -> isspace c = false) ->
  lstrip s = s.
Proof.
  destruct s as [|c r]; simpl; [reflexivity|].
  intros H. rewrite (H c eq_refl). reflexivity.
Qed.

Lemma rstrip_clean s :
  (forall c, Claims.last_char s = Some c -> isspace c = false) ->
  rstrip s = s.
Proof.
  induction s as [|c r IH]; simpl; [reflexivity|].
  destruct r as [|c' r'].
  - intros H. simpl. rewrite (H c eq_refl). reflexivity.
  - intros H. rewrite (IH H). reflexivity.
Qed.

Lemma strip_clean s : Claims.no_edge_whitespace s = true -> strip s = s.
Proof.
  unfold Claims.no_edge_whitespace, strip. intros H.
  destruct s as [|c r]; [reflexivity|].
  simpl Claims.first_char in H.
  destruct (Claims.last_char (String c r)) as [b|] eqn:Hl.
  - apply andb_prop in H. destruct H as [Ha Hb].
    apply negb_true_iff in Ha, Hb.
    rewrite lstrip_clean.
    + apply rstrip_clean. intros x Hx. rewrite Hl in Hx.
      inversion Hx; subst. exact Hb.
    + simpl. intros x Hx. inversion Hx; subst. exact Ha.
  - exfalso. clear H. revert c Hl.
    induction r as [|c' r' IH]; intros c Hl; simpl in Hl; [discriminate|].
    exact (IH c' Hl).
Qed.

Lemma universal_newlines_without_cr s :
  Claims.has_cr s = false -> universal_newlines s = s.
Proof.
  induction s as [|c r IH]; simpl; [reflexivity|].
  intros H. apply orb_false_iff in H. destruct H as [Hc Hr].
  rewrite Hc, (IH Hr). reflexivity.
Qed.

(** C3, as the specification has it, fails for an ID with a carriage return
    inside: the text is written as it is and read back with the carriage
    return turned into a line feed. *)
Lemma round_trip_fails_with_cr :
  ~ Claims.round_trip (Examples.open_env Examples.failing_auth Examples.failing_api)
      Examples.id_with_cr "id.txt" empty_world.
Proof.
  intros H.
  destruct (H eq_refl _ _ eq_refl eq_refl eq_refl) as [_ Hload].
  vm_compute in Hload. discriminate Hload.
Qed.

(** C3, amended. For a history ID with no leading or trailing whitespace and
    no carriage return, a successful [save_history_id] leaves exactly the ID
    as the content of the file, and a following [load_history_id] returns
    the ID with no error when the file can be opened for reading (and the
    error of [open] otherwise). *)
Theorem save_load_history_id :
  forall (E : Env) (history_id path : string) (w w' : World)
         (r : GmailHelper.result bool),
    Claims.no_edge_whitespace history_id = true ->
    Claims.has_cr history_id = false ->
    GmailHelper.save_history_id E (VStr history_id) path w
    = Some (Returned r, w') ->
    GmailHelper.payload r = true ->
    GmailHelper.error r = None ->
    fs w' !! path = Some history_id
    /\ GmailHelper.load_history_id E path w'
       = Some (Returned
                 (match open_read_error E path with
                  | None => GmailHelper.mkResult (Some history_id) None
                  | Some e =>
                      GmailHelper.mkResult None
                        (Some ("Error loading historyId: " ++ e))
                  end), w').
Proof.
  intros E history_id path w w' r Hedge Hcr Hsave Hok Herr.
  unfold GmailHelper.save_history_id, try_except, bind, write_file, ret in Hsave.
  simpl in Hsave.
  destruct (open_write_error E path) as [e|] eqn:Hw.
  { inversion Hsave; subst. discriminate Hok. }
  destruct (write_error E path history_id) as [[e n]|] eqn:Hwrite.
  - inversion Hsave; subst. discriminate Hok.
  - inversion Hsave; subst. simpl.
    assert (Hlook : <[path:=history_id]> (fs w) !! path = Some history_id)
      by apply lookup_insert_eq.
    split; [exact Hlook|].
    unfold GmailHelper.load_history_id, try_except, bind, path_exists,
      read_file, ret.
    cbn [fs]. rewrite bool_decide_eq_true_2 by (rewrite Hlook; eexists; reflexivity).
    cbn [fs]. rewrite Hlook.
    destruct (open_read_error E path) as [e|]; [reflexivity|].
    rewrite (universal_newlines_without_cr _ Hcr), (strip_clean _ Hedge).
    reflexivity.
Qed.

Lemma save_load_history_id_witness :
  let E := Examples.open_env Examples.failing_auth Examples.failing_api in
  let w' := mkWorld (<["id.txt" := "12345"]> ∅) None None [] in
  fs w' !! "id.txt" = Some "12345"
  /\ GmailHelper.load_history_id E "id.txt" w'
     = Some (Returned (GmailHelper.mkResult (Some "12345") None), w').
Proof.
  exact (save_load_history_id
           (Examples.open_env Examples.failing_auth Examples.failing_api)
           "12345" "id.txt" empty_world _ _ eq_refl eq_refl eq_refl
           eq_refl eq_refl).
Defined.

(** ** Authentication *)

(** C5. Under the same outcomes of the OAuth library calls the two
    [authenticate] methods end with the same boolean, having made the same
    library calls in the same order (the name and version given to [build]
    apart); the token is refreshed only when loaded credentials are invalid,
    expired and carry a refresh token. *)
Theorem authenticate_same_result :
  forall (E : Env) (w : World),
  exists (b : bool) (wg wc : World) (new_g new_c : list Call),
    GmailHelper.authenticate E w = Some (Returned b, wg)
    /\ GoogleCalendarHelper.authenticate E w = Some (Returned b, wc)
    /\ calls wg = (calls w ++ new_g)%list
    /\ calls wc = (calls w ++ new_c)%list
    /\ map Claims.forget_build new_g = map Claims.forget_build new_c
    /\ fs wg = fs w /\ fs wc = fs w
    /\ (In CRefresh new_g ->
        token_exists (auth E) = true
        /\ exists c, from_authorized_user_file (auth E) = Returned c
                     /\ valid c = false /\ expired c = true
                     /\ opt_truthy (refresh_token c) = true).
Proof.
  intros E w.
  unfold GmailHelper.authenticate, GoogleCalendarHelper.authenticate.
  unfold try_except, bind, vendor, ret, set_service, set_credentials,
    creds_valid, wants_refresh.
  cbn.
  repeat case_split.
  all: try discriminate.
  all: do 3 eexists; eexists; eexists.
  all: (split; [reflexivity|]); (split; [reflexivity|]).
  all: cbn [calls fs].
  all: rewrite <- ?app_assoc.
  all: (split; [reflexivity|]); (split; [reflexivity|]).
  all: (split; [reflexivity|]); (split; [reflexivity|]); (split; [reflexivity|]).
  all: cbn.
  all: intros Hin.
  all: repeat (destruct Hin as [Hin|Hin]; [try discriminate Hin|]); try contradiction.
  all: split; [reflexivity|eexists; split; [reflexivity|]].
  all: match goal with
       | H1 : negb (valid ?c) = true, H2 : expired ?c && _ = true |- _ =>
           apply negb_true_iff in H1; apply andb_prop in H2;
           destruct H2; auto
       end.
Qed.

(** ** Listing messages *)

Lemma gmail_authenticate_runs (E : Env) (w : World) :
  exists (b : bool) (w' : World) (new : list Call),
    GmailHelper.authenticate E w = Some (Returned b, w')
    /\ fs w' = fs w
    /\ calls w' = (calls w ++ new)%list
    /\ forallb Claims.is_auth_call new = true
    /\ (b = true -> service w' <> None).
Proof.
  unfold GmailHelper.authenticate.
  unfold try_except, bind, vendor, ret, set_service, creds_valid, wants_refresh.
  cbn.
  repeat case_split.
  all: try discriminate.
  all: do 3 eexists.
  all: (split; [reflexivity|]); (split; [reflexivity|]).
  all: cbn [calls].
  all: rewrite <- ?app_assoc.
  all: split; [try reflexivity; symmetry; apply app_nil_r|].
  all: split; [reflexivity|].
  all: cbn; congruence.
Qed.

Lemma ensure_service_runs (E : Env) (w : World) :
  exists (b : bool) (w' : World) (new : list Call),
    GmailHelper.ensure_service E w = Some (Returned b, w')
    /\ fs w' = fs w
    /\ calls w' = (calls w ++ new)%list
    /\ forallb Claims.is_auth_call new = true
    /\ (b = true -> service w' <> None).
Proof.
  unfold GmailHelper.ensure_service, bind, get_service.
  destruct (service w) as [s|] eqn:Hs.
  - exists true, w, []. unfold ret. rewrite app_nil_r.
    repeat split; try reflexivity. intros _. congruence.
  - apply gmail_authenticate_runs.
Qed.

Lemma ensure_service_ready (E : Env) (w : World) (s : Service) :
  service w = Some s ->
  GmailHelper.ensure_service E w = Some (Returned true, w).
Proof.
  intros Hs. unfold GmailHelper.ensure_service, bind, get_service.
  rewrite Hs. reflexivity.
Qed.

Lemma process_message_runs (E : Env) (message : value) (w : World) :
  exists o w',
    GmailHelper.process_message E message w = Some (o, w')
    /\ fs w' = fs w
    /\ forall x, o = Returned x -> Claims.is_dict x = true.
Proof.
  unfold GmailHelper.process_message, bind, lift, vendor, ret.
  repeat case_split.
  all: try discriminate.
  all: do 2 eexists; (split; [reflexivity|]); (split; [reflexivity|]).
  all: intros x Hx; inversion Hx; reflexivity.
Qed.

Lemma process_messages_runs (E : Env) (ms : list value) :
  forall (processed : list value) (w : World),
    forallb Claims.is_dict processed = true ->
    exists o w',
      GmailHelper.process_messages E ms processed w = Some (o, w')
      /\ fs w' = fs w
      /\ forall l, o = Returned l -> forallb Claims.is_dict l = true.
Proof.
  induction ms as [|message rest IH]; intros processed w Hp.
  - exists (Returned processed), w. cbn. repeat split; try reflexivity.
    intros l Hl. inversion Hl; subst. exact Hp.
  - cbn [GmailHelper.process_messages].
    unfold bind at 1. unfold try_except. unfold bind at 1.
    destruct (process_message_runs E message w) as (o & w1 & Hrun & Hfs & Hd).
    rewrite Hrun.
    destruct o as [x|e].
    + cbn.
      destruct (IH (processed ++ [x])%list w1) as (o' & w2 & Hrest & Hfs' & Hd').
      { rewrite forallb_app, Hp. cbn. rewrite (Hd x eq_refl). reflexivity. }
      exists o', w2. repeat split; [exact Hrest|congruence|exact Hd'].
    + unfold bind, lift, ret.
      destruct (getitem message "id") as [i|e'].
      * destruct (IH processed w1 Hp) as (o' & w2 & Hrest & Hfs' & Hd').
        exists o', w2. repeat split; [exact Hrest|congruence|exact Hd'].
      * exists (Raised e'), w1. repeat split; [exact Hfs|].
        intros l Hl. discriminate Hl.
Qed.

Lemma list_messages_runs (E : Env) (query : option string)
    (max_results : option Z) (w : World) :
  exists r w',
    GmailHelper.list_messages E query max_results w = Some (Returned r, w')
    /\ fs w' = fs w
    /\ Claims.messages_result_shape r = true.
Proof.
  unfold GmailHelper.list_messages. unfold bind at 1.
  destruct (ensure_service_runs E w) as (b & w1 & new & Hens & Hfs & _).
  rewrite Hens.
  destruct b; cbn [negb].
  2:{ do 2 eexists. split; [reflexivity|]. split; [exact Hfs|reflexivity]. }
  unfold try_except, bind, vendor, lift, ret.
  destruct (messages_list (api E) query max_results) as [response|e].
  2:{ do 2 eexists. split; [reflexivity|]. split; [exact Hfs|reflexivity]. }
  destruct (get response "messages" (VList [])) as [messages|e].
  2:{ do 2 eexists. split; [reflexivity|]. split; [exact Hfs|reflexivity]. }
  destruct (truthy messages); cbn [negb].
  2:{ do 2 eexists. split; [reflexivity|]. split; [exact Hfs|reflexivity]. }
  destruct (iter messages) as [items|e].
  2:{ do 2 eexists. split; [reflexivity|]. split; [exact Hfs|reflexivity]. }
  match goal with
  | |- context [GmailHelper.process_messages E items [] ?w0] =>
      destruct (process_messages_runs E items [] w0 eq_refl)
        as (o & w2 & Hrun & Hfs2 & Hd)
  end.
  rewrite Hrun.
  destruct o as [l|e].
  2:{ do 2 eexists. split; [reflexivity|].
      split; [cbn in Hfs2; congruence|reflexivity]. }
  specialize (Hd l eq_refl).
  destruct l as [|x l'].
  - do 2 eexists. split; [reflexivity|].
    split; [cbn in Hfs2; congruence|reflexivity].
  - do 2 eexists. split; [reflexivity|].
    split; [cbn in Hfs2; congruence|]. exact Hd.
Qed.

Lemma list_messages_no_match (E : Env) (query : option string)
    (max_results : option Z) (w w' : World)
    (r : GmailHelper.result (list value)) (response found : value) :
  GmailHelper.list_messages E query max_results w = Some (Returned r, w') ->
  messages_list (api E) query max_results = Returned response ->
  get response "messages" (VList []) = Returned found ->
  truthy found = false ->
  GmailHelper.payload r = []
  /\ (exists e, GmailHelper.error r = Some e /\ str_truthy e = true)
  /\ (service w <> None ->
      GmailHelper.error r
      = Some ("No messages found matching query: "
              ++ Claims.query_text query)).
Proof.
  intros Hrun Hlist Hget Hfound. revert Hrun.
  unfold GmailHelper.list_messages. unfold bind at 1.
  destruct (service w) as [svc|] eqn:Hsvc.
  - rewrite (ensure_service_ready E w svc Hsvc). cbn [negb].
    unfold try_except, bind, vendor, lift, ret.
    rewrite Hlist, Hget, Hfound. cbn [negb].
    intros H. inversion H; subst. cbn.
    split; [reflexivity|].
    split; [eexists; split; reflexivity|]. intros _. reflexivity.
  - destruct (ensure_service_runs E w) as (b & w1 & new & Hens & _).
    rewrite Hens. destruct b; cbn [negb].
    + unfold try_except, bind, vendor, lift, ret.
      rewrite Hlist, Hget, Hfound. cbn [negb].
      intros H. inversion H; subst. cbn.
      split; [reflexivity|].
      split; [eexists; split; reflexivity|]. intros Hn. contradiction.
    + unfold ret. intros H. inversion H; subst. cbn.
      split; [reflexivity|].
      split; [eexists; split; reflexivity|]. intros Hn. contradiction.
Qed.

Lemma process_messages_all_fail (E : Env) (items : list value) :
  Forall (Claims.retrieval_fails E) items ->
  forall (processed : list value) (w : World),
  exists w',
    GmailHelper.process_messages E items processed w
    = Some (Returned processed, w').
Proof.
  induction 1 as [|message rest (id & e & Hid & Hget) _ IH];
    intros processed w.
  - exists w. reflexivity.
  - assert (Hpm : GmailHelper.process_message E message w
                  = Some (Raised e, Claims.add_calls w [CMessagesGet id])).
    { unfold GmailHelper.process_message, bind, lift, vendor.
      rewrite Hid, Hget. reflexivity. }
    cbn [GmailHelper.process_messages].
    unfold bind at 1. unfold try_except. unfold bind at 1. rewrite Hpm.
    unfold bind at 1. unfold lift at 1. rewrite Hid.
    unfold ret at 1. apply IH.
Qed.

Lemma list_messages_all_fail (E : Env) (query : option string)
    (max_results : option Z) (w w' : World)
    (r : GmailHelper.result (list value)) (response found : value)
    (items : list value) :
  GmailHelper.list_messages E query max_results w = Some (Returned r, w') ->
  messages_list (api E) query max_results = Returned response ->
  get response "messages" (VList []) = Returned found ->
  iter found = Returned items ->
  Forall (Claims.retrieval_fails E) items ->
  GmailHelper.payload r = []
  /\ (exists e, GmailHelper.error r = Some e /\ str_truthy e = true)
  /\ (service w <> None -> truthy found = true ->
      GmailHelper.error r
      = Some "No messages could be processed successfully").
Proof.
  intros Hrun Hlist Hget Hiter Hfail.
  destruct (truthy found) eqn:Hfound.
  2:{ destruct (list_messages_no_match E query max_results w w' r response
                  found Hrun Hlist Hget Hfound) as (Hp & He & _).
      split; [exact Hp|]. split; [exact He|]. intros _ H. discriminate H. }
  revert Hrun.
  unfold GmailHelper.list_messages. unfold bind at 1.
  destruct (ensure_service_runs E w) as (b & w1 & new & Hens & _).
  rewrite Hens. destruct b; cbn [negb].
  - unfold try_except. unfold bind at 1. unfold vendor at 1. rewrite Hlist.
    unfold bind at 1. unfold lift at 1. rewrite Hget, Hfound. cbn [negb].
    unfold bind at 1. unfold lift at 1. rewrite Hiter.
    unfold bind at 1.
    match goal with
    | |- context [GmailHelper.process_messages E items [] ?w0] =>
        destruct (process_messages_all_fail E items Hfail [] w0) as (w2 & ->)
    end.
    unfold ret. intros H. inversion H; subst. cbn.
    split; [reflexivity|].
    split; [eexists; split; reflexivity|]. intros _ _. reflexivity.
  - unfold ret. intros H. inversion H; subst. cbn.
    split; [reflexivity|].
    split; [eexists; split; reflexivity|].
    intros Hn _. exfalso.
    destruct (service w) as [svc|] eqn:Hsvc; [|contradiction].
    rewrite (ensure_service_ready E w svc Hsvc) in Hens. discriminate Hens.
Qed.

(** C8. [list_gmail_messages] always returns a [GmailMessageResponse], and
    in it [error] is [None] exactly when [messages] is not empty. In
    particular a search for which the API returns no match, and a search
    all of whose matches fail to be retrieved, come back as an error with an
    empty list: with a service at hand the errors are
    "No messages found matching query: ..." and
    "No messages could be processed successfully". *)
Theorem list_gmail_messages_error_iff_empty :
  forall (E : Env) (query : option string) (max_results : option Z)
         (w : World),
  exists (messages : list value) (error : option string) (w' : World),
    GmailServer.list_gmail_messages E query max_results w
    = Some (Returned (Tool.Model "GmailMessageResponse"
                        [("messages", VList messages);
                         ("error", of_opt error)]), w')
    /\ (error = None <-> messages <> [])
    /\ (of_opt error = VNone <-> messages <> [])
    /\ (forall response found,
          messages_list (api E) query max_results = Returned response ->
          get response "messages" (VList []) = Returned found ->
          truthy found = false ->
          messages = [] /\ error <> None
          /\ (service w <> None ->
              error = Some ("No messages found matching query: "
                            ++ Claims.query_text query)))
    /\ (forall response found items,
          messages_list (api E) query max_results = Returned response ->
          get response "messages" (VList []) = Returned found ->
          iter found = Returned items ->
          Forall (Claims.retrieval_fails E) items ->
          messages = [] /\ error <> None
          /\ (service w <> None -> truthy found = true ->
              error = Some "No messages could be processed successfully")).
Proof.
  intros E query max_results w.
  unfold GmailServer.list_gmail_messages.
  destruct (list_messages_runs E query max_results w)
    as ([ms err] & w1 & Hrun & _ & Hshape).
  pose proof (fun response found =>
                list_messages_no_match E query max_results w w1 _
                  response found Hrun) as Hnone.
  pose proof (fun response found items =>
                list_messages_all_fail E query max_results w w1 _
                  response found items Hrun) as Hfail.
  cbn [GmailHelper.payload GmailHelper.error] in Hnone, Hfail.
  unfold Claims.messages_result_shape in Hshape. cbn in Hshape.
  destruct err as [e|].
  - apply andb_prop in Hshape. destruct Hshape as [He Hms].
    destruct ms as [|m ms']; [|discriminate].
    exists [], (Some e), w1. split.
    + apply run_returned. unfold bind. rewrite Hrun. cbn.
      unfold str_truthy in He. unfold str_truthy. rewrite He. reflexivity.
    + split; [split; intros H; try discriminate; contradiction|].
      split; [split; intros H; try discriminate; contradiction|].
      split.
      * intros response found Hl Hg Ht.
        destruct (Hnone response found Hl Hg Ht) as (_ & _ & Htext).
        split; [reflexivity|]. split; [discriminate|exact Htext].
      * intros response found items Hl Hg Hi Hf.
        destruct (Hfail response found items Hl Hg Hi Hf) as (_ & _ & Htext).
        split; [reflexivity|]. split; [discriminate|exact Htext].
  - apply andb_prop in Hshape. destruct Hshape as [Hne Hd].
    destruct ms as [|m ms']; [discriminate|].
    exists (m :: ms'), None, w1. split.
    + apply run_returned. unfold bind. rewrite Hrun. cbn [opt_truthy GmailHelper.error GmailHelper.payload].
      unfold lift, GmailServer.GmailMessageResponse, GmailServer.list_of_dicts.
      change (fun v : value => match v with VDict _ => true | _ => false end)
        with Claims.is_dict.
      rewrite Hd. reflexivity.
    + split; [split; intros H; try reflexivity; discriminate|].
      split; [split; intros H; try reflexivity; discriminate|].
      split.
      * intros response found Hl Hg Ht.
        destruct (Hnone response found Hl Hg Ht) as (Hp & _). discriminate Hp.
      * intros response found items Hl Hg Hi Hf.
        destruct (Hfail response found items Hl Hg Hi Hf) as (Hp & _).
        discriminate Hp.
Qed.

(** Two searches that come back as errors: one that matches nothing, and
    one whose only match cannot be retrieved. *)
Lemma list_gmail_messages_empty_searches :
  let nothing :=
    mkGmailApi (fun _ _ => Returned (VDict [("resultSizeEstimate", VInt 0)]))
      (fun _ => Raised "unavailable") (fun _ => Raised "unavailable")
      (fun _ => Raised "unavailable") (fun _ => Raised "unavailable")
      (fun _ _ _ => Raised "unavailable") in
  let unreadable :=
    mkGmailApi
      (fun _ _ => Returned (VDict [("messages",
                                    VList [VDict [("id", VStr "m1")]])]))
      (fun _ => Raised "not found") (fun _ => Raised "unavailable")
      (fun _ => Raised "unavailable") (fun _ => Raised "unavailable")
      (fun _ _ _ => Raised "unavailable") in
  GmailServer.list_gmail_messages
    (Examples.open_env Examples.working_auth nothing) (Some "from:x")
    (Some 10%Z) Examples.ready_world
  = Some (Returned
            (Tool.Model "GmailMessageResponse"
               [("messages", VList []);
                ("error",
                 VStr "No messages found matching query: from:x")]),
          Claims.add_calls Examples.ready_world
            [CMessagesList (Some "from:x") (Some 10%Z)])
  /\ GmailServer.list_gmail_messages
       (Examples.open_env Examples.working_auth unreadable) (Some "from:x")
       (Some 10%Z) Examples.ready_world
     = Some (Returned
               (Tool.Model "GmailMessageResponse"
                  [("messages", VList []);
                   ("error",
                    VStr "No messages could be processed successfully")]),
             Claims.add_calls Examples.ready_world
               [CMessagesList (Some "from:x") (Some 10%Z);
                CMessagesGet (VStr "m1")]).
Proof. split; reflexivity. Qed.

(** ** Mailbox history *)

Lemma add_calls_app w a b :
  Claims.add_calls (Claims.add_calls w a) b = Claims.add_calls w (a ++ b).
Proof. unfold Claims.add_calls. cbn. rewrite app_assoc. reflexivity. Qed.

Lemma history_list_calls_app a b :
  Claims.history_list_calls (a ++ b)
  = Claims.history_list_calls a + Claims.history_list_calls b.
Proof.
  unfold Claims.history_list_calls.
  rewrite List.filter_app, length_app. reflexivity.
Qed.

Lemma auth_calls_no_history new :
  forallb Claims.is_auth_call new = true ->
  Claims.history_list_calls new = 0.
Proof.
  unfold Claims.history_list_calls.
  induction new as [|c rest IH]; cbn; [reflexivity|].
  intros H. apply andb_prop in H. destruct H as [Hc Hrest].
  destruct c; try discriminate Hc; cbn; exact (IH Hrest).
Qed.

Lemma history_baseline_runs (E : Env) (user_id : option string) (w : World) :
  exists r,
    GmailHelper.history_baseline E user_id w
    = Some (Returned r, Claims.add_calls w [CGetProfile user_id])
    /\ GmailHelper.history (GmailHelper.payload r) = VList []
    /\ (GmailHelper.error r = None ->
        exists profile,
          getProfile (api E) user_id = Returned profile
          /\ get profile "historyId" VNone
             = Returned (GmailHelper.latest_history_id (GmailHelper.payload r)))
    /\ (forall e, GmailHelper.error r = Some e -> str_truthy e = true)
    /\ (forall d, getProfile (api E) user_id = Returned (VDict d) ->
        r = GmailHelper.mkResult
              (GmailHelper.mkHistoryData (VList [])
                 (default VNone (assoc "historyId" d))) None).
Proof.
  unfold GmailHelper.history_baseline, try_except, bind, vendor, lift, ret,
    Claims.add_calls.
  destruct (getProfile (api E) user_id) as [profile|e] eqn:Hp.
  - destruct (get profile "historyId" VNone) as [latest|e] eqn:Hg.
    + eexists. split; [reflexivity|]. cbn. split; [reflexivity|].
      split; [intros _; exists profile; auto|].
      split; [discriminate|].
      intros d Hd. inversion Hd; subst. cbn in Hg.
      inversion Hg; subst. destruct (assoc "historyId" d); reflexivity.
    + eexists. split; [reflexivity|]. cbn. split; [reflexivity|].
      split; [discriminate|]. split.
      * intros e' He'. inversion He'; reflexivity.
      * intros d Hd. inversion Hd; subst. discriminate Hg.
  - eexists. split; [reflexivity|]. cbn. split; [reflexivity|].
    split; [discriminate|]. split.
    + intros e' He'. inversion He'; reflexivity.
    + discriminate.
Qed.

Lemma history_baseline_fails (E : Env) (user_id : option string)
    (w w' : World) (r : GmailHelper.result GmailHelper.HistoryData) :
  GmailHelper.history_baseline E user_id w = Some (Returned r, w') ->
  (GmailHelper.error r <> None ->
   GmailHelper.latest_history_id (GmailHelper.payload r) = VNone)
  /\ (forall e,
        getProfile (api E) user_id = Raised e ->
        r = GmailHelper.mkResult
              (GmailHelper.mkHistoryData (VList []) VNone)
              (Some ("Error getting latest historyId: " ++ e))).
Proof.
  unfold GmailHelper.history_baseline, try_except, bind, vendor, lift, ret.
  destruct (getProfile (api E) user_id) as [profile|e].
  - destruct (get profile "historyId" VNone) as [latest|e];
      intros H; inversion H; subst; cbn.
    + split; [intros Hn; contradiction|discriminate].
    + split; [reflexivity|discriminate].
  - intros H; inversion H; subst; cbn.
    split; [reflexivity|]. intros e' He'. inversion He'; reflexivity.
Qed.

(** C9, as the specification has it, fails when the profile cannot be
    fetched: the method then returns an error. *)
Lemma baseline_fails_without_profile :
  ~ Claims.baseline
      (Examples.open_env Examples.working_auth Examples.failing_api)
      0 None None (Some 100%Z) (Some "me") Examples.ready_world.
Proof.
  intros H.
  destruct (H eq_refl _ _ eq_refl) as (_ & profile & Hp & _).
  discriminate Hp.
Qed.

(** C9, amended. When [start_history_id] is [None] or empty, [get_history]
    makes no [history().list] request and returns an empty history list.
    If it reports no error, it has fetched the profile and
    [latest_history_id] is the profile's [historyId]; this is what happens
    whenever a service is at hand and the profile fetch returns a dict.
    Otherwise it reports an error, and then [latest_history_id] is [None]:
    so it is when authentication fails, with the error
    "Failed to authenticate with Gmail", and when the profile fetch raises,
    with the error "Error getting latest historyId: ...". *)
Theorem get_history_baseline :
  forall (E : Env) (fuel : nat) (start : option string)
         (history_types : option (list string)) (max_results : option Z)
         (user_id : option string) (w : World),
    opt_truthy start = false ->
    exists r w' new,
      GmailHelper.get_history E fuel start history_types max_results user_id w
      = Some (Returned r, w')
      /\ calls w' = (calls w ++ new)%list
      /\ Claims.history_list_calls new = 0
      /\ GmailHelper.history (GmailHelper.payload r) = VList []
      /\ (GmailHelper.error r = None ->
          In (CGetProfile user_id) new
          /\ exists profile,
              getProfile (api E) user_id = Returned profile
              /\ get profile "historyId" VNone
                 = Returned (GmailHelper.latest_history_id
                               (GmailHelper.payload r)))
      /\ (forall w1 d,
            GmailHelper.ensure_service E w = Some (Returned true, w1) ->
            getProfile (api E) user_id = Returned (VDict d) ->
            r = GmailHelper.mkResult
                  (GmailHelper.mkHistoryData (VList [])
                     (default VNone (assoc "historyId" d))) None
            /\ w' = Claims.add_calls w1 [CGetProfile user_id])
      /\ (GmailHelper.error r <> None ->
          GmailHelper.latest_history_id (GmailHelper.payload r) = VNone)
      /\ (forall w1,
            GmailHelper.ensure_service E w = Some (Returned false, w1) ->
            r = GmailHelper.mkResult
                  (GmailHelper.mkHistoryData (VList []) VNone)
                  (Some "Failed to authenticate with Gmail")
            /\ w' = w1)
      /\ (forall w1 e,
            GmailHelper.ensure_service E w = Some (Returned true, w1) ->
            getProfile (api E) user_id = Raised e ->
            r = GmailHelper.mkResult
                  (GmailHelper.mkHistoryData (VList []) VNone)
                  (Some ("Error getting latest historyId: " ++ e))
            /\ w' = Claims.add_calls w1 [CGetProfile user_id]).
Proof.
  intros E fuel start history_types max_results user_id w Hstart.
  unfold GmailHelper.get_history. unfold bind at 1.
  destruct (ensure_service_runs E w) as (b & w1 & new & Hens & Hfs & Hcalls & Hauth & _).
  rewrite Hens.
  destruct b; cbn [negb].
  - assert (Hbase :
      (match start with
       | Some start0 =>
           if str_truthy start0
           then GmailHelper.history_since E fuel start0 history_types
                  max_results user_id
           else GmailHelper.history_baseline E user_id
       | None => GmailHelper.history_baseline E user_id
       end) = GmailHelper.history_baseline E user_id).
    { destruct start as [s|]; [|reflexivity]. cbn in Hstart.
      rewrite Hstart. reflexivity. }
    rewrite Hbase.
    destruct (history_baseline_runs E user_id w1)
      as (r & Hrun & Hh & Hok & _ & Hd).
    destruct (history_baseline_fails E user_id w1 _ r Hrun) as [Hnone Hraised].
    exists r, (Claims.add_calls w1 [CGetProfile user_id]),
      (new ++ [CGetProfile user_id])%list.
    split; [exact Hrun|].
    split; [cbn; rewrite Hcalls, app_assoc; reflexivity|].
    split; [rewrite history_list_calls_app, (auth_calls_no_history _ Hauth);
            reflexivity|].
    split; [exact Hh|].
    split.
    { intros He. split; [apply in_or_app; right; left; reflexivity|].
      exact (Hok He). }
    split.
    { intros w1' d Hens' Hp. inversion Hens'; subst.
      split; [exact (Hd d Hp)|reflexivity]. }
    split; [exact Hnone|].
    split.
    { intros w1' Hens'. discriminate Hens'. }
    intros w1' e Hens' Hp. inversion Hens'; subst.
    split; [exact (Hraised e Hp)|reflexivity].
  - exists (GmailHelper.history_failure "Failed to authenticate with Gmail"),
      w1, new.
    split; [reflexivity|]. split; [exact Hcalls|].
    split; [exact (auth_calls_no_history _ Hauth)|].
    split; [reflexivity|].
    split; [discriminate|].
    split; [intros w1' d Hens'; discriminate Hens'|].
    split; [reflexivity|].
    split.
    { intros w1' Hens'. inversion Hens'; subst. split; reflexivity. }
    intros w1' e Hens'. discriminate Hens'.
Qed.

Lemma get_history_baseline_witness :
  let E := Examples.open_env Examples.working_auth Examples.two_pages_api in
  exists r w' new,
    GmailHelper.get_history E 0 (Some "") None (Some 100%Z) (Some "me")
      Examples.ready_world = Some (Returned r, w')
    /\ calls w' = (calls Examples.ready_world ++ new)%list
    /\ Claims.history_list_calls new = 0
    /\ GmailHelper.history (GmailHelper.payload r) = VList []
    /\ (GmailHelper.error r = None ->
        In (CGetProfile (Some "me")) new
        /\ exists profile,
            getProfile (api E) (Some "me") = Returned profile
            /\ get profile "historyId" VNone
               = Returned (GmailHelper.latest_history_id
                             (GmailHelper.payload r)))
    /\ (forall w1 d,
          GmailHelper.ensure_service E Examples.ready_world
          = Some (Returned true, w1) ->
          getProfile (api E) (Some "me") = Returned (VDict d) ->
          r = GmailHelper.mkResult
                (GmailHelper.mkHistoryData (VList [])
                   (default VNone (assoc "historyId" d))) None
          /\ w' = Claims.add_calls w1 [CGetProfile (Some "me")])
    /\ (GmailHelper.error r <> None ->
        GmailHelper.latest_history_id (GmailHelper.payload r) = VNone)
    /\ (forall w1,
          GmailHelper.ensure_service E Examples.ready_world
          = Some (Returned false, w1) ->
          r = GmailHelper.mkResult
                (GmailHelper.mkHistoryData (VList []) VNone)
                (Some "Failed to authenticate with Gmail")
          /\ w' = w1)
    /\ (forall w1 e,
          GmailHelper.ensure_service E Examples.ready_world
          = Some (Returned true, w1) ->
          getProfile (api E) (Some "me") = Raised e ->
          r = GmailHelper.mkResult
                (GmailHelper.mkHistoryData (VList []) VNone)
                (Some ("Error getting latest historyId: " ++ e))
          /\ w' = Claims.add_calls w1 [CGetProfile (Some "me")]).
Proof.
  exact (get_history_baseline
           (Examples.open_env Examples.working_auth Examples.two_pages_api)
           0 (Some "") None (Some 100%Z) (Some "me") Examples.ready_world
           eq_refl).
Defined.

(** Two failures of the baseline: no credentials, and a profile that
    cannot be fetched. Both come back with an error and no latest ID. *)
Lemma get_history_baseline_failures :
  GmailHelper.get_history
    (Examples.open_env Examples.failing_auth Examples.two_pages_api)
    0 None None (Some 100%Z) (Some "me") empty_world
  = Some (Returned
            (GmailHelper.mkResult
               (GmailHelper.mkHistoryData (VList []) VNone)
               (Some "Failed to authenticate with Gmail")),
          Claims.add_calls empty_world [CRunFlow])
  /\ GmailHelper.get_history
       (Examples.open_env Examples.working_auth Examples.failing_api)
       0 None None (Some 100%Z) (Some "me") Examples.ready_world
     = Some (Returned
               (GmailHelper.mkResult
                  (GmailHelper.mkHistoryData (VList []) VNone)
                  (Some "Error getting latest historyId: unavailable")),
             Claims.add_calls Examples.ready_world
               [CGetProfile (Some "me")]).
Proof. split; reflexivity. Qed.

Lemma paginate_pages (E : Env) (params : HistoryParams) (tok : value)
    (rest : list value) (cs : list Call) :
  Claims.pages E params tok rest cs ->
  forall (fuel : nat) (acc : list value) (w : World),
    length cs <= fuel ->
    GmailHelper.paginate E fuel params (VList acc) tok w
    = Some (Returned (VList (acc ++ rest)), Claims.add_calls w cs).
Proof.
  induction 1 as [params tok Htok
                 |params tok response more_v tok' more rest cs
                    Htok Hresp Hmore Hiter Htok' Hpages IH];
    intros fuel acc w Hfuel.
  - destruct fuel; cbn; rewrite Htok; cbn; unfold ret, Claims.add_calls;
      rewrite !app_nil_r; destruct w; reflexivity.
  - destruct fuel as [|fuel]; [cbn in Hfuel; lia|].
    cbn [GmailHelper.paginate]. rewrite Htok. cbn [negb].
    unfold bind at 1. unfold vendor at 1. rewrite Hresp.
    unfold bind at 1. unfold lift at 1.
    unfold bind at 1. unfold lift at 1. rewrite Hmore.
    unfold bind at 1. unfold lift at 1.
    unfold GmailHelper.extend. rewrite Hiter.
    unfold bind at 1. unfold lift at 1. rewrite Htok'.
    cbn in Hfuel.
    rewrite (IH fuel (acc ++ more)%list _ ltac:(lia)).
    rewrite <- app_assoc.
    unfold Claims.add_calls. cbn. rewrite <- app_assoc. reflexivity.
Qed.

(** C1, as the specification has it, fails on a mailbox whose history comes
    in two pages: two [history().list] requests are made and the records of
    both pages are returned. *)
Lemma get_history_second_page :
  GmailHelper.get_history
    (Examples.open_env Examples.working_auth Examples.two_pages_api)
    1 (Some "100") None (Some 100%Z) (Some "me") Examples.ready_world
  = Some (Returned
            (GmailHelper.mkResult
               (GmailHelper.mkHistoryData
                  (VList [Examples.record "101"; Examples.record "102"])
                  (VStr "102")) None),
          Claims.add_calls Examples.ready_world
            [CHistoryList (mkHistoryParams (Some "me") (Some 100%Z) "100"
                             None None);
             CHistoryList (mkHistoryParams (Some "me") (Some 100%Z) "100"
                             None (Some (VStr "p2")))])
  /\ ~ Claims.single_call
         (Examples.open_env Examples.working_auth Examples.two_pages_api)
         1 "100" None (Some 100%Z) (Some "me") Examples.ready_world.
Proof.
  split; [reflexivity|].
  intros H.
  destruct (H _ _ eq_refl) as (params & response & Hcount & _).
  vm_compute in Hcount. discriminate Hcount.
Qed.

(** C1, amended. For a non-empty [start_history_id], with a service at hand,
    [get_history] issues one [history().list] request for the first page and
    one more for every [nextPageToken] it is handed, and returns the records
    of all pages in order, [latest_history_id] being the [id] of the last
    record (or [start_history_id] when there is none). When the first
    response carries no token this is a single request whose records are
    returned as they are. *)
Theorem get_history_follows_pages :
  forall (E : Env) (fuel : nat) (start : string)
         (history_types : option (list string)) (max_results : option Z)
         (user_id : option string) (w w1 : World)
         (response tok latest : value) (first rest : list value)
         (more_calls : list Call),
    let params := mkHistoryParams user_id max_results start
                    (GmailHelper.given_types history_types) None in
    str_truthy start = true ->
    GmailHelper.ensure_service E w = Some (Returned true, w1) ->
    history_list (api E) params = Returned response ->
    get response "history" (VList []) = Returned (VList first) ->
    get response "nextPageToken" VNone = Returned tok ->
    Claims.pages E params tok rest more_calls ->
    length more_calls <= fuel ->
    match last (first ++ rest) with
    | Some record => getitem record "id" = Returned latest
    | None => latest = VStr start
    end ->
    GmailHelper.get_history E fuel (Some start) history_types max_results
      user_id w
    = Some (Returned
              (GmailHelper.mkResult
                 (GmailHelper.mkHistoryData (VList (first ++ rest)) latest)
                 None),
            Claims.add_calls w1 (CHistoryList params :: more_calls))
    /\ (truthy tok = false ->
        rest = [] /\ more_calls = []).
Proof.
  intros E fuel start history_types max_results user_id w w1 response tok
    latest first rest more_calls params Hstart Hens Hresp Hfirst Htok Hpages
    Hfuel Hlatest.
  split.
  - unfold GmailHelper.get_history. unfold bind at 1. rewrite Hens.
    cbn [negb]. rewrite Hstart.
    unfold GmailHelper.history_since, try_except.
    fold params. cbv zeta.
    unfold bind at 1. unfold vendor at 1. rewrite Hresp.
    unfold bind at 1. unfold lift at 1. rewrite Hfirst.
    unfold bind at 1. unfold lift at 1. rewrite Htok.
    unfold bind at 1.
    rewrite (paginate_pages E params tok rest more_calls Hpages fuel first _ Hfuel).
    unfold Claims.add_calls. cbn [fs service credentials calls].
    rewrite <- app_assoc. cbn [app].
    unfold bind, lift, ret. cbn [truthy GmailHelper.last_item GmailHelper.py_len].
    destruct (first ++ rest)%list as [|x l] eqn:Hall.
    + cbn in Hlatest. subst latest. reflexivity.
    + change (last (x :: l)) with (last (x :: l)) in *.
      destruct (last (x :: l)) as [record|] eqn:Hlast.
      * rewrite Hlatest. reflexivity.
      * exfalso. apply last_None in Hlast. discriminate Hlast.
  - intros Hfalse. inversion Hpages; subst; [split; reflexivity|congruence].
Qed.

Lemma get_history_follows_pages_witness :
  GmailHelper.get_history
    (Examples.open_env Examples.working_auth Examples.two_pages_api)
    3 (Some "100") None (Some 100%Z) (Some "me") Examples.ready_world
  = Some (Returned
            (GmailHelper.mkResult
               (GmailHelper.mkHistoryData
                  (VList ([Examples.record "101"] ++ [Examples.record "102"]))
                  (VStr "102")) None),
          Claims.add_calls Examples.ready_world
            [CHistoryList (mkHistoryParams (Some "me") (Some 100%Z) "100"
                             None None);
             CHistoryList (mkHistoryParams (Some "me") (Some 100%Z) "100"
                             None (Some (VStr "p2")))])
  /\ (truthy (VStr "p2") = false ->
      [Examples.record "102"] = [] /\
      [CHistoryList (mkHistoryParams (Some "me") (Some 100%Z) "100"
                       None (Some (VStr "p2")))] = []).
Proof.
  apply (get_history_follows_pages
           (Examples.open_env Examples.working_auth Examples.two_pages_api)
           3 "100" None (Some 100%Z) (Some "me") Examples.ready_world
           Examples.ready_world
           (VDict [("history", VList [Examples.record "101"]);
                   ("nextPageToken", VStr "p2")])
           (VStr "p2") (VStr "102") [Examples.record "101"]
           [Examples.record "102"]
           [CHistoryList (mkHistoryParams (Some "me") (Some 100%Z) "100"
                            None (Some (VStr "p2")))]).
  - reflexivity.
  - reflexivity.
  - reflexivity.
  - reflexivity.
  - reflexivity.
  - exact (Claims.pages_next
             (Examples.open_env Examples.working_auth Examples.two_pages_api)
             (mkHistoryParams (Some "me") (Some 100%Z) "100" None None)
             (VStr "p2")
             (VDict [("history", VList [Examples.record "102"])])
             (VList [Examples.record "102"]) VNone
             [Examples.record "102"] [] []
             eq_refl eq_refl eq_refl eq_refl eq_refl
             (Claims.pages_end _ _ VNone eq_refl)).
  - simpl. lia.
  - reflexivity.
Defined.

(** ** The history tool and the saved ID *)

Lemma paginate_fs (E : Env) (fuel : nat) :
  forall params history tok w o w',
    GmailHelper.paginate E fuel params history tok w = Some (o, w') ->
    fs w' = fs w.
Proof.
  induction fuel as [|fuel IH]; intros params history tok w o w' H;
    cbn [GmailHelper.paginate] in H.
  - destruct (truthy tok); cbn in H; [discriminate|].
    inversion H; reflexivity.
  - destruct (truthy tok); cbn [negb] in H.
    2:{ inversion H; reflexivity. }
    unfold bind at 1 in H. unfold vendor at 1 in H.
    destruct (history_list (api E) (GmailHelper.with_pageToken params tok));
      [|inversion H; reflexivity].
    unfold bind at 1 in H. unfold lift at 1 in H.
    destruct history; try (inversion H; reflexivity).
    unfold bind at 1 in H. unfold lift at 1 in H.
    destruct (get a "history" (VList [])); [|inversion H; reflexivity].
    unfold bind at 1 in H. unfold lift at 1 in H.
    destruct (GmailHelper.extend (VList l) a0); [|inversion H; reflexivity].
    unfold bind at 1 in H. unfold lift at 1 in H.
    destruct (get a "nextPageToken" VNone); [|inversion H; reflexivity].
    apply IH in H. exact H.
Qed.

Lemma history_since_returns (E : Env) fuel start history_types max_results
    user_id w o w' :
  GmailHelper.history_since E fuel start history_types max_results user_id w
  = Some (o, w') ->
  fs w' = fs w
  /\ exists r, o = Returned r
               /\ forall e, GmailHelper.error r = Some e -> str_truthy e = true.
Proof.
  unfold GmailHelper.history_since, try_except. cbv zeta.
  unfold bind at 1. unfold vendor at 1.
  match goal with
  | |- context [history_list (api E) ?p] =>
      destruct (history_list (api E) p) as [response|e]
  end.
  2:{ intros H; inversion H; subst. split; [reflexivity|].
      eexists; split; [reflexivity|]. intros e' He'; inversion He'; reflexivity. }
  unfold bind at 1. unfold lift at 1.
  destruct (get response "history" (VList [])) as [first|e].
  2:{ intros H; inversion H; subst. split; [reflexivity|].
      eexists; split; [reflexivity|]. intros e' He'; inversion He'; reflexivity. }
  unfold bind at 1. unfold lift at 1.
  destruct (get response "nextPageToken" VNone) as [tok|e].
  2:{ intros H; inversion H; subst. split; [reflexivity|].
      eexists; split; [reflexivity|]. intros e' He'; inversion He'; reflexivity. }
  unfold bind at 1.
  match goal with
  | |- context [GmailHelper.paginate E fuel ?p first tok ?w0] =>
      destruct (GmailHelper.paginate E fuel p first tok w0)
        as [[o1 w2]|] eqn:Hp; [apply paginate_fs in Hp; cbn in Hp|discriminate]
  end.
  destruct o1 as [history|e].
  2:{ intros H; inversion H; subst. split; [exact Hp|].
      eexists; split; [reflexivity|]. intros e' He'; inversion He'; reflexivity. }
  unfold bind, lift, ret.
  intros H.
  repeat match type of H with
         | context [match ?x with _ => _ end] =>
             lazymatch x with
             | context [match _ with _ => _ end] => fail
             | _ => destruct x
             end
         | context [if ?x then _ else _] => destruct x
         end.
  all: inversion H; subst; (split; [exact Hp|]).
  all: eexists; (split; [reflexivity|]).
  all: intros e' He'; inversion He'; reflexivity.
Qed.

Lemma get_history_returns (E : Env) fuel start history_types max_results
    user_id w o w' :
  GmailHelper.get_history E fuel start history_types max_results user_id w
  = Some (o, w') ->
  fs w' = fs w
  /\ exists r, o = Returned r
               /\ forall e, GmailHelper.error r = Some e -> str_truthy e = true.
Proof.
  unfold GmailHelper.get_history. unfold bind at 1.
  destruct (ensure_service_runs E w) as (b & w1 & new & Hens & Hfs & _).
  rewrite Hens.
  destruct b; cbn [negb].
  - assert (Hbase : forall o w',
              GmailHelper.history_baseline E user_id w1 = Some (o, w') ->
              fs w' = fs w
              /\ exists r, o = Returned r
                           /\ forall e, GmailHelper.error r = Some e ->
                                        str_truthy e = true).
    { intros o0 w0 H.
      destruct (history_baseline_runs E user_id w1) as (r & Hrun & _ & _ & He & _).
      rewrite Hrun in H. inversion H; subst.
      split; [exact Hfs|]. exists r. split; [reflexivity|exact He]. }
    destruct start as [s|]; [|apply Hbase].
    destruct (str_truthy s); [|apply Hbase].
    intros H. apply history_since_returns in H.
    destruct H as [Hfs' Hr]. split; [congruence|exact Hr].
  - intros H. inversion H; subst. split; [exact Hfs|].
    eexists; split; [reflexivity|].
    intros e He; inversion He; reflexivity.
Qed.







(** A save that fails at the write: on a full disk the tool reports the
    latest ID 42 with no error, and the file that held 7 is empty. *)
Lemma get_gmail_history_empties_file :
  let E := Examples.full_disk_env Examples.working_auth
             Examples.one_record_api in
  let w := mkWorld (<[GmailHelper.default_history_file := "7"]> ∅)
             (Some (mkService "gmail" "v1")) None [] in
  exists w',
    GmailServer.get_gmail_history E 0 (Some "41") None (Some 100%Z)
      (Some "me") w
    = Some (Returned
              (Tool.Model "HistoryResponse"
                 [("history_records",
                   VList [VDict [("id", VStr "42"); ("changes", VList [])]]);
                  ("latest_history_id", VStr "42"); ("error", VNone)]), w')
    /\ fs w' !! GmailHelper.default_history_file = Some "".
Proof.
  eexists. split; [reflexivity|]. cbn [fs].
  apply lookup_insert_eq.
Qed.

(** ** Updating a label *)

Lemma ensure_service_true (E : Env) (w w1 : World) :
  GmailHelper.ensure_service E w = Some (Returned true, w1) ->
  exists s, service w1 = Some s.
Proof.
  intros H.
  destruct (ensure_service_runs E w) as (b & w' & new & Hens & _ & _ & _ & Hs).
  rewrite H in Hens. inversion Hens; subst.
  destruct (service w') as [s|]; [exists s; reflexivity|].
  exfalso. apply (Hs eq_refl). reflexivity.
Qed.

Lemma iter_has_len v l : iter v = Returned l ->
  exists n, GmailHelper.py_len v = Returned n.
Proof.
  destruct v; cbn; intros H; try discriminate; eexists; reflexivity.
Qed.

Lemma find_label_found label_id labels target :
  GmailServer.find_label label_id labels = Returned (Some target) ->
  exists d, target = VDict d /\ truthy target = true
            /\ assoc "id" d = Some (VStr label_id).
Proof.
  induction labels as [|label rest IH]; cbn; [discriminate|].
  unfold and_then.
  destruct label as [| | | | |d]; cbn; try discriminate.
  destruct (assoc "id" d) as [id|] eqn:Hid; cbn.
  - destruct (eq_str id label_id) eqn:Heq; [|exact IH].
    intros H. inversion H; subst target. exists d.
    destruct id; try discriminate Heq. cbn in Heq.
    apply String.eqb_eq in Heq. subst s.
    split; [reflexivity|].
    split; [destruct d; [discriminate Hid|reflexivity]|exact Hid].
  - exact IH.
Qed.

Lemma list_labels_ready (E : Env) user_id w w1 response labels_v labels :
  GmailHelper.ensure_service E w = Some (Returned true, w1) ->
  labels_list (api E) user_id = Returned response ->
  get response "labels" (VList []) = Returned labels_v ->
  iter labels_v = Returned labels ->
  GmailHelper.list_labels E user_id w
  = Some (Returned (GmailHelper.mkResult labels_v None),
          Claims.add_calls w1 [CLabelsList user_id]).
Proof.
  intros Hens Hresp Hget Hiter.
  destruct (iter_has_len _ _ Hiter) as [n Hn].
  unfold GmailHelper.list_labels. unfold bind at 1. rewrite Hens. cbn [negb].
  unfold try_except, bind, vendor, lift, ret.
  rewrite Hresp, Hget, Hn. reflexivity.
Qed.

Lemma update_label_ready (E : Env) label_id body user_id w s :
  service w = Some s ->
  exists r,
    GmailHelper.update_label E label_id body user_id w
    = Some (Returned r,
            Claims.add_calls w [CLabelsUpdate user_id label_id body]).
Proof.
  intros Hs. unfold GmailHelper.update_label. unfold bind at 1.
  rewrite (ensure_service_ready E w s Hs). cbn [negb].
  unfold try_except, bind, vendor, ret, Claims.add_calls.
  destruct (labels_update (api E) user_id label_id body);
    eexists; reflexivity.
Qed.

(** C10. With the labels listed, [update_gmail_label] on a [label_id] that
    none of them bears returns an error and never calls [update]. On a
    [label_id] borne by a label, it calls [update] once, with the body
    [updated_label_body] builds from the first such label: [name],
    [messageListVisibility] and [labelListVisibility] are the request's
    values where given and the existing label's otherwise; there is no
    other key but [color], which is present only if the request names a
    colour and, the missing one filled from the existing label's colour,
    both text and background colour are non-empty. *)
Theorem update_gmail_label_keeps_unset_fields :
  forall (E : Env) (label_id : string)
         (name text_color background_color message_list_visibility
            label_list_visibility user_id : option string)
         (w w1 : World) (response labels_v : value) (labels : list value),
    GmailHelper.ensure_service E w = Some (Returned true, w1) ->
    labels_list (api E) user_id = Returned response ->
    get response "labels" (VList []) = Returned labels_v ->
    iter labels_v = Returned labels ->
    (GmailServer.find_label label_id labels = Returned None ->
     GmailServer.update_gmail_label E label_id name text_color
       background_color message_list_visibility label_list_visibility
       user_id w
     = Some (Returned
               (Tool.Model "LabelResponse"
                  [("label", VNone);
                   ("error",
                    VStr ("Label with ID " ++ label_id ++ " not found"))]),
             Claims.add_calls w1 [CLabelsList user_id]))
    /\ (forall target body,
          GmailServer.find_label label_id labels = Returned (Some target) ->
          GmailServer.updated_label_body target name text_color
            background_color message_list_visibility label_list_visibility
          = Returned body ->
          (exists resp,
              GmailServer.update_gmail_label E label_id name text_color
                background_color message_list_visibility
                label_list_visibility user_id w
              = Some (Returned resp,
                      Claims.add_calls w1
                        [CLabelsList user_id;
                         CLabelsUpdate user_id label_id body]))
          /\ exists d,
              target = VDict d
              /\ body !! "name" = Some (Claims.kept name "name" d)
              /\ body !! "messageListVisibility"
                 = Some (Claims.kept message_list_visibility
                           "messageListVisibility" d)
              /\ body !! "labelListVisibility"
                 = Some (Claims.kept label_list_visibility
                           "labelListVisibility" d)
              /\ (forall k, k <> "name" -> k <> "messageListVisibility" ->
                            k <> "labelListVisibility" -> k <> "color" ->
                            body !! k = None)
              /\ (forall c, body !! "color" = Some c ->
                  (text_color <> None \/ background_color <> None)
                  /\ exists tc bc,
                      GmailServer.fill_color text_color "textColor" target
                      = Returned tc
                      /\ GmailServer.fill_color background_color
                           "backgroundColor" target = Returned bc
                      /\ truthy tc = true /\ truthy bc = true
                      /\ c = VDict [("textColor", tc);
                                    ("backgroundColor", bc)])).
Proof.
  intros E label_id name text_color background_color message_list_visibility
    label_list_visibility user_id w w1 response labels_v labels
    Hens Hresp Hget Hiter.
  pose proof (list_labels_ready E user_id w w1 response labels_v labels
                Hens Hresp Hget Hiter) as Hlist.
  destruct (ensure_service_true E w w1 Hens) as [s Hs].
  split.
  - intros Hnone. unfold GmailServer.update_gmail_label. apply run_returned.
    unfold bind at 1. rewrite Hlist. cbn [opt_truthy GmailHelper.error GmailHelper.payload].
    unfold bind at 1. unfold lift at 1. rewrite Hiter.
    unfold bind at 1. unfold lift at 1. rewrite Hnone. reflexivity.
  - intros target body Hfound Hbody.
    destruct (find_label_found _ _ _ Hfound) as (d & Hd & Htruthy & Hid).
    split.
    + unfold GmailServer.update_gmail_label.
      set (w2 := Claims.add_calls w1 [CLabelsList user_id]) in *.
      assert (Hs2 : service w2 = Some s) by exact Hs.
      destruct (update_label_ready E label_id body user_id w2 s Hs2)
        as [r Hupd].
      assert (Hbodyrun :
        (do existing <- GmailHelper.list_labels E user_id;
         if opt_truthy (GmailHelper.error existing) then
           lift (GmailServer.LabelResponse VNone
                   (Some ("Failed to retrieve existing label: "
                          ++ default "" (GmailHelper.error existing))))
         else
           do labels <- lift (iter (GmailHelper.payload existing));
           do found <- lift (GmailServer.find_label label_id labels);
           match found with
           | Some target_label =>
               if truthy target_label then
                 do body <- lift (GmailServer.updated_label_body target_label
                                    name text_color background_color
                                    message_list_visibility
                                    label_list_visibility);
                 do result <- GmailHelper.update_label E label_id body user_id;
                 if opt_truthy (GmailHelper.error result) then
                   lift (GmailServer.LabelResponse VNone
                           (GmailHelper.error result))
                 else lift (GmailServer.LabelResponse
                              (GmailHelper.payload result) None)
               else
                 lift (GmailServer.LabelResponse VNone
                         (Some ("Label with ID " ++ label_id ++ " not found")))
           | None =>
               lift (GmailServer.LabelResponse VNone
                       (Some ("Label with ID " ++ label_id ++ " not found")))
           end) w
        = Some ((if opt_truthy (GmailHelper.error r)
                 then GmailServer.LabelResponse VNone (GmailHelper.error r)
                 else GmailServer.LabelResponse (GmailHelper.payload r) None),
                Claims.add_calls w2 [CLabelsUpdate user_id label_id body])).
      { unfold bind at 1. rewrite Hlist.
        cbn [opt_truthy GmailHelper.error GmailHelper.payload].
        unfold bind at 1. unfold lift at 1. rewrite Hiter.
        unfold bind at 1. unfold lift at 1. rewrite Hfound.
        rewrite Htruthy.
        unfold bind at 1. unfold lift at 1. rewrite Hbody.
        unfold bind at 1. fold w2. rewrite Hupd.
        destruct (opt_truthy (GmailHelper.error r)); reflexivity. }
      unfold Tool.run, try_except. rewrite Hbodyrun.
      unfold w2. rewrite add_calls_app. cbn [app].
      destruct (if opt_truthy (GmailHelper.error r)
                then GmailServer.LabelResponse VNone (GmailHelper.error r)
                else GmailServer.LabelResponse (GmailHelper.payload r) None);
        eexists; reflexivity.
    + exists d. split; [exact Hd|]. subst target.
      unfold GmailServer.updated_label_body, and_then in Hbody.
      assert (Hn : (match name with
                    | Some x => Returned (VStr x)
                    | None => get (VDict d) "name" VNone
                    end) = Returned (Claims.kept name "name" d)).
      { destruct name; cbn; [reflexivity|].
        destruct (assoc "name" d); reflexivity. }
      assert (Hm : (match message_list_visibility with
                    | Some x => Returned (VStr x)
                    | None => get (VDict d) "messageListVisibility" VNone
                    end)
                   = Returned (Claims.kept message_list_visibility
                                 "messageListVisibility" d)).
      { destruct message_list_visibility; cbn; [reflexivity|].
        destruct (assoc "messageListVisibility" d); reflexivity. }
      assert (Hl : (match label_list_visibility with
                    | Some x => Returned (VStr x)
                    | None => get (VDict d) "labelListVisibility" VNone
                    end)
                   = Returned (Claims.kept label_list_visibility
                                 "labelListVisibility" d)).
      { destruct label_list_visibility; cbn; [reflexivity|].
        destruct (assoc "labelListVisibility" d); reflexivity. }
      rewrite Hn, Hm, Hl in Hbody.
      set (base := <["labelListVisibility" :=
                       Claims.kept label_list_visibility
                         "labelListVisibility" d]>
                     (<["messageListVisibility" :=
                          Claims.kept message_list_visibility
                            "messageListVisibility" d]>
                        (<["name" := Claims.kept name "name" d]> ∅)))
        in *.
      assert (Hbase_name : base !! "name" = Some (Claims.kept name "name" d)).
      { unfold base. rewrite !lookup_insert_ne by discriminate.
        apply lookup_insert_eq. }
      assert (Hbase_m : base !! "messageListVisibility"
                        = Some (Claims.kept message_list_visibility
                                  "messageListVisibility" d)).
      { unfold base. rewrite lookup_insert_ne by discriminate.
        apply lookup_insert_eq. }
      assert (Hbase_l : base !! "labelListVisibility"
                        = Some (Claims.kept label_list_visibility
                                  "labelListVisibility" d)).
      { unfold base. apply lookup_insert_eq. }
      assert (Hbase_other : forall k, k <> "name" ->
                 k <> "messageListVisibility" ->
                 k <> "labelListVisibility" -> base !! k = None).
      { intros k H1 H2 H3. unfold base.
        rewrite !lookup_insert_ne by congruence. apply lookup_empty. }
      assert (Hcases :
        body = base
        \/ ((text_color <> None \/ background_color <> None)
            /\ exists tc bc,
                GmailServer.fill_color text_color "textColor" (VDict d)
                = Returned tc
                /\ GmailServer.fill_color background_color "backgroundColor"
                     (VDict d) = Returned bc
                /\ truthy tc = true /\ truthy bc = true
                /\ body = <["color" := VDict [("textColor", tc);
                                              ("backgroundColor", bc)]]> base)).
      { destruct text_color as [t|], background_color as [b|];
          try (left; inversion Hbody; reflexivity).
        all: destruct (GmailServer.fill_color _ "textColor" (VDict d))
               as [tc|] eqn:Htc; [|discriminate Hbody].
        all: destruct (GmailServer.fill_color _ "backgroundColor" (VDict d))
               as [bc|] eqn:Hbc; [|discriminate Hbody].
        all: destruct (truthy tc && truthy bc) eqn:Hboth;
               [|left; inversion Hbody; reflexivity].
        all: apply andb_prop in Hboth; destruct Hboth as [Ht Hb].
        all: right; split; [first [left; discriminate|right; discriminate]|].
        all: exists tc, bc; inversion Hbody; subst; auto. }
      destruct Hcases as [Heq|(Hreq & tc & bc & Htc & Hbc & Ht & Hb & Heq)];
        subst body.
      * split; [exact Hbase_name|]. split; [exact Hbase_m|].
        split; [exact Hbase_l|]. split.
        -- intros k H1 H2 H3 _. apply Hbase_other; assumption.
        -- intros c Hc. rewrite Hbase_other in Hc by discriminate.
           discriminate Hc.
      * split; [rewrite lookup_insert_ne by discriminate; exact Hbase_name|].
        split; [rewrite lookup_insert_ne by discriminate; exact Hbase_m|].
        split; [rewrite lookup_insert_ne by discriminate; exact Hbase_l|].
        split.
        -- intros k H1 H2 H3 H4. rewrite lookup_insert_ne by congruence.
           apply Hbase_other; assumption.
        -- intros c Hc. rewrite lookup_insert_eq in Hc. inversion Hc; subst.
           split; [exact Hreq|]. exists tc, bc. auto.
Qed.

Lemma update_gmail_label_keeps_unset_fields_witness :
  let E := Examples.open_env Examples.working_auth Examples.labels_api in
  let body : gmap string value :=
    <["color" := VDict [("textColor", VStr "#ff0000");
                        ("backgroundColor", VStr "#ffffff")]]>
      (<["labelListVisibility" := VStr "labelShow"]>
         (<["messageListVisibility" := VStr "show"]>
            (<["name" := VStr "Work"]> ∅))) in
  (exists resp,
      GmailServer.update_gmail_label E "Label_2" None (Some "#ff0000") None
        None None (Some "me") Examples.ready_world
      = Some (Returned resp,
              Claims.add_calls Examples.ready_world
                [CLabelsList (Some "me");
                 CLabelsUpdate (Some "me") "Label_2" body]))
  /\ exists d,
      VDict Examples.work_label = VDict d
      /\ body !! "name" = Some (Claims.kept None "name" d)
      /\ body !! "messageListVisibility"
         = Some (Claims.kept None "messageListVisibility" d)
      /\ body !! "labelListVisibility"
         = Some (Claims.kept None "labelListVisibility" d)
      /\ (forall k, k <> "name" -> k <> "messageListVisibility" ->
                    k <> "labelListVisibility" -> k <> "color" ->
                    body !! k = None)
      /\ (forall c, body !! "color" = Some c ->
          (Some "#ff0000" <> None \/ @None string <> None)
          /\ exists tc bc,
              GmailServer.fill_color (Some "#ff0000") "textColor"
                (VDict Examples.work_label) = Returned tc
              /\ GmailServer.fill_color None "backgroundColor"
                   (VDict Examples.work_label) = Returned bc
              /\ truthy tc = true /\ truthy bc = true
              /\ c = VDict [("textColor", tc); ("backgroundColor", bc)]).
Proof.
  exact (proj2 (update_gmail_label_keeps_unset_fields
                  (Examples.open_env Examples.working_auth Examples.labels_api)
                  "Label_2" None (Some "#ff0000") None None None (Some "me")
                  Examples.ready_world Examples.ready_world
                  (VDict [("labels",
                           VList [VDict [("id", VStr "INBOX");
                                         ("name", VStr "INBOX")];
                                  VDict Examples.work_label])])
                  (VList [VDict [("id", VStr "INBOX"); ("name", VStr "INBOX")];
                          VDict Examples.work_label])
                  [VDict [("id", VStr "INBOX"); ("name", VStr "INBOX")];
                   VDict Examples.work_label]
                  eq_refl eq_refl eq_refl eq_refl)
           (VDict Examples.work_label)
           (<["color" := VDict [("textColor", VStr "#ff0000");
                                ("backgroundColor", VStr "#ffffff")]]>
              (<["labelListVisibility" := VStr "labelShow"]>
                 (<["messageListVisibility" := VStr "show"]>
                    (<["name" := VStr "Work"]> ∅))))
           eq_refl eq_refl).
Defined.

(** ** The Jira issue tool *)

Lemma append_nil_r (s : string) : s ++ "" = s.
Proof.
  induction s as [|c s IH]; [reflexivity|].
  change (String c (s ++ "") = String c s). rewrite IH. reflexivity.
Qed.

Lemma append_assoc (a b c : string) : (a ++ b) ++ c = a ++ (b ++ c).
Proof.
  induction a as [|x a IH]; [reflexivity|].
  change (String x ((a ++ b) ++ c) = String x (a ++ (b ++ c))).
  rewrite IH. reflexivity.
Qed.

Lemma paragraph_text_ok nodes :
  forall acc,
    forallb Claims.node_ok nodes = true ->
    JiraServer.paragraph_text nodes acc
    = Returned (acc ++ fold_right (fun node a => Claims.node_text node ++ a)
                         "" nodes).
Proof.
  induction nodes as [|node rest IH]; intros acc Hok; cbn.
  - rewrite append_nil_r. reflexivity.
  - cbn in Hok. apply andb_prop in Hok. destruct Hok as [Hnode Hrest].
    destruct node as [| | | | |d]; try discriminate Hnode.
    unfold and_then. cbn in *.
    destruct (eq_str (default VNone (assoc "type" d)) "text") eqn:Htype.
    + assert (Hty : eq_str match assoc "type" d with
                           | Some x => x
                           | None => VNone
                           end "text" = true).
      { destruct (assoc "type" d); exact Htype. }
      rewrite Hty.
      destruct (assoc "text" d) as [t|].
      * destruct t; try discriminate Hnode.
        rewrite (IH _ Hrest). rewrite append_assoc. reflexivity.
      * rewrite (IH _ Hrest). rewrite append_nil_r. reflexivity.
    + assert (Hty : eq_str match assoc "type" d with
                           | Some x => x
                           | None => VNone
                           end "text" = false).
      { destruct (assoc "type" d); exact Htype. }
      rewrite Hty. rewrite (IH _ Hrest). reflexivity.
Qed.

Lemma document_text_ok elements :
  forall acc,
    forallb Claims.element_ok elements = true ->
    JiraServer.document_text elements acc
    = Returned (acc ++ Claims.adf_text elements).
Proof.
  induction elements as [|element rest IH]; intros acc Hok.
  - cbn. rewrite append_nil_r. reflexivity.
  - cbn in Hok. apply andb_prop in Hok. destruct Hok as [Hel Hrest].
    destruct element as [| | | | |d]; try discriminate Hel.
    cbn [JiraServer.document_text]. unfold and_then.
    unfold Claims.adf_text. cbn [List.filter].
    cbn [get contains Claims.type_is Claims.has_content].
    cbn [Claims.element_ok Claims.type_is] in Hel.
    assert (Hty : eq_str match assoc "type" d with
                         | Some x => x
                         | None => VNone
                         end "paragraph"
                  = eq_str (default VNone (assoc "type" d)) "paragraph").
    { destruct (assoc "type" d); reflexivity. }
    rewrite Hty.
    destruct (eq_str (default VNone (assoc "type" d)) "paragraph").
    + destruct (assoc "content" d) as [c|] eqn:Hc; cbn [andb].
      * destruct c; try discriminate Hel.
        cbn [iter].
        rewrite (paragraph_text_ok _ _ Hel).
        rewrite (IH _ Hrest).
        cbn [fold_right]. unfold Claims.paragraph_line at 1.
        cbn [Claims.nodes_of]. rewrite Hc.
        fold (Claims.adf_text rest).
        rewrite !append_assoc. reflexivity.
      * rewrite (IH _ Hrest). reflexivity.
    + cbn [andb]. rewrite (IH _ Hrest). reflexivity.
Qed.

(** C6, as the specification has it, fails on a document with an empty
    paragraph, which Jira sends without a [content] key: the tool returns
    an empty description, not the newline of that paragraph. *)
Lemma empty_paragraph_gives_no_line :
  JiraServer.extract_jira_issue
    (Examples.jira_site Examples.empty_paragraph_doc) "PROJ-1" empty_world
  = Some (Returned
            (Tool.Model "JiraIssueResponse"
               [("summary", VStr "Fix login"); ("description", VStr "");
                ("error", VNone)]),
          Claims.add_calls empty_world
            [CHttpGet "https://x.atlassian.net/rest/api/3/issue/PROJ-1"
               "me@x.org" "secret"])
  /\ ~ Claims.description_as_specified
         (Examples.jira_site Examples.empty_paragraph_doc) "PROJ-1"
         empty_world.
Proof.
  split; [reflexivity|].
  intros H.
  specialize (H _ _ "" "" "" _ _ _ _ _ eq_refl eq_refl eq_refl eq_refl
                eq_refl eq_refl eq_refl).
  vm_compute in H. discriminate H.
Qed.

(** C6, amended. With complete credentials [extract_jira_issue] always
    returns a response after exactly one GET to
    base_url/rest/api/3/issue/issue_key. On a status other than 200 the
    summary and the description are empty and [error] is a string. On
    status 200, a string summary and a description that is a document whose
    elements raise no exception, the description returned is the
    concatenation, over the top-level paragraphs that have a [content] key,
    of the paragraph's text nodes followed by a newline; paragraphs without
    that key, other elements and other nodes give nothing. *)
Theorem extract_jira_issue_description :
  forall (J : JiraServer.JiraEnv) (issue_key base email token : string)
         (w : World),
    JiraServer.py_or (JiraServer.getenv J "JIRA_BASE_URL")
      (JiraServer.getenv J "JIRA_INSTANCE_URL") = Some base ->
    JiraServer.py_or (JiraServer.getenv J "JIRA_EMAIL")
      (JiraServer.getenv J "JIRA_USERNAME") = Some email ->
    JiraServer.getenv J "JIRA_API_TOKEN" = Some token ->
    str_truthy base = true -> str_truthy email = true ->
    str_truthy token = true ->
    let url := base ++ "/rest/api/3/issue/" ++ issue_key in
    let w' := Claims.add_calls w [CHttpGet url email token] in
    (exists resp,
        JiraServer.extract_jira_issue J issue_key w = Some (Returned resp, w'))
    /\ (forall response,
          JiraServer.requests_get J url email token = Returned response ->
          JiraServer.status_code response <> 200%Z ->
          exists msg,
            JiraServer.extract_jira_issue J issue_key w
            = Some (Returned
                      (Tool.Model "JiraIssueResponse"
                         [("summary", VStr ""); ("description", VStr "");
                          ("error", VStr msg)]), w'))
    /\ (forall response issue fields summary d elements,
          JiraServer.requests_get J url email token = Returned response ->
          JiraServer.status_code response = 200%Z ->
          JiraServer.json response = Returned issue ->
          get issue "fields" (VDict []) = Returned fields ->
          get fields "summary" (VStr "") = Returned (VStr summary) ->
          get fields "description" (VStr "") = Returned (VDict d) ->
          assoc "content" d = Some (VList elements) ->
          forallb Claims.element_ok elements = true ->
          JiraServer.extract_jira_issue J issue_key w
          = Some (Returned
                    (Tool.Model "JiraIssueResponse"
                       [("summary", VStr summary);
                        ("description", VStr (Claims.adf_text elements));
                        ("error", VNone)]), w')).
Proof.
  intros J issue_key base email token w Hbase Hemail Htoken Tb Te Tt url w'.
  assert (Hbody : forall k : JiraServer.HttpResponse -> M Tool.response,
    JiraServer.extract_jira_issue J issue_key w
    = Tool.run Tool.extract_jira_issue
        (do response <- vendor (CHttpGet url email token)
                          (JiraServer.requests_get J url email token);
         if negb (Z.eqb (JiraServer.status_code response) 200) then
           lift (JiraServer.JiraIssueResponse (VStr "") (VStr "")
                   (Some ("Failed to fetch Jira issue: "
                          ++ pretty (JiraServer.status_code response) ++ " - "
                          ++ JiraServer.text response)))
         else
           do issue_data <- lift (JiraServer.json response);
           do fields <- lift (get issue_data "fields" (VDict []));
           do summary <- lift (get fields "summary" (VStr ""));
           do fields' <- lift (get issue_data "fields" (VDict []));
           do description <- lift (get fields' "description" (VStr ""));
           do description' <- lift (JiraServer.plain_description description);
           lift (JiraServer.JiraIssueResponse summary description' None)) w).
  { intros _. unfold JiraServer.extract_jira_issue. cbv zeta.
    rewrite Hbase, Hemail, Htoken. cbn [opt_truthy default].
    rewrite Tb, Te, Tt. reflexivity. }
  specialize (Hbody (fun _ => ret (Tool.Plain ""))).
  split; [|split].
  - rewrite Hbody. unfold Tool.run, try_except, bind, vendor, lift.
    fold w'.
    repeat match goal with
           | |- context [match ?x with _ => _ end] =>
               lazymatch x with
               | context [match _ with _ => _ end] => fail
               | _ => destruct x
               end
           | |- context [if ?x then _ else _] => destruct x
           end.
    all: eexists; reflexivity.
  - intros response Hget Hstatus. rewrite Hbody.
    eexists. apply run_returned. unfold bind, vendor, lift. rewrite Hget.
    apply Z.eqb_neq in Hstatus. rewrite Hstatus. reflexivity.
  - intros response issue fields summary d elements Hget Hstatus Hjson
      Hfields Hsummary Hdesc Hcontent Hok.
    rewrite Hbody. apply run_returned.
    unfold bind, vendor, lift. rewrite Hget.
    apply Z.eqb_eq in Hstatus. rewrite Hstatus. cbn [negb].
    rewrite Hjson, Hfields, Hsummary, Hdesc.
    unfold JiraServer.plain_description. rewrite Hcontent.
    unfold and_then. cbn [get]. rewrite Hcontent. cbn [iter].
    rewrite (document_text_ok _ "" Hok). reflexivity.
Qed.

Lemma extract_jira_issue_description_witness :
  let J := Examples.jira_site Examples.sample_doc in
  let w' := Claims.add_calls empty_world
              [CHttpGet "https://x.atlassian.net/rest/api/3/issue/PROJ-1"
                 "me@x.org" "secret"] in
  JiraServer.extract_jira_issue J "PROJ-1" empty_world
  = Some (Returned
            (Tool.Model "JiraIssueResponse"
               [("summary", VStr "Fix login");
                ("description",
                 VStr (Claims.adf_text
                         (Claims.nodes_of Examples.sample_doc)));
                ("error", VNone)]), w').
Proof.
  exact (proj2 (proj2 (extract_jira_issue_description
                         (Examples.jira_site Examples.sample_doc) "PROJ-1"
                         "https://x.atlassian.net" "me@x.org" "secret"
                         empty_world eq_refl eq_refl eq_refl eq_refl eq_refl
                         eq_refl))
           _ _ _ "Fix login" _ (Claims.nodes_of Examples.sample_doc)
           eq_refl eq_refl eq_refl eq_refl eq_refl eq_refl eq_refl eq_refl).
Defined.

(** * Further properties of the code *)

(** ** The history ID file *)

Lemma lstrip_first s c :
  Claims.first_char (lstrip s) = Some c -> isspace c = false.
Proof.
  induction s as [|a r IH]; cbn; [discriminate|].
  destruct (isspace a) eqn:Ha; [exact IH|].
  cbn. intros H. inversion H; subst. exact Ha.
Qed.

Lemma rstrip_last s c :
  Claims.last_char (rstrip s) = Some c -> isspace c = false.
Proof.
  induction s as [|a r IH]; cbn [rstrip]; [discriminate|].
  destruct (rstrip r) as [|a' t] eqn:Hr.
  - destruct (isspace a) eqn:Ha; cbn; [discriminate|].
    intros H. inversion H; subst. exact Ha.
  - exact IH.
Qed.

Lemma rstrip_first s c :
  Claims.first_char (rstrip s) = Some c -> Claims.first_char s = Some c.
Proof.
  destruct s as [|a r]; cbn [rstrip]; [discriminate|].
  destruct (rstrip r) as [|a' t].
  - destruct (isspace a); cbn; [discriminate|auto].
  - cbn. auto.
Qed.

Lemma strip_no_edge_whitespace s : Claims.no_edge_whitespace (strip s) = true.
Proof.
  unfold Claims.no_edge_whitespace, strip.
  destruct (Claims.first_char (rstrip (lstrip s))) as [a|] eqn:Hf;
    [|reflexivity].
  destruct (Claims.last_char (rstrip (lstrip s))) as [b|] eqn:Hl;
    [|reflexivity].
  rewrite (lstrip_first _ _ (rstrip_first _ _ Hf)), (rstrip_last _ _ Hl).
  reflexivity.
Qed.

(** X1. [load_history_id] never raises and leaves the world as it is. On a
    path with no file it returns no ID and the error naming the path; an ID
    it returns comes with no error, is the stripped content of the file and
    has no leading or trailing whitespace; with no ID there is an error. *)
Theorem load_history_id_result :
  forall (E : Env) (path : string) (w : World),
  exists r,
    GmailHelper.load_history_id E path w = Some (Returned r, w)
    /\ (fs w !! path = None ->
        r = GmailHelper.mkResult None
              (Some ("No history ID file found at " ++ path)))
    /\ (forall id,
          GmailHelper.payload r = Some id ->
          GmailHelper.error r = None
          /\ Claims.no_edge_whitespace id = true
          /\ exists text, fs w !! path = Some text
                          /\ id = strip (universal_newlines text))
    /\ (GmailHelper.payload r = None ->
        exists e, GmailHelper.error r = Some e).
Proof.
  intros E path w.
  unfold GmailHelper.load_history_id, try_except, bind, path_exists,
    read_file, ret.
  cbv beta.
  destruct (fs w !! path) as [text|] eqn:Hfile.
  - rewrite bool_decide_eq_true_2 by (eexists; reflexivity).
    cbv beta iota. rewrite Hfile.
    destruct (open_read_error E path) as [e|].
    + eexists. split; [reflexivity|]. split; [discriminate|].
      split; [discriminate|]. intros _. eexists; reflexivity.
    + eexists. split; [reflexivity|]. split; [discriminate|]. split.
      * cbn. intros id Hid. inversion Hid; subst.
        split; [reflexivity|]. split; [apply strip_no_edge_whitespace|].
        exists text. split; reflexivity.
      * discriminate.
  - rewrite bool_decide_eq_false_2 by (intros [x Hx]; discriminate Hx).
    eexists. split; [reflexivity|]. split; [reflexivity|].
    split; [discriminate|]. intros _. eexists; reflexivity.
Qed.

(** X2. [save_history_id] never raises. It reports success exactly when it
    reports no error; then the file at the path holds the text of the ID.
    It fails in two ways: the file could not be opened, and the world is
    unchanged; or the write failed after the file had been opened, hence
    emptied, and the file holds only what had been written before the
    failure, nothing of what it held before. No other file and no other part
    of the world changes in any case. *)
Theorem save_history_id_frame :
  forall (E : Env) (history_id : value) (path : string) (w : World),
  exists r w',
    GmailHelper.save_history_id E history_id path w = Some (Returned r, w')
    /\ (GmailHelper.payload r = true <-> GmailHelper.error r = None)
    /\ (GmailHelper.payload r = true ->
        fs w' !! path = Some (GmailHelper.py_str E history_id))
    /\ (GmailHelper.payload r = false ->
        (w' = w /\ exists e, open_write_error E path = Some e)
        \/ (open_write_error E path = None
            /\ exists e n,
                write_error E path (GmailHelper.py_str E history_id)
                = Some (e, n)
                /\ fs w' !! path
                   = Some (String.substring 0 n
                             (GmailHelper.py_str E history_id))))
    /\ (forall p, p <> path -> fs w' !! p = fs w !! p)
    /\ calls w' = calls w /\ service w' = service w.
Proof.
  intros E history_id path w.
  unfold GmailHelper.save_history_id, try_except, bind, write_file, ret.
  destruct (open_write_error E path) as [e|].
  { exists (GmailHelper.mkResult false (Some ("Error saving historyId: " ++ e))), w.
    split; [reflexivity|]. cbn.
    split; [split; discriminate|]. split; [discriminate|].
    split; [intros _; left; split; [reflexivity|exists e; reflexivity]|].
    repeat split; reflexivity. }
  destruct (write_error E path (GmailHelper.py_str E history_id))
    as [[e n]|] eqn:Hwrite.
  - eexists _, _. split; [reflexivity|]. cbn.
    split; [split; discriminate|]. split; [discriminate|].
    split.
    { intros _. right. split; [reflexivity|]. exists e, n.
      split; [reflexivity|apply lookup_insert_eq]. }
    split; [intros p Hp; apply lookup_insert_ne; congruence|].
    split; reflexivity.
  - eexists _, _. split; [reflexivity|]. cbn.
    split; [split; reflexivity|]. split; [intros _; apply lookup_insert_eq|].
    split; [discriminate|].
    split; [intros p Hp; apply lookup_insert_ne; congruence|].
    split; reflexivity.
Qed.

(** X3. Saving overwrites: after two successive saves to a file that can be
    opened, the second of which is written in full, loading gives the second
    ID (when it has no leading or trailing whitespace and no carriage
    return), whatever the first was and whether or not it was written in
    full. *)
Theorem save_twice_load_last :
  forall (E : Env) (first : value) (second path : string)
         (w w1 w2 : World) (r1 r2 : GmailHelper.result bool),
    open_write_error E path = None ->
    write_error E path second = None ->
    open_read_error E path = None ->
    Claims.no_edge_whitespace second = true ->
    Claims.has_cr second = false ->
    GmailHelper.save_history_id E first path w = Some (Returned r1, w1) ->
    GmailHelper.save_history_id E (VStr second) path w1
    = Some (Returned r2, w2) ->
    fs w2 = <[path := second]> (fs w)
    /\ GmailHelper.load_history_id E path w2
       = Some (Returned (GmailHelper.mkResult (Some second) None), w2).
Proof.
  intros E first second path w w1 w2 r1 r2 Hw Hwr Hr Hedge Hcr H1 H2.
  unfold GmailHelper.save_history_id, try_except, bind, write_file, ret in H1, H2.
  cbn [GmailHelper.py_str] in H2.
  rewrite Hw in H1, H2. rewrite Hwr in H2.
  inversion H2; subst. clear H2.
  assert (Hfs1 : exists text, fs w1 = <[path := text]> (fs w)).
  { destruct (write_error E path (GmailHelper.py_str E first)) as [[e n]|];
      inversion H1; subst; eexists; reflexivity. }
  destruct Hfs1 as [text Hfs1].
  cbn [fs]. rewrite Hfs1.
  assert (Hii : <[path:=second]> (<[path:=text]> (fs w))
                = <[path:=second]> (fs w)) by apply insert_insert_eq.
  rewrite Hii. split; [reflexivity|].
  unfold GmailHelper.load_history_id, try_except, bind, path_exists,
    read_file, ret.
  assert (Hlook : <[path:=second]> (fs w) !! path = Some second)
    by apply lookup_insert_eq.
  cbn [fs]. rewrite ?Hfs1, ?Hii.
  rewrite bool_decide_eq_true_2 by (rewrite Hlook; eexists; reflexivity).
  cbn [fs]. rewrite ?Hfs1, ?Hii. rewrite Hlook, Hr.
  rewrite (universal_newlines_without_cr _ Hcr), (strip_clean _ Hedge).
  reflexivity.
Qed.

Lemma save_twice_load_last_witness :
  let E := Examples.open_env Examples.failing_auth Examples.failing_api in
  let w2 := mkWorld (<["id.txt" := "20"]> (<["id.txt" := "10"]> ∅))
              None None [] in
  fs w2 = <["id.txt" := "20"]> (fs empty_world)
  /\ GmailHelper.load_history_id E "id.txt" w2
     = Some (Returned (GmailHelper.mkResult (Some "20") None), w2).
Proof.
  exact (save_twice_load_last
           (Examples.open_env Examples.failing_auth Examples.failing_api)
           (VInt 10) "20" "id.txt" empty_world _ _ _ _
           eq_refl eq_refl eq_refl eq_refl eq_refl eq_refl eq_refl).
Defined.

(** ** Retrieving history *)




Lemma process_record_id record r :
  GmailServer.process_record record = Returned r ->
  Facts.id_of r = Facts.id_of record.
Proof.
  unfold GmailServer.process_record, and_then.
  destruct record as [| | | | |d]; cbn [get]; try discriminate.
  unfold Facts.id_of at 2.
  destruct (assoc "id" d) as [i|]; cbn [default].
  all: repeat match goal with
         | |- context [match ?x with _ => _ end] =>
             lazymatch x with
             | context [match _ with _ => _ end] => fail
             | _ => destruct x
             end
         end.
  all: intros H; inversion H; reflexivity.
Qed.

(** X5. The records [get_gmail_history] hands back are the records of the
    helper one for one: as many, in the same order, each under the [id] of
    the record it was made from. *)
Theorem process_history_keeps_ids :
  forall (records processed : list value),
    GmailServer.process_history records = Returned processed ->
    map Facts.id_of processed = map Facts.id_of records
    /\ length processed = length records.
Proof.
  induction records as [|record rest IH]; intros processed H; cbn in H.
  - inversion H; subst. split; reflexivity.
  - unfold and_then in H.
    destruct (GmailServer.process_record record) as [r|] eqn:Hr;
      [|discriminate].
    destruct (GmailServer.process_history rest) as [rs|]; [|discriminate].
    inversion H; subst. destruct (IH rs eq_refl) as [Hids Hlen].
    cbn. rewrite (process_record_id _ _ Hr), Hids, Hlen. split; reflexivity.
Qed.

Lemma process_history_keeps_ids_witness :
  map Facts.id_of
    [VDict [("id", VStr "101"); ("changes", VList [])];
     VDict [("id", VNone); ("changes", VList [])]]
  = map Facts.id_of [Examples.record "101"; VDict []]
  /\ length [VDict [("id", VStr "101"); ("changes", VList [])];
             VDict [("id", VNone); ("changes", VList [])]]
     = length [Examples.record "101"; VDict []].
Proof.
  exact (process_history_keeps_ids [Examples.record "101"; VDict []] _ eq_refl).
Defined.

Lemma change_type type src item c :
  GmailServer.change type src item = Returned c ->
  Facts.type_of c = VStr type.
Proof.
  unfold GmailServer.change, and_then.
  repeat match goal with
         | |- context [match ?x with _ => _ end] =>
             lazymatch x with
             | context [match _ with _ => _ end] => fail
             | _ => destruct x
             end
         end.
  all: intros H; inversion H; reflexivity.
Qed.

Lemma changes_of_typed type src items :
  forall cs,
    GmailServer.changes_of type src items = Returned cs ->
    length cs = length items
    /\ Forall (fun c => Facts.type_of c = VStr type) cs.
Proof.
  induction items as [|item rest IH]; intros cs H; cbn in H.
  - inversion H; subst. split; [reflexivity|constructor].
  - unfold and_then in H.
    destruct (GmailServer.change type src item) as [c|] eqn:Hc;
      [|discriminate].
    destruct (GmailServer.changes_of type src rest) as [cs'|]; [|discriminate].
    inversion H; subst. destruct (IH cs' eq_refl) as [Hlen Hall].
    split; [cbn; rewrite Hlen; reflexivity|].
    constructor; [exact (change_type _ _ _ _ Hc)|exact Hall].
Qed.

Lemma changes_under_typed key type src d changes cs :
  GmailServer.changes_under key type src (VDict d) changes = Returned cs ->
  exists new,
    cs = (changes ++ new)%list
    /\ length new = Facts.items_under key d
    /\ Forall (fun c => Facts.type_of c = VStr type) new.
Proof.
  unfold GmailServer.changes_under, and_then, Facts.items_under.
  cbn [contains getitem].
  destruct (assoc key d) as [v|].
  - destruct (iter v) as [items|]; [|discriminate].
    destruct (GmailServer.changes_of type src items) as [new|] eqn:Hnew;
      [|discriminate].
    intros H. inversion H; subst.
    destruct (changes_of_typed _ _ _ _ Hnew) as [Hlen Hall].
    exists new. auto.
  - intros H. inversion H; subst. exists []. rewrite app_nil_r.
    split; [reflexivity|]. split; [reflexivity|constructor].
Qed.

(** X6. A processed history record lists its changes in four groups, in
    this order: one [messageAdded] per item under [messagesAdded], one
    [messageDeleted] per item under [messagesDeleted], one [labelAdded] per
    item under [labelsAdded], one [labelRemoved] per item under
    [labelsRemoved]; a key that is absent gives no change. *)
Theorem process_record_changes :
  forall (d : list (string * value)) (r : value),
    GmailServer.process_record (VDict d) = Returned r ->
    exists added deleted labelled unlabelled,
      r = VDict [("id", default VNone (assoc "id" d));
                 ("changes",
                  VList (added ++ deleted ++ labelled ++ unlabelled))]
      /\ length added = Facts.items_under "messagesAdded" d
      /\ length deleted = Facts.items_under "messagesDeleted" d
      /\ length labelled = Facts.items_under "labelsAdded" d
      /\ length unlabelled = Facts.items_under "labelsRemoved" d
      /\ Forall (fun c => Facts.type_of c = VStr "messageAdded") added
      /\ Forall (fun c => Facts.type_of c = VStr "messageDeleted") deleted
      /\ Forall (fun c => Facts.type_of c = VStr "labelAdded") labelled
      /\ Forall (fun c => Facts.type_of c = VStr "labelRemoved") unlabelled.
Proof.
  intros d r H.
  unfold GmailServer.process_record in H. cbn [get and_then] in H.
  destruct (GmailServer.changes_under "messagesAdded" "messageAdded"
              GmailServer.FromMessage (VDict d) []) as [c1|] eqn:H1;
    [|discriminate].
  cbn [and_then] in H.
  destruct (GmailServer.changes_under "messagesDeleted" "messageDeleted"
              GmailServer.Omitted (VDict d) c1) as [c2|] eqn:H2;
    [|discriminate].
  cbn [and_then] in H.
  destruct (GmailServer.changes_under "labelsAdded" "labelAdded"
              GmailServer.FromItem (VDict d) c2) as [c3|] eqn:H3;
    [|discriminate].
  cbn [and_then] in H.
  destruct (GmailServer.changes_under "labelsRemoved" "labelRemoved"
              GmailServer.FromItem (VDict d) c3) as [c4|] eqn:H4;
    [|discriminate].
  cbn [and_then] in H. inversion H; subst. clear H.
  destruct (changes_under_typed _ _ _ _ _ _ H1) as (a & -> & La & Ta).
  destruct (changes_under_typed _ _ _ _ _ _ H2) as (b & -> & Lb & Tb).
  destruct (changes_under_typed _ _ _ _ _ _ H3) as (c & -> & Lc & Tc).
  destruct (changes_under_typed _ _ _ _ _ _ H4) as (e & -> & Le & Te).
  exists a, b, c, e. cbn [app]. rewrite <- !app_assoc.
  split; [destruct (assoc "id" d); reflexivity|].
  repeat split; assumption.
Qed.

Lemma process_record_changes_witness :
  exists added deleted labelled unlabelled,
    VDict [("id", VStr "7");
           ("changes",
            VList [VDict [("type", VStr "messageAdded");
                          ("message_id", VStr "m1");
                          ("thread_id", VStr "t1");
                          ("label_ids", VList [VStr "INBOX"])];
                   VDict [("type", VStr "labelRemoved");
                          ("message_id", VStr "m2");
                          ("thread_id", VNone);
                          ("label_ids", VList [VStr "UNREAD"])]])]
    = VDict [("id", default VNone (assoc "id" Scenarios.changed_record));
             ("changes",
              VList (added ++ deleted ++ labelled ++ unlabelled))]
    /\ length added = Facts.items_under "messagesAdded" Scenarios.changed_record
    /\ length deleted
       = Facts.items_under "messagesDeleted" Scenarios.changed_record
    /\ length labelled
       = Facts.items_under "labelsAdded" Scenarios.changed_record
    /\ length unlabelled
       = Facts.items_under "labelsRemoved" Scenarios.changed_record
    /\ Forall (fun c => Facts.type_of c = VStr "messageAdded") added
    /\ Forall (fun c => Facts.type_of c = VStr "messageDeleted") deleted
    /\ Forall (fun c => Facts.type_of c = VStr "labelAdded") labelled
    /\ Forall (fun c => Facts.type_of c = VStr "labelRemoved") unlabelled.
Proof.
  exact (process_record_changes Scenarios.changed_record _ eq_refl).
Defined.

(** ** The listed messages *)

Lemma dict_set_keys k v d x :
  x ∈ map fst (GmailHelper.dict_set k v d) -> x = k \/ x ∈ map fst d.
Proof.
  induction d as [|[k' v'] rest IH]; cbn.
  - intros H. apply list_elem_of_singleton in H. auto.
  - destruct (String.eqb k k') eqn:Hk; cbn.
    + apply String.eqb_eq in Hk. subst k'. intros H. right. exact H.
    + intros H. apply elem_of_cons in H. destruct H as [->|H].
      * right. apply elem_of_cons. auto.
      * destruct (IH H) as [->|Hin]; [auto|].
        right. apply elem_of_cons. auto.
Qed.

Lemma dict_set_nodup k v d :
  NoDup (map fst d) -> NoDup (map fst (GmailHelper.dict_set k v d)).
Proof.
  induction d as [|[k' v'] rest IH]; cbn.
  - intros _. apply NoDup_singleton.
  - intros H. apply NoDup_cons in H. destruct H as [Hnot Hrest].
    destruct (String.eqb k k') eqn:Hk; cbn.
    + apply String.eqb_eq in Hk. subst k'. apply NoDup_cons. auto.
    + apply NoDup_cons. split; [|exact (IH Hrest)].
      intros Hin. destruct (dict_set_keys _ _ _ _ Hin) as [->|Hin'].
      * rewrite String.eqb_refl in Hk. discriminate Hk.
      * exact (Hnot Hin').
Qed.

Lemma dict_set_wanted k v d :
  Facts.wanted_name k = true ->
  Forall (fun x => Facts.wanted_name x = true) (map fst d) ->
  Forall (fun x => Facts.wanted_name x = true)
    (map fst (GmailHelper.dict_set k v d)).
Proof.
  intros Hk Hd. apply Forall_forall. intros x Hx.
  destruct (dict_set_keys _ _ _ _ Hx) as [->|Hin]; [exact Hk|].
  rewrite Forall_forall in Hd. exact (Hd x Hin).
Qed.

Lemma wanted_header_name name n :
  GmailHelper.wanted_header name = Some n -> Facts.wanted_name n = true.
Proof.
  unfold GmailHelper.wanted_header, Facts.wanted_name.
  destruct name; try discriminate.
  destruct (String.eqb s "Subject" || String.eqb s "From"
            || String.eqb s "Date") eqn:Hs; [|discriminate].
  intros H. inversion H; subst. exact Hs.
Qed.

Lemma collect_headers_keys hs :
  forall headers res,
    GmailHelper.collect_headers hs headers = Returned res ->
    NoDup (map fst headers) ->
    Forall (fun x => Facts.wanted_name x = true) (map fst headers) ->
    NoDup (map fst res)
    /\ Forall (fun x => Facts.wanted_name x = true) (map fst res).
Proof.
  induction hs as [|header rest IH]; intros headers res H Hnd Hw; cbn in H.
  - inversion H; subst. auto.
  - destruct (getitem header "name") as [name|]; [|discriminate].
    destruct (GmailHelper.wanted_header name) as [n|] eqn:Hn.
    + destruct (getitem header "value") as [v|]; [|discriminate].
      apply (IH _ _ H).
      * apply dict_set_nodup. exact Hnd.
      * apply dict_set_wanted; [exact (wanted_header_name _ _ Hn)|exact Hw].
    + exact (IH _ _ H Hnd Hw).
Qed.

Lemma count_calls_app p a b :
  Facts.count_calls p (a ++ b)
  = Facts.count_calls p a + Facts.count_calls p b.
Proof.
  unfold Facts.count_calls. rewrite List.filter_app, length_app. reflexivity.
Qed.

Lemma process_message_entry (E : Env) (message : value) (w : World) :
  exists o w' cs,
    GmailHelper.process_message E message w = Some (o, w')
    /\ calls w' = (calls w ++ cs)%list
    /\ forall x, o = Returned x ->
                 Facts.message_entry x
                 /\ Facts.count_calls Facts.is_messages_get cs = 1.
Proof.
  unfold GmailHelper.process_message, bind, lift, vendor, ret.
  destruct (getitem message "id") as [id|e] eqn:Hid.
  2:{ exists (Raised e), w, []. rewrite app_nil_r.
      repeat split; try reflexivity; discriminate. }
  destruct (messages_get (api E) id) as [msg|e].
  2:{ exists (Raised e), (Claims.add_calls w [CMessagesGet id]),
        [CMessagesGet id].
      split; [reflexivity|]. split; [reflexivity|]. discriminate. }
  destruct (getitem msg "payload") as [pl|e].
  2:{ do 3 eexists. split; [reflexivity|]. split; [reflexivity|].
      discriminate. }
  destruct (getitem pl "headers") as [hs|e].
  2:{ do 3 eexists. split; [reflexivity|]. split; [reflexivity|].
      discriminate. }
  destruct (iter hs) as [items|e].
  2:{ do 3 eexists. split; [reflexivity|]. split; [reflexivity|].
      discriminate. }
  destruct (GmailHelper.collect_headers items []) as [headers|e] eqn:Hc.
  2:{ do 3 eexists. split; [reflexivity|]. split; [reflexivity|].
      discriminate. }
  destruct (get msg "snippet" (VStr "")) as [snippet|e].
  2:{ do 3 eexists. split; [reflexivity|]. split; [reflexivity|].
      discriminate. }
  do 3 eexists. split; [reflexivity|]. split; [reflexivity|].
  intros x Hx. inversion Hx; subst. split; [|reflexivity].
  destruct (collect_headers_keys _ _ _ Hc ltac:(constructor) ltac:(constructor))
    as [Hnd Hw].
  exists id, headers, snippet. auto.
Qed.

Lemma process_messages_entries (E : Env) (ms : list value) :
  forall (processed : list value) (w : World),
    Forall Facts.message_entry processed ->
    exists o w' cs,
      GmailHelper.process_messages E ms processed w = Some (o, w')
      /\ calls w' = (calls w ++ cs)%list
      /\ forall l, o = Returned l ->
                   Forall Facts.message_entry l
                   /\ length l
                      <= length processed
                         + Facts.count_calls Facts.is_messages_get cs
                   /\ length l <= length processed + length ms.
Proof.
  induction ms as [|message rest IH]; intros processed w Hp.
  - exists (Returned processed), w, []. cbn. rewrite app_nil_r.
    split; [reflexivity|]. split; [reflexivity|].
    intros l Hl. inversion Hl; subst. split; [exact Hp|]. split; lia.
  - cbn [GmailHelper.process_messages].
    unfold bind at 1. unfold try_except. unfold bind at 1.
    destruct (process_message_entry E message w)
      as (o & w1 & cs1 & Hrun & Hc1 & Hx).
    rewrite Hrun.
    destruct o as [x|e].
    + cbn. destruct (Hx x eq_refl) as [Hentry Hone].
      destruct (IH (processed ++ [x])%list w1) as (o' & w2 & cs2 & Hrest & Hc2 & Hl).
      { apply Forall_app. split; [exact Hp|]. constructor; [exact Hentry|constructor]. }
      exists o', w2, (cs1 ++ cs2)%list.
      split; [exact Hrest|].
      split; [rewrite Hc2, Hc1, app_assoc; reflexivity|].
      intros l Ho. destruct (Hl l Ho) as (Hall & Hn1 & Hn2).
      split; [exact Hall|].
      rewrite count_calls_app, Hone. rewrite length_app in Hn1, Hn2.
      cbn in Hn1, Hn2 |- *. split; lia.
    + unfold bind, lift, ret.
      destruct (getitem message "id") as [i|e'].
      * destruct (IH processed w1 Hp) as (o' & w2 & cs2 & Hrest & Hc2 & Hl).
        exists o', w2, (cs1 ++ cs2)%list.
        split; [exact Hrest|].
        split; [rewrite Hc2, Hc1, app_assoc; reflexivity|].
        intros l Ho. destruct (Hl l Ho) as (Hall & Hn1 & Hn2).
        split; [exact Hall|].
        rewrite count_calls_app. cbn. split; lia.
      * exists (Raised e'), w1, cs1. split; [reflexivity|].
        split; [exact Hc1|]. discriminate.
Qed.

(** X7. [list_messages] always returns. Every message it returns is a dict
    with exactly the keys [id], [headers] and [snippet], whose headers are
    among Subject, From and Date with each name at most once, and each was
    fetched by a [messages().get] request of its own: no more messages come
    back than such requests were made. *)
Theorem list_messages_entries :
  forall (E : Env) (query : option string) (max_results : option Z)
         (w : World),
  exists r w' new,
    GmailHelper.list_messages E query max_results w = Some (Returned r, w')
    /\ calls w' = (calls w ++ new)%list
    /\ Forall Facts.message_entry (GmailHelper.payload r)
    /\ length (GmailHelper.payload r)
       <= Facts.count_calls Facts.is_messages_get new.
Proof.
  intros E query max_results w.
  unfold GmailHelper.list_messages. unfold bind at 1.
  destruct (ensure_service_runs E w) as (b & w1 & new & Hens & _ & Hcalls & _).
  rewrite Hens.
  destruct b; cbn [negb].
  2:{ do 3 eexists. split; [reflexivity|]. split; [exact Hcalls|].
      split; [constructor|cbn; lia]. }
  unfold try_except, bind, vendor, lift, ret.
  destruct (messages_list (api E) query max_results) as [response|e].
  2:{ do 3 eexists. split; [reflexivity|]. cbn [calls GmailHelper.payload].
      split; [rewrite Hcalls, <- app_assoc; reflexivity|].
      split; [constructor|cbn; lia]. }
  destruct (get response "messages" (VList [])) as [messages|e].
  2:{ do 3 eexists. split; [reflexivity|]. cbn [calls GmailHelper.payload].
      split; [rewrite Hcalls, <- app_assoc; reflexivity|].
      split; [constructor|cbn; lia]. }
  destruct (truthy messages); cbn [negb].
  2:{ do 3 eexists. split; [reflexivity|]. cbn [calls GmailHelper.payload].
      split; [rewrite Hcalls, <- app_assoc; reflexivity|].
      split; [constructor|cbn; lia]. }
  destruct (iter messages) as [items|e].
  2:{ do 3 eexists. split; [reflexivity|]. cbn [calls GmailHelper.payload].
      split; [rewrite Hcalls, <- app_assoc; reflexivity|].
      split; [constructor|cbn; lia]. }
  match goal with
  | |- context [GmailHelper.process_messages E items [] ?w0] =>
      destruct (process_messages_entries E items [] w0 ltac:(constructor))
        as (o & w2 & cs & Hrun & Hc2 & Hl)
  end.
  rewrite Hrun. cbn [calls] in Hc2.
  destruct o as [l|e].
  2:{ do 3 eexists. split; [reflexivity|]. cbn [GmailHelper.payload].
      split; [rewrite Hc2, Hcalls, <- !app_assoc; reflexivity|].
      split; [constructor|cbn; lia]. }
  destruct (Hl l eq_refl) as (Hall & Hn & _).
  destruct l as [|x l'].
  - do 3 eexists. split; [reflexivity|]. cbn [GmailHelper.payload].
    split; [rewrite Hc2, Hcalls, <- !app_assoc; reflexivity|].
    split; [constructor|cbn; lia].
  - do 3 eexists. split; [reflexivity|]. cbn [GmailHelper.payload].
    split; [rewrite Hc2, Hcalls, <- !app_assoc; reflexivity|].
    split; [exact Hall|].
    rewrite !count_calls_app. simpl length in *. clear -Hn.
    apply (Nat.le_trans _ _ _ Hn). cbn [Nat.add].
    generalize (Facts.count_calls Facts.is_messages_get cs).
    intros n. lia.
Qed.

(** ** Authentication of the Gmail helper *)

(** X8. [authenticate] always ends with a boolean. On [True] the helper
    holds the Gmail v1 service that [build] returned; on [False] the helper
    keeps the service it had. Neither the file system of the history ID nor
    the [credentials] attribute is touched. *)
Theorem authenticate_sets_service :
  forall (E : Env) (w : World),
  exists (b : bool) (w' : World),
    GmailHelper.authenticate E w = Some (Returned b, w')
    /\ (b = true ->
        service w' = Some (mkService "gmail" "v1")
        /\ build (auth E) = Returned tt)
    /\ (b = false -> service w' = service w)
    /\ credentials w' = credentials w
    /\ fs w' = fs w.
Proof.
  intros E w.
  unfold GmailHelper.authenticate.
  unfold try_except, bind, vendor, ret, set_service, creds_valid, wants_refresh.
  cbn.
  repeat case_split.
  all: try discriminate.
  all: do 2 eexists.
  all: (split; [reflexivity|]).
  all: cbn.
  all: repeat split; try reflexivity; try discriminate.
  all: match goal with
       | |- Returned ?u = Returned () => destruct u; reflexivity
       end.
Qed.

(** X9. A valid token on disk is used as it is: [authenticate] loads it and
    builds the service, and makes no other call; it neither refreshes, nor
    opens the browser flow, nor rewrites the token file, and it returns
    [True] exactly when [build] does not raise. *)
Theorem authenticate_with_valid_token_only_builds :
  forall (E : Env) (w : World) (c : Creds),
    token_exists (auth E) = true ->
    from_authorized_user_file (auth E) = Returned c ->
    valid c = true ->
    exists w',
      GmailHelper.authenticate E w
      = Some (Returned (Facts.returned (build (auth E))), w')
      /\ calls w' = (calls w ++ [CLoadToken; CBuild "gmail" "v1"])%list.
Proof.
  intros E w c Hexists Hload Hvalid.
  unfold GmailHelper.authenticate.
  unfold try_except, bind, vendor, ret, set_service, creds_valid, wants_refresh.
  rewrite Hexists, Hload. cbn. rewrite Hvalid. cbn.
  destruct (build (auth E)); cbn; eexists; (split; [reflexivity|]);
    cbn; rewrite <- app_assoc; reflexivity.
Qed.

Lemma authenticate_with_valid_token_only_builds_witness :
  exists w',
    GmailHelper.authenticate
      (Examples.open_env Examples.working_auth Examples.failing_api)
      empty_world
    = Some (Returned (Facts.returned (build Examples.working_auth)), w')
    /\ calls w' = (calls empty_world ++ [CLoadToken; CBuild "gmail" "v1"])%list.
Proof.
  exact (authenticate_with_valid_token_only_builds
           (Examples.open_env Examples.working_auth Examples.failing_api)
           empty_world (mkCreds true false (Some "r")) eq_refl eq_refl eq_refl).
Defined.

(** X10. The token file follows the credentials: [authenticate] writes it
    only after a refresh or a browser flow, and it never returns [True]
    after either without having written it. A refresh that raises, or that
    leaves the credentials invalid, is followed by the browser flow. *)
Theorem authenticate_token_written :
  forall (E : Env) (w : World),
  exists (b : bool) (w' : World) (new : list Call),
    GmailHelper.authenticate E w = Some (Returned b, w')
    /\ calls w' = (calls w ++ new)%list
    /\ (In CSaveToken new -> In CRefresh new \/ In CRunFlow new)
    /\ (b = true -> In CRefresh new \/ In CRunFlow new -> In CSaveToken new)
    /\ (In CRefresh new ->
        match refresh (auth E) with
        | Returned c => valid c = false
        | Raised _ => True
        end ->
        In CRunFlow new).
Proof.
  intros E w.
  unfold GmailHelper.authenticate.
  unfold try_except, bind, vendor, ret, set_service, creds_valid, wants_refresh.
  cbn.
  repeat case_split.
  all: try discriminate.
  all: do 3 eexists.
  all: (split; [reflexivity|]).
  all: cbn [calls].
  all: rewrite <- ?app_assoc.
  all: split; [try reflexivity; symmetry; apply app_nil_r|].
  all: cbn.
  all: repeat match goal with
         | H : negb _ = true |- _ => apply negb_true_iff in H
         | H : negb _ = false |- _ => apply negb_false_iff in H
         end.
  all: repeat split; intros; try discriminate; try congruence;
         try tauto; intuition (try discriminate; try congruence).
Qed.

Lemma gmail_authenticate_built (E : Env) (w : World) :
  exists (b : bool) (w' : World) (new : list Call),
    GmailHelper.authenticate E w = Some (Returned b, w')
    /\ fs w' = fs w
    /\ calls w' = (calls w ++ new)%list
    /\ (b = true ->
        service w' = Some (mkService "gmail" "v1")
        /\ In (CBuild "gmail" "v1") new)
    /\ (b = false -> service w' = service w).
Proof.
  unfold GmailHelper.authenticate.
  unfold try_except, bind, vendor, ret, set_service, creds_valid, wants_refresh.
  cbn.
  repeat case_split.
  all: try discriminate.
  all: do 3 eexists.
  all: (split; [reflexivity|]); (split; [reflexivity|]).
  all: cbn [calls].
  all: rewrite <- ?app_assoc.
  all: split; [try reflexivity; symmetry; apply app_nil_r|].
  all: cbn.
  all: split; intros; try discriminate; try reflexivity.
  all: split; [reflexivity|tauto].
Qed.

Lemma get_profile_ready (E : Env) (user_id : option string) (w : World)
    (s : Service) :
  service w = Some s ->
  GmailHelper.get_profile E user_id w
  = Some (Returned
            (match getProfile (api E) user_id with
             | Returned profile =>
                 match get profile "emailAddress" VNone with
                 | Returned _ => GmailHelper.mkResult profile None
                 | Raised e =>
                     GmailHelper.mkResult VNone
                       (Some ("Error retrieving profile: " ++ e))
                 end
             | Raised e =>
                 GmailHelper.mkResult VNone
                   (Some ("Error retrieving profile: " ++ e))
             end),
          Claims.add_calls w [CGetProfile user_id]).
Proof.
  intros Hs. unfold GmailHelper.get_profile. unfold bind at 1.
  rewrite (ensure_service_ready E w s Hs). cbn [negb].
  unfold try_except, bind, vendor, lift, ret, Claims.add_calls.
  destruct (getProfile (api E) user_id) as [profile|e]; [|reflexivity].
  destruct (get profile "emailAddress" VNone); reflexivity.
Qed.

Lemma get_profile_runs (E : Env) (user_id : option string) (w : World) :
  exists r w' new,
    GmailHelper.get_profile E user_id w = Some (Returned r, w')
    /\ fs w' = fs w
    /\ calls w' = (calls w ++ new)%list
    /\ ((GmailHelper.error r = None
         /\ Claims.is_dict (GmailHelper.payload r) = true
         /\ In (CGetProfile user_id) new
         /\ getProfile (api E) user_id = Returned (GmailHelper.payload r))
        \/ (exists e, GmailHelper.error r = Some e /\ str_truthy e = true
                      /\ GmailHelper.payload r = VNone)).
Proof.
  unfold GmailHelper.get_profile. unfold bind at 1.
  destruct (ensure_service_runs E w) as (b & w1 & new & Hens & Hfs & Hcalls & _).
  rewrite Hens.
  destruct b; cbn [negb].
  2:{ do 3 eexists. split; [reflexivity|]. split; [exact Hfs|].
      split; [exact Hcalls|]. right. eexists. repeat split; reflexivity. }
  unfold try_except, bind, vendor, lift, ret.
  destruct (getProfile (api E) user_id) as [profile|e] eqn:Hp.
  2:{ do 3 eexists. split; [reflexivity|]. split; [exact Hfs|].
      split; [cbn; rewrite Hcalls, <- app_assoc; reflexivity|].
      right. eexists. repeat split; reflexivity. }
  destruct profile as [| | | | |d]; cbn [get].
  all: do 3 eexists; (split; [reflexivity|]); (split; [exact Hfs|]).
  all: split; [cbn; rewrite Hcalls, <- app_assoc; reflexivity|].
  all: first [right; eexists; repeat split; reflexivity|idtac].
  left. cbn. repeat split; try reflexivity.
  apply in_or_app. right. left. reflexivity.
Qed.

(** X11. Once [authenticate] has returned [True], a helper method does not
    authenticate again: [get_profile] makes the one [getProfile] request and
    no other call. It reports no error exactly when the request returns a
    dict, and then the profile is that dict; in every other case it reports
    an error and no profile. *)
Theorem get_profile_after_authenticate :
  forall (E : Env) (w w' : World) (user_id : option string),
    GmailHelper.authenticate E w = Some (Returned true, w') ->
    exists r,
      GmailHelper.get_profile E user_id w'
      = Some (Returned r, Claims.add_calls w' [CGetProfile user_id])
      /\ (GmailHelper.error r = None
          <-> exists d, getProfile (api E) user_id = Returned (VDict d))
      /\ (GmailHelper.error r = None ->
          getProfile (api E) user_id = Returned (GmailHelper.payload r))
      /\ (GmailHelper.error r <> None -> GmailHelper.payload r = VNone).
Proof.
  intros E w w' user_id Hauth.
  destruct (gmail_authenticate_built E w) as (b & w1 & new & Hrun & _ & _ & Hs & _).
  rewrite Hauth in Hrun. inversion Hrun; subst b w1.
  destruct (Hs eq_refl) as [Hsvc _].
  rewrite (get_profile_ready E user_id w' _ Hsvc).
  eexists. split; [reflexivity|].
  destruct (getProfile (api E) user_id) as [profile|e].
  - destruct profile as [| | | | |d]; cbn [get]; cbn.
    6:{ split; [split; [intros _; exists d; reflexivity|reflexivity]|].
        split; [reflexivity|intros H; contradiction]. }
    all: split; [split; [intros H; discriminate H
                        |intros [d' Hd']; discriminate Hd']
                |split; [intros H; discriminate H|reflexivity]].
  - cbn. split; [split; [intros H; discriminate H
                        |intros [d Hd]; discriminate Hd]
                |split; [intros H; discriminate H|reflexivity]].
Qed.

Lemma get_profile_after_authenticate_witness :
  let E := Examples.open_env Examples.working_auth Examples.two_pages_api in
  let w' := mkWorld ∅ (Some (mkService "gmail" "v1")) None
              [CLoadToken; CBuild "gmail" "v1"] in
  exists r,
    GmailHelper.get_profile E (Some "me") w'
    = Some (Returned r, Claims.add_calls w' [CGetProfile (Some "me")])
    /\ (GmailHelper.error r = None
        <-> exists d, getProfile (api E) (Some "me") = Returned (VDict d))
    /\ (GmailHelper.error r = None ->
        getProfile (api E) (Some "me") = Returned (GmailHelper.payload r))
    /\ (GmailHelper.error r <> None -> GmailHelper.payload r = VNone).
Proof.
  exact (get_profile_after_authenticate
           (Examples.open_env Examples.working_auth Examples.two_pages_api)
           empty_world _ (Some "me") eq_refl).
Defined.

(** ** Further Gmail tools *)

(** X12. [get_gmail_profile] always returns a [GmailProfileResponse] in
    which exactly one of [profile] and [error] is set: either the profile is
    the dict the API returned and there is no error, or there is an error
    and the profile is [None]. *)
Theorem get_gmail_profile_profile_xor_error :
  forall (E : Env) (user_id : option string) (w : World),
  exists (profile : value) (error : option string) (w' : World),
    GmailServer.get_gmail_profile E user_id w
    = Some (Returned (Tool.Model "GmailProfileResponse"
                        [("profile", profile); ("error", of_opt error)]), w')
    /\ ((error = None /\ Claims.is_dict profile = true
         /\ getProfile (api E) user_id = Returned profile)
        \/ (error <> None /\ profile = VNone)).
Proof.
  intros E user_id w.
  unfold GmailServer.get_gmail_profile.
  destruct (get_profile_runs E user_id w)
    as ([p err] & w1 & new & Hrun & _ & _ & Hshape).
  cbn in Hshape.
  destruct Hshape as [(-> & Hd & _ & Hp)|(e & -> & He & ->)].
  - destruct p as [| | | | |d]; try discriminate Hd.
    exists (VDict d), None, w1. split; [|left; auto].
    apply run_returned. unfold bind. rewrite Hrun. reflexivity.
  - exists VNone, (Some e), w1. split; [|right; split; [discriminate|reflexivity]].
    apply run_returned. unfold bind. rewrite Hrun.
    cbn [GmailHelper.error opt_truthy]. rewrite He. reflexivity.
Qed.

Lemma ensure_authenticated_runs (E : Env) (w : World) :
  exists st w' new,
    GmailHelper.ensure_authenticated E w = Some (Returned st, w')
    /\ calls w' = (calls w ++ new)%list
    /\ (GmailHelper.authenticated st = true ->
        GmailHelper.status_error st = None
        /\ service w' = Some (mkService "gmail" "v1")
        /\ In (CBuild "gmail" "v1") new
        /\ In (CGetProfile (Some "me")) new
        /\ exists d,
            getProfile (api E) (Some "me") = Returned (VDict d)
            /\ GmailHelper.email st
               = Some (default (VStr "unknown") (assoc "emailAddress" d)))
    /\ (GmailHelper.authenticated st = false ->
        GmailHelper.email st = None
        /\ exists e, GmailHelper.status_error st = Some e /\ e <> "").
Proof.
  unfold GmailHelper.ensure_authenticated, try_except. unfold bind at 1.
  destruct (gmail_authenticate_built E w)
    as (b & w1 & new & Hrun & _ & Hcalls & Hs & _).
  rewrite Hrun.
  destruct b.
  2:{ do 3 eexists. split; [reflexivity|]. split; [exact Hcalls|].
      split; [discriminate|]. intros _. split; [reflexivity|].
      eexists. split; [reflexivity|discriminate]. }
  destruct (Hs eq_refl) as [Hsvc Hbuild].
  unfold bind at 1. rewrite (get_profile_ready E (Some "me") w1 _ Hsvc).
  destruct (getProfile (api E) (Some "me")) as [profile|e] eqn:Hp.
  2:{ cbn. do 3 eexists. split; [reflexivity|].
      split; [cbn; rewrite Hcalls, <- app_assoc; reflexivity|].
      split; [discriminate|]. intros _. split; [reflexivity|].
      eexists. split; [reflexivity|discriminate]. }
  destruct profile as [| | | | |d]; cbn [get].
  1-5: cbn; do 3 eexists; (split; [reflexivity|]);
       (split; [cbn; rewrite Hcalls, <- app_assoc; reflexivity|]);
       (split; [discriminate|]); intros _; (split; [reflexivity|]);
       eexists; (split; [reflexivity|discriminate]).
  cbn. unfold bind, lift, ret. cbn.
  do 3 eexists. split; [reflexivity|].
  split; [cbn; rewrite Hcalls, <- app_assoc; reflexivity|].
  split; [|discriminate].
  intros _. cbn. split; [reflexivity|]. split; [exact Hsvc|].
  split; [apply in_or_app; left; exact Hbuild|].
  split; [apply in_or_app; right; left; reflexivity|].
  exists d. split; [reflexivity|].
  destruct (assoc "emailAddress" d); reflexivity.
Qed.

(** X13. [authenticate_gmail] always returns an [AuthenticationResponse],
    with [authenticated] true exactly when [error] is [None]. It answers
    true only after it has built the service anew and fetched the profile of
    "me" in this very call, and then [email] is the string under
    [emailAddress] of the profile, "unknown" if the profile has no such
    key, or [None]. *)
Theorem authenticate_gmail_response :
  forall (E : Env) (w : World),
  exists (authenticated : bool) (message : string) (email error : value)
         (w' : World) (new : list Call),
    GmailServer.authenticate_gmail E w
    = Some (Returned (Tool.Model "AuthenticationResponse"
                        [("authenticated", VBool authenticated);
                         ("message", VStr message); ("email", email);
                         ("error", error)]), w')
    /\ calls w' = (calls w ++ new)%list
    /\ (authenticated = true <-> error = VNone)
    /\ (authenticated = true ->
        service w' = Some (mkService "gmail" "v1")
        /\ In (CBuild "gmail" "v1") new
        /\ In (CGetProfile (Some "me")) new
        /\ exists d,
            getProfile (api E) (Some "me") = Returned (VDict d)
            /\ email = default (VStr "unknown") (assoc "emailAddress" d)
            /\ (email = VNone \/ exists s, email = VStr s))
    /\ (authenticated = false -> email = VNone).
Proof.
  intros E w.
  unfold GmailServer.authenticate_gmail, Tool.run, try_except.
  unfold bind at 1.
  destruct (ensure_authenticated_runs E w)
    as ([a err msg em] & w1 & new & Hrun & Hcalls & Htrue & Hfalse).
  rewrite Hrun. cbn in Htrue, Hfalse |- *.
  destruct a.
  - destruct (Htrue eq_refl) as (-> & Hsvc & Hb & Hg & d & Hp & ->).
    cbn [default]. unfold lift, GmailServer.AuthenticationResponse, and_then.
    destruct (default (VStr "unknown") (assoc "emailAddress" d))
      as [| | |s| |] eqn:Hemail; cbn.
    1:{ exists true, msg, VNone, VNone, w1, new.
        split; [reflexivity|]. split; [exact Hcalls|].
        split; [split; reflexivity|]. split; [|discriminate].
        intros _. repeat split; try assumption.
        exists d. rewrite Hemail. auto. }
    3:{ exists true, msg, (VStr s), VNone, w1, new.
        split; [reflexivity|]. split; [exact Hcalls|].
        split; [split; reflexivity|]. split; [|discriminate].
        intros _. repeat split; try assumption.
        exists d. rewrite Hemail. split; [exact Hp|].
        split; [reflexivity|]. right. exists s. reflexivity. }
    all: do 6 eexists; (split; [reflexivity|]); (split; [exact Hcalls|]);
         (split; [split; discriminate|]); (split; [discriminate|]);
         intros _; reflexivity.
  - destruct (Hfalse eq_refl) as (-> & e & -> & Hne).
    cbn. exists false, msg, VNone, (VStr e), w1, new.
    split; [reflexivity|]. split; [exact Hcalls|].
    split; [split; discriminate|]. split; [discriminate|reflexivity].
Qed.

Lemma list_labels_runs (E : Env) (user_id : option string) (w : World) :
  exists r w',
    GmailHelper.list_labels E user_id w = Some (Returned r, w')
    /\ fs w' = fs w
    /\ ((GmailHelper.error r = None
         /\ (exists n, GmailHelper.py_len (GmailHelper.payload r) = Returned n)
         /\ exists response,
             labels_list (api E) user_id = Returned response
             /\ get response "labels" (VList [])
                = Returned (GmailHelper.payload r))
        \/ (exists e, GmailHelper.error r = Some e /\ str_truthy e = true
                      /\ GmailHelper.payload r = VList [])).
Proof.
  unfold GmailHelper.list_labels. unfold bind at 1.
  destruct (ensure_service_runs E w) as (b & w1 & new & Hens & Hfs & _).
  rewrite Hens.
  destruct b; cbn [negb].
  2:{ do 2 eexists. split; [reflexivity|]. split; [exact Hfs|].
      right. eexists. repeat split; reflexivity. }
  unfold try_except, bind, vendor, lift, ret.
  destruct (labels_list (api E) user_id) as [response|e] eqn:Hl.
  2:{ do 2 eexists. split; [reflexivity|]. split; [exact Hfs|].
      right. eexists. repeat split; reflexivity. }
  destruct (get response "labels" (VList [])) as [labels|e] eqn:Hg.
  2:{ do 2 eexists. split; [reflexivity|]. split; [exact Hfs|].
      right. eexists. repeat split; reflexivity. }
  destruct (GmailHelper.py_len labels) as [n|e] eqn:Hn.
  2:{ do 2 eexists. split; [reflexivity|]. split; [exact Hfs|].
      right. eexists. repeat split; reflexivity. }
  do 2 eexists. split; [reflexivity|]. split; [exact Hfs|].
  left. cbn. split; [reflexivity|]. split; [exists n; exact Hn|].
  exists response. auto.
Qed.

(** X14. [list_gmail_labels] always returns a [LabelsResponse] whose labels
    are dicts. With no error they are the list the API returned under
    [labels], as it is; with an error the list is empty. Unlike a message
    search, an account without labels is reported as a success: an empty
    list and no error. *)
Theorem list_gmail_labels_response :
  forall (E : Env) (user_id : option string) (w : World),
  exists (labels : list value) (error : option string) (w' : World),
    GmailServer.list_gmail_labels E user_id w
    = Some (Returned (Tool.Model "LabelsResponse"
                        [("labels", VList labels); ("error", of_opt error)]),
            w')
    /\ forallb Claims.is_dict labels = true
    /\ (error <> None -> labels = [])
    /\ (error = None ->
        exists response,
          labels_list (api E) user_id = Returned response
          /\ get response "labels" (VList []) = Returned (VList labels))
    /\ (forall s response,
          service w = Some s ->
          labels_list (api E) user_id = Returned response ->
          get response "labels" (VList []) = Returned (VList []) ->
          labels = [] /\ error = None).
Proof.
  intros E user_id w.
  unfold GmailServer.list_gmail_labels, Tool.run, try_except.
  unfold bind at 1.
  destruct (list_labels_runs E user_id w) as ([p err] & w1 & Hrun & _ & Hshape).
  cbn in Hshape.
  assert (Hready : forall s response,
            service w = Some s ->
            labels_list (api E) user_id = Returned response ->
            get response "labels" (VList []) = Returned (VList []) ->
            p = VList [] /\ err = None).
  { intros s response Hs Hl Hg. revert Hrun.
    unfold GmailHelper.list_labels. unfold bind at 1.
    rewrite (ensure_service_ready E w s Hs). cbn [negb].
    unfold try_except, bind, vendor, lift, ret. rewrite Hl, Hg. cbn.
    intros H. inversion H; subst. split; reflexivity. }
  rewrite Hrun. cbn [GmailHelper.error GmailHelper.payload].
  destruct Hshape as [(-> & [n Hn] & response & Hl & Hg)|(e & -> & He & ->)].
  - cbn [opt_truthy]. unfold bind, lift. rewrite Hn.
    unfold GmailServer.LabelsResponse.
    destruct p as [| | | |l|d].
    5:{ unfold GmailServer.list_of_dicts, and_then.
        change (fun v : value => match v with VDict _ => true | _ => false end)
          with Claims.is_dict.
        destruct (forallb Claims.is_dict l) eqn:Hd.
        - exists l, None, w1. split; [reflexivity|]. split; [exact Hd|].
          split; [intros H; contradiction|].
          split; [intros _; exists response; auto|].
          intros s0 r' Hs Hl' Hg'.
          destruct (Hready s0 r' Hs Hl' Hg') as [Hp _].
          inversion Hp; subst. auto.
        - exists [], (Some ("Error in list_gmail_labels: "
                            ++ "ValidationError: Input should be a valid dictionary")),
            w1.
          split; [reflexivity|]. split; [reflexivity|].
          split; [reflexivity|]. split; [discriminate|].
          intros s0 r' Hs Hl' Hg'.
          destruct (Hready s0 r' Hs Hl' Hg') as [Hp _].
          inversion Hp; subst. discriminate Hd. }
    all: exists [], (Some ("Error in list_gmail_labels: "
                           ++ "ValidationError: Input should be a valid list")),
           w1.
    all: split; [reflexivity|]; split; [reflexivity|].
    all: split; [reflexivity|]; split; [discriminate|].
    all: intros s0 r' Hs Hl' Hg'.
    all: destruct (Hready s0 r' Hs Hl' Hg') as [Hp _]; discriminate Hp.
  - cbn [opt_truthy]. rewrite He. cbn.
    exists [], (Some e), w1.
    split; [reflexivity|]. split; [reflexivity|].
    split; [reflexivity|]. split; [discriminate|].
    intros s0 r' Hs Hl' Hg'.
    destruct (Hready s0 r' Hs Hl' Hg') as [_ Herr]. discriminate Herr.
Qed.

(** X15. The history tool and the loading tool compose: when
    [get_gmail_history] answers without error and with a non-empty latest
    ID, and the history file can be opened for writing, written in full and
    opened for reading, a later [load_saved_history_id] returns that ID,
    stripped, with no error, whatever the file held before. *)
Theorem get_gmail_history_then_load_saved :
  forall (E : Env) (fuel : nat) (start : option string)
         (history_types : option (list string)) (max_results : option Z)
         (user_id : option string) (w w' : World) (records : value)
         (latest : string),
    open_write_error E GmailHelper.default_history_file = None ->
    write_error E GmailHelper.default_history_file latest = None ->
    open_read_error E GmailHelper.default_history_file = None ->
    str_truthy latest = true ->
    GmailServer.get_gmail_history E fuel start history_types max_results
      user_id w
    = Some (Returned (Tool.Model "HistoryResponse"
                        [("history_records", records);
                         ("latest_history_id", VStr latest);
                         ("error", VNone)]), w') ->
    GmailServer.load_saved_history_id E w'
    = Some (Returned (Tool.Model "LoadHistoryIdResponse"
                        [("history_id",
                          VStr (strip (universal_newlines latest)));
                         ("error", VNone)]), w').
Proof.
  intros E fuel start history_types max_results user_id w w' records latest
    Hw Hwr Hr Hne.
  assert (Hload : fs w' !! GmailHelper.default_history_file = Some latest ->
            GmailServer.load_saved_history_id E w'
            = Some (Returned (Tool.Model "LoadHistoryIdResponse"
                                [("history_id",
                                  VStr (strip (universal_newlines latest)));
                                 ("error", VNone)]), w')).
  { intros Hlook.
    unfold GmailServer.load_saved_history_id. apply run_returned.
    unfold bind at 1.
    unfold GmailHelper.load_history_id, try_except, bind, path_exists,
      read_file, ret.
    rewrite bool_decide_eq_true_2 by (rewrite Hlook; eexists; reflexivity).
    cbv beta iota. rewrite Hlook, Hr. reflexivity. }
  unfold GmailServer.get_gmail_history, Tool.run, try_except.
  unfold bind at 1.
  destruct (GmailHelper.get_history E fuel start history_types max_results
              user_id w) as [[o w1]|] eqn:Hrun; [|discriminate].
  destruct (get_history_returns _ _ _ _ _ _ _ _ _ Hrun) as (_ & r & -> & _).
  destruct (opt_truthy (GmailHelper.error r)) eqn:Herr.
  { unfold lift, GmailServer.HistoryResponse, and_then. cbn.
    destruct (GmailHelper.error r); intros H; inversion H. }
  unfold bind at 1. unfold lift at 1.
  destruct (iter (GmailHelper.history (GmailHelper.payload r))) as [rs|e].
  2:{ intros H; inversion H. }
  unfold bind at 1. unfold lift at 1.
  destruct (GmailServer.process_history rs) as [processed|e].
  2:{ intros H; inversion H. }
  destruct (GmailHelper.latest_history_id (GmailHelper.payload r))
    as [| | |s| |] eqn:Hlatest; cbn [truthy].
  4:{ destruct (negb (String.eqb s "")) eqn:Hs.
      - unfold bind, GmailHelper.save_history_id, try_except, bind,
          write_file, ret, lift.
        rewrite Hw. cbn [GmailHelper.py_str].
        unfold GmailServer.HistoryResponse, and_then.
        destruct (write_error E GmailHelper.default_history_file s)
          as [[e n]|] eqn:Hws;
          destruct (GmailServer.list_of_dicts processed);
          cbn; intros H; inversion H; subst.
        + rewrite Hwr in Hws. discriminate Hws.
        + apply Hload. cbn [fs]. apply lookup_insert_eq.
      - unfold bind, ret, lift.
        unfold GmailServer.HistoryResponse, and_then.
        destruct (GmailServer.list_of_dicts processed);
          cbn; intros H; inversion H; subst.
        unfold str_truthy in Hne. rewrite Hs in Hne. discriminate Hne. }
  all: repeat match goal with
       | |- context [if ?b then _ else _] => destruct b
       end.
  all: unfold bind, GmailHelper.save_history_id, try_except, bind,
         write_file, ret, lift; try rewrite Hw.
  all: unfold GmailServer.HistoryResponse, and_then.
  all: try match goal with
       | |- context [write_error ?e ?p ?t] =>
           destruct (write_error e p t) as [[? ?]|]
       end.
  all: destruct (GmailServer.list_of_dicts processed);
         cbn; intros H; inversion H.
Qed.

Lemma get_gmail_history_then_load_saved_witness :
  let E := Examples.open_env Examples.working_auth Examples.one_record_api in
  let w := mkWorld (<[GmailHelper.default_history_file := "7"]> ∅)
             (Some (mkService "gmail" "v1")) None [] in
  exists w',
    GmailServer.get_gmail_history E 0 (Some "41") None (Some 100%Z)
      (Some "me") w
    = Some (Returned
              (Tool.Model "HistoryResponse"
                 [("history_records",
                   VList [VDict [("id", VStr "42"); ("changes", VList [])]]);
                  ("latest_history_id", VStr "42"); ("error", VNone)]), w')
    /\ GmailServer.load_saved_history_id E w'
       = Some (Returned (Tool.Model "LoadHistoryIdResponse"
                           [("history_id", VStr "42"); ("error", VNone)]), w').
Proof.
  eexists. split; [reflexivity|].
  exact (get_gmail_history_then_load_saved
           (Examples.open_env Examples.working_auth Examples.one_record_api)
           0 (Some "41") None (Some 100%Z) (Some "me")
           (mkWorld (<[GmailHelper.default_history_file := "7"]> ∅)
              (Some (mkService "gmail" "v1")) None [])
           _ _ "42" eq_refl eq_refl eq_refl eq_refl eq_refl).
Defined.

(** ** The calendar helper *)

Lemma calendar_authenticate_runs (E : Env) (w : World) :
  exists (b : bool) (w' : World) (new : list Call),
    GoogleCalendarHelper.authenticate E w = Some (Returned b, w')
    /\ fs w' = fs w
    /\ calls w' = (calls w ++ new)%list
    /\ (b = true ->
        service w' = Some (mkService "calendar" "v3")
        /\ credentials w' <> None
        /\ last new = Some (CBuild "calendar" "v3")
        /\ build (auth E) = Returned tt)
    /\ (b = false ->
        service w' = service w
        /\ (credentials w' = credentials w
            \/ exists e, build (auth E) = Raised e)).
Proof.
  unfold GoogleCalendarHelper.authenticate.
  unfold try_except, bind, vendor, ret, set_service, set_credentials,
    creds_valid, wants_refresh.
  cbn.
  repeat case_split.
  all: try discriminate.
  all: do 3 eexists.
  all: (split; [reflexivity|]); (split; [reflexivity|]).
  all: cbn [calls].
  all: rewrite <- ?app_assoc.
  all: split; [try reflexivity; symmetry; apply app_nil_r|].
  all: cbn.
  all: split; intros; try discriminate.
  all: repeat match goal with
       | u : unit |- _ => destruct u
       end.
  all: try (split; [reflexivity|]).
  all: try (split; [discriminate|]).
  all: try (split; [rewrite ?last_app; reflexivity|]).
  all: try reflexivity.
  all: try (left; reflexivity).
  all: right; eexists; reflexivity.
Qed.

(** X16. The calendar helper's [authenticate] never raises and touches no
    file of the modelled file system. When it returns [True] the service is
    the Calendar v3 service, credentials are stored, and building the
    service was its last vendor call. When it returns [False] the service is
    what it was before; the stored credentials are also what they were,
    except when building the service failed, which happens after the
    credentials have been stored. *)
Theorem calendar_authenticate_effects :
  forall (E : Env) (w : World),
  exists (b : bool) (w' : World) (new : list Call),
    GoogleCalendarHelper.authenticate E w = Some (Returned b, w')
    /\ fs w' = fs w
    /\ calls w' = (calls w ++ new)%list
    /\ (b = true ->
        service w' = Some (mkService "calendar" "v3")
        /\ credentials w' <> None
        /\ last new = Some (CBuild "calendar" "v3")
        /\ build (auth E) = Returned tt)
    /\ (b = false ->
        service w' = service w
        /\ (credentials w' = credentials w
            \/ exists e, build (auth E) = Raised e)).
Proof. exact calendar_authenticate_runs. Qed.

(** X17. The calendar module's [ensure_authenticated] authenticates only
    when no service has been built yet: with a service at hand it reports
    success and changes nothing, making no vendor call. In every case
    [success] is true exactly when [error] is [None], and after a success
    there is a service. *)
Theorem calendar_ensure_authenticated_result :
  forall (E : Env) (w : World),
  exists (r : GmailHelper.result bool) (w' : World),
    GoogleCalendarHelper.ensure_authenticated E w = Some (Returned r, w')
    /\ (service w <> None ->
        w' = w /\ r = GmailHelper.mkResult true None)
    /\ (GmailHelper.payload r = true <-> GmailHelper.error r = None)
    /\ (GmailHelper.payload r = true -> service w' <> None)
    /\ (GmailHelper.payload r = false ->
        service w' = None
        /\ GmailHelper.error r
           = Some "Failed to authenticate with Google Calendar").
Proof.
  intros E w.
  unfold GoogleCalendarHelper.ensure_authenticated, bind, get_service.
  destruct (service w) as [s|] eqn:Hs.
  - do 2 eexists. split; [reflexivity|].
    split; [intros _; split; reflexivity|].
    split; [split; reflexivity|].
    split; [intros _; rewrite Hs; discriminate|discriminate].
  - destruct (calendar_authenticate_runs E w)
      as (b & w1 & new & Hrun & _ & _ & Htrue & Hfalse).
    rewrite Hrun. destruct b; cbn [negb]; unfold ret.
    + do 2 eexists. split; [reflexivity|].
      split; [intros H; contradiction|].
      split; [split; reflexivity|].
      split; [|discriminate].
      intros _. destruct (Htrue eq_refl) as (-> & _). discriminate.
    + do 2 eexists. split; [reflexivity|].
      split; [intros H; contradiction|].
      split; [split; discriminate|].
      split; [discriminate|].
      intros _. destruct (Hfalse eq_refl) as (-> & _).
      split; [exact Hs|reflexivity].
Qed.

(** ** The Jira tool *)

Lemma jira_request_runs (J : JiraServer.JiraEnv)
    (issue_key base email token : string) (w : World) :
  JiraServer.py_or (JiraServer.getenv J "JIRA_BASE_URL")
    (JiraServer.getenv J "JIRA_INSTANCE_URL") = Some base ->
  JiraServer.py_or (JiraServer.getenv J "JIRA_EMAIL")
    (JiraServer.getenv J "JIRA_USERNAME") = Some email ->
  JiraServer.getenv J "JIRA_API_TOKEN" = Some token ->
  str_truthy base = true -> str_truthy email = true ->
  str_truthy token = true ->
  let url := base ++ "/rest/api/3/issue/" ++ issue_key in
  JiraServer.extract_jira_issue J issue_key w
  = Tool.run Tool.extract_jira_issue
      (do response <- vendor (CHttpGet url email token)
                        (JiraServer.requests_get J url email token);
       if negb (Z.eqb (JiraServer.status_code response) 200) then
         lift (JiraServer.JiraIssueResponse (VStr "") (VStr "")
                 (Some ("Failed to fetch Jira issue: "
                        ++ pretty (JiraServer.status_code response) ++ " - "
                        ++ JiraServer.text response)))
       else
         do issue_data <- lift (JiraServer.json response);
         do fields <- lift (get issue_data "fields" (VDict []));
         do summary <- lift (get fields "summary" (VStr ""));
         do fields' <- lift (get issue_data "fields" (VDict []));
         do description <- lift (get fields' "description" (VStr ""));
         do description' <- lift (JiraServer.plain_description description);
         lift (JiraServer.JiraIssueResponse summary description' None)) w.
Proof.
  intros Hbase Hemail Htoken Tb Te Tt url.
  unfold JiraServer.extract_jira_issue. cbv zeta.
  rewrite Hbase, Hemail, Htoken. cbn [opt_truthy default].
  rewrite Tb, Te, Tt. reflexivity.
Qed.

Lemma jira_request_shape (J : JiraServer.JiraEnv)
    (issue_key base email token : string) (w : World) :
  JiraServer.py_or (JiraServer.getenv J "JIRA_BASE_URL")
    (JiraServer.getenv J "JIRA_INSTANCE_URL") = Some base ->
  JiraServer.py_or (JiraServer.getenv J "JIRA_EMAIL")
    (JiraServer.getenv J "JIRA_USERNAME") = Some email ->
  JiraServer.getenv J "JIRA_API_TOKEN" = Some token ->
  str_truthy base = true -> str_truthy email = true ->
  str_truthy token = true ->
  exists (summary description : string) (error : option string),
    JiraServer.extract_jira_issue J issue_key w
    = Some (Returned
              (Tool.Model "JiraIssueResponse"
                 [("summary", VStr summary);
                  ("description", VStr description);
                  ("error", of_opt error)]),
            Claims.add_calls w
              [CHttpGet (base ++ "/rest/api/3/issue/" ++ issue_key)
                 email token])
    /\ (error <> None -> summary = "" /\ description = "").
Proof.
  intros Hbase Hemail Htoken Tb Te Tt.
  rewrite (jira_request_runs J issue_key base email token w
             Hbase Hemail Htoken Tb Te Tt).
  unfold Tool.run, try_except, bind, vendor, lift, Claims.add_calls,
    JiraServer.JiraIssueResponse, Tool.except_response, ret.
  jira_cases.
  all: first
    [ exists "", "", (Some (("Error extracting Jira issue: " ++ msg)%string));
      split; [reflexivity|intros _; split; reflexivity]
    | eexists _, _, None; split; [reflexivity|intros H; contradiction]
    | eexists "", "", (Some _); split;
      [reflexivity|intros _; split; reflexivity] ].
Qed.

(** X18. With incomplete credentials [extract_jira_issue] makes no request
    and changes nothing: it returns an empty summary and description and an
    error that lists the missing variables, each group of names being
    listed exactly when its value is unset or empty. *)
Theorem extract_jira_issue_missing_credentials :
  forall (J : JiraServer.JiraEnv) (issue_key : string) (w : World),
    let url := JiraServer.py_or (JiraServer.getenv J "JIRA_BASE_URL")
                 (JiraServer.getenv J "JIRA_INSTANCE_URL") in
    let email := JiraServer.py_or (JiraServer.getenv J "JIRA_EMAIL")
                   (JiraServer.getenv J "JIRA_USERNAME") in
    let token := JiraServer.getenv J "JIRA_API_TOKEN" in
    opt_truthy url && opt_truthy email && opt_truthy token = false ->
    exists names : list string,
      JiraServer.extract_jira_issue J issue_key w
      = Some (Returned
                (Tool.Model "JiraIssueResponse"
                   [("summary", VStr ""); ("description", VStr "");
                    ("error",
                     VStr ("Jira credentials not found in environment variables: "
                           ++ JiraServer.join ", " names))]), w)
      /\ names <> []
      /\ (In "JIRA_BASE_URL/JIRA_INSTANCE_URL" names
          <-> opt_truthy url = false)
      /\ (In "JIRA_EMAIL/JIRA_USERNAME" names <-> opt_truthy email = false)
      /\ (In "JIRA_API_TOKEN" names <-> opt_truthy token = false).
Proof.
  intros J issue_key w url email token Hmissing.
  exists (JiraServer.missing_vars url email token).
  split.
  - unfold JiraServer.extract_jira_issue. cbv zeta.
    fold url email token. apply run_returned.
    destruct (opt_truthy url), (opt_truthy email), (opt_truthy token);
      try discriminate Hmissing; reflexivity.
  - unfold JiraServer.missing_vars.
    destruct (opt_truthy url), (opt_truthy email), (opt_truthy token);
      try discriminate Hmissing; cbn.
    all: split; [discriminate|].
    all: repeat split; intros; try reflexivity; try discriminate; auto.
    all: repeat match goal with
         | H : _ \/ _ |- _ => destruct H
         | H : False |- _ => destruct H
         | H : _ = _ |- _ => discriminate H
         end.
Qed.

Lemma extract_jira_issue_missing_credentials_witness :
  exists names : list string,
    JiraServer.extract_jira_issue Scenarios.url_only_site "PROJ-1" empty_world
    = Some (Returned
              (Tool.Model "JiraIssueResponse"
                 [("summary", VStr ""); ("description", VStr "");
                  ("error",
                   VStr ("Jira credentials not found in environment variables: "
                         ++ JiraServer.join ", " names))]), empty_world)
    /\ names <> []
    /\ (In "JIRA_BASE_URL/JIRA_INSTANCE_URL" names <-> true = false)
    /\ (In "JIRA_EMAIL/JIRA_USERNAME" names <-> false = false)
    /\ (In "JIRA_API_TOKEN" names <-> false = false).
Proof.
  exact (extract_jira_issue_missing_credentials Scenarios.url_only_site
           "PROJ-1" empty_world eq_refl).
Defined.

(** X19. The second names are fallbacks: when [JIRA_BASE_URL] and
    [JIRA_EMAIL] are unset or empty, the request goes to the URL of
    [JIRA_INSTANCE_URL] with the user of [JIRA_USERNAME]. *)
Theorem extract_jira_issue_fallback_variables :
  forall (J : JiraServer.JiraEnv) (issue_key inst user token : string)
         (w : World),
    opt_truthy (JiraServer.getenv J "JIRA_BASE_URL") = false ->
    opt_truthy (JiraServer.getenv J "JIRA_EMAIL") = false ->
    JiraServer.getenv J "JIRA_INSTANCE_URL" = Some inst ->
    JiraServer.getenv J "JIRA_USERNAME" = Some user ->
    JiraServer.getenv J "JIRA_API_TOKEN" = Some token ->
    str_truthy inst = true -> str_truthy user = true ->
    str_truthy token = true ->
    exists resp,
      JiraServer.extract_jira_issue J issue_key w
      = Some (Returned resp,
              Claims.add_calls w
                [CHttpGet (inst ++ "/rest/api/3/issue/" ++ issue_key)
                   user token]).
Proof.
  intros J issue_key inst user token w Hb He Hi Hu Ht Ti Tu Tt.
  destruct (jira_request_shape J issue_key inst user token w)
    as (s & d & e & Hrun & _); try assumption.
  - unfold JiraServer.py_or. rewrite Hb. exact Hi.
  - unfold JiraServer.py_or. rewrite He. exact Hu.
  - eexists. exact Hrun.
Qed.

Lemma extract_jira_issue_fallback_variables_witness :
  exists resp,
    JiraServer.extract_jira_issue Scenarios.fallback_site "PROJ-1" empty_world
    = Some (Returned resp,
            Claims.add_calls empty_world
              [CHttpGet "https://y.example/rest/api/3/issue/PROJ-1"
                 "bob" "tok"]).
Proof.
  exact (extract_jira_issue_fallback_variables Scenarios.fallback_site
           "PROJ-1" "https://y.example" "bob" "tok" empty_world
           eq_refl eq_refl eq_refl eq_refl eq_refl eq_refl eq_refl eq_refl).
Defined.


(** X21. An issue whose description is null, as Jira sends it for an issue
    without description, is not returned with an empty description: the
    response fails validation, and the tool answers with an error and an
    empty summary, although the summary was fetched. *)
Theorem extract_jira_issue_null_description :
  forall (J : JiraServer.JiraEnv) (issue_key base email token : string)
         (w : World) (response : JiraServer.HttpResponse)
         (issue fields summary : value),
    JiraServer.py_or (JiraServer.getenv J "JIRA_BASE_URL")
      (JiraServer.getenv J "JIRA_INSTANCE_URL") = Some base ->
    JiraServer.py_or (JiraServer.getenv J "JIRA_EMAIL")
      (JiraServer.getenv J "JIRA_USERNAME") = Some email ->
    JiraServer.getenv J "JIRA_API_TOKEN" = Some token ->
    str_truthy base = true -> str_truthy email = true ->
    str_truthy token = true ->
    let url := base ++ "/rest/api/3/issue/" ++ issue_key in
    JiraServer.requests_get J url email token = Returned response ->
    JiraServer.status_code response = 200%Z ->
    JiraServer.json response = Returned issue ->
    get issue "fields" (VDict []) = Returned fields ->
    get fields "summary" (VStr "") = Returned summary ->
    get fields "description" (VStr "") = Returned VNone ->
    exists msg,
      JiraServer.extract_jira_issue J issue_key w
      = Some (Returned
                (Tool.Model "JiraIssueResponse"
                   [("summary", VStr ""); ("description", VStr "");
                    ("error", VStr ("Error extracting Jira issue: " ++ msg))]),
              Claims.add_calls w [CHttpGet url email token]).
Proof.
  intros J issue_key base email token w response issue fields summary
    Hbase Hemail Htoken Tb Te Tt url Hget Hstatus Hjson Hfields Hsummary
    Hdesc.
  rewrite (jira_request_runs J issue_key base email token w
             Hbase Hemail Htoken Tb Te Tt).
  fold url.
  exists "ValidationError: Input should be a valid string".
  apply (run_raised Tool.extract_jira_issue).
  unfold bind, vendor, lift. rewrite Hget.
  apply Z.eqb_eq in Hstatus. rewrite Hstatus. cbn [negb].
  rewrite Hjson, Hfields, Hsummary, Hdesc.
  cbn [JiraServer.plain_description].
  unfold JiraServer.JiraIssueResponse.
  destruct summary; reflexivity.
Qed.

Lemma extract_jira_issue_null_description_witness :
  exists msg,
    JiraServer.extract_jira_issue Scenarios.null_description_site "PROJ-1"
      empty_world
    = Some (Returned
              (Tool.Model "JiraIssueResponse"
                 [("summary", VStr ""); ("description", VStr "");
                  ("error", VStr ("Error extracting Jira issue: " ++ msg))]),
            Claims.add_calls empty_world
              [CHttpGet "https://x.atlassian.net/rest/api/3/issue/PROJ-1"
                 "me@x.org" "secret"]).
Proof.
  exact (extract_jira_issue_null_description Scenarios.null_description_site
           "PROJ-1" "https://x.atlassian.net" "me@x.org" "secret" empty_world
           _ _ _ (VStr "Fix login")
           eq_refl eq_refl eq_refl eq_refl eq_refl eq_refl
           eq_refl eq_refl eq_refl eq_refl eq_refl eq_refl).
Defined.

(** ** Label modification *)

Lemma of_ensure_service_runs (E : Env) (s : Session) :
  exists (b : bool) (w' : World),
    of_M (GmailHelper.ensure_service E) s
    = Some (Returned b, mkSession w' (requests s))
    /\ fs w' = fs (world s)
    /\ (b = true -> service w' <> None).
Proof.
  unfold of_M.
  destruct (ensure_service_runs E (world s))
    as (b & w' & new & Hrun & Hfs & _ & _ & Hsvc).
  rewrite Hrun. exists b, w'. auto.
Qed.

Lemma of_ensure_service_ready (E : Env) (s : Session) (svc : Service) :
  service (world s) = Some svc ->
  of_M (GmailHelper.ensure_service E) s = Some (Returned true, s).
Proof.
  intros Hs. unfold of_M. rewrite (ensure_service_ready E _ svc Hs).
  destruct s; reflexivity.
Qed.

(** X22. Without a label to add or to remove, [modify_gmail_message]
    refuses before anything else happens: it answers with an error and no
    message, and neither authenticates nor sends a request. An empty list
    counts as no list. *)
Theorem modify_gmail_message_needs_labels :
  forall (E : Env) (R : Api) (message_id : string)
         (add_labels remove_labels : option (list string))
         (user_id : option string) (s : Session),
    (add_labels = None \/ add_labels = Some []) ->
    (remove_labels = None \/ remove_labels = Some []) ->
    GmailServer.modify_gmail_message E R message_id add_labels remove_labels
      user_id s
    = Some (Returned
              (Tool.Model "MessageResponse"
                 [("message", VNone);
                  ("error",
                   VStr "At least one of add_labels or remove_labels must be provided")]),
            s).
Proof.
  intros E R message_id add_labels remove_labels user_id s [-> | ->] [-> | ->];
    reflexivity.
Qed.

Lemma modify_gmail_message_needs_labels_witness :
  GmailServer.modify_gmail_message
    (Examples.open_env Examples.working_auth Examples.failing_api)
    Scenarios.accepting "m1" (Some []) None (Some "me")
    (mkSession empty_world [])
  = Some (Returned
            (Tool.Model "MessageResponse"
               [("message", VNone);
                ("error",
                 VStr "At least one of add_labels or remove_labels must be provided")]),
          mkSession empty_world []).
Proof.
  exact (modify_gmail_message_needs_labels
           (Examples.open_env Examples.working_auth Examples.failing_api)
           Scenarios.accepting "m1" (Some []) None (Some "me")
           (mkSession empty_world [])
           (or_intror eq_refl) (or_introl eq_refl)).
Defined.

(** X23. [modify_gmail_message] always returns a [MessageResponse] whose
    message is a dict or [None], and [None] whenever it reports an error. It
    sends at most one request, a
    modification of the given message, and never with an empty body: the
    body holds [addLabelIds] exactly when there are labels to add and
    [removeLabelIds] exactly when there are labels to remove, each with the
    list given. *)
Theorem modify_gmail_message_request :
  forall (E : Env) (R : Api) (message_id : string)
         (add_labels remove_labels : option (list string))
         (user_id : option string) (s : Session),
  exists (message : value) (error : option string) (s' : Session),
    GmailServer.modify_gmail_message E R message_id add_labels remove_labels
      user_id s
    = Some (Returned
              (Tool.Model "MessageResponse"
                 [("message", message); ("error", of_opt error)]), s')
    /\ (error <> None -> message = VNone)
    /\ (message = VNone \/ Claims.is_dict message = true)
    /\ fs (world s') = fs (world s)
    /\ (requests s' = requests s
        \/ exists body,
            requests s'
            = (requests s ++ [MessagesModify user_id message_id body])%list
            /\ body <> []
            /\ (forall l, assoc "addLabelIds" body = Some l
                          <-> (exists a, add_labels = Some a /\ a <> []
                                         /\ l = VList (map VStr a)))
            /\ (forall l, assoc "removeLabelIds" body = Some l
                          <-> (exists r, remove_labels = Some r /\ r <> []
                                         /\ l = VList (map VStr r)))).
Proof.
  intros E R message_id add_labels remove_labels user_id s.
  unfold GmailServer.modify_gmail_message, GmailServer.rrun, rtry_except.
  destruct (negb (GmailHelper.labels_truthy add_labels)
            && negb (GmailHelper.labels_truthy remove_labels)) eqn:Hguard.
  { exists VNone, (Some "At least one of add_labels or remove_labels must be provided"), s.
    split; [reflexivity|]. split; [reflexivity|]. split; [left; reflexivity|].
    split; [reflexivity|left; reflexivity]. }
  assert (Hbody :
    GmailHelper.modify_body add_labels remove_labels <> []
    /\ (forall l, assoc "addLabelIds"
                    (GmailHelper.modify_body add_labels remove_labels) = Some l
                  <-> (exists a, add_labels = Some a /\ a <> []
                                 /\ l = VList (map VStr a)))
    /\ (forall l, assoc "removeLabelIds"
                    (GmailHelper.modify_body add_labels remove_labels) = Some l
                  <-> (exists r, remove_labels = Some r /\ r <> []
                                 /\ l = VList (map VStr r)))).
  { unfold GmailHelper.modify_body.
    destruct add_labels as [[|a al]|], remove_labels as [[|r rl]|];
      try discriminate Hguard; cbn.
    all: split; [discriminate|].
    all: split; intros l; split.
    all: try (intros H; discriminate H).
    all: try (intros (x & Hx & Hne & _); first
                [discriminate Hx
                |inversion Hx; subst; contradiction]).
    all: try (intros H; inversion H; subst; eexists; split; [reflexivity|];
              split; [discriminate|reflexivity]).
    all: intros (x & Hx & _ & ->); inversion Hx; subst; reflexivity. }
  unfold rbind at 1. unfold GmailHelper.modify_message. unfold rbind at 1.
  destruct (of_ensure_service_runs E s) as (b & w' & Hens & Hfs & _).
  rewrite Hens.
  destruct b; cbn [negb].
  2:{ unfold rret. cbn.
      exists VNone, (Some "Failed to authenticate with Gmail").
      eexists. split; [reflexivity|]. split; [reflexivity|].
      split; [left; reflexivity|]. split; [exact Hfs|left; reflexivity]. }
  unfold rbind, request, rret, rraise, rlift. cbn [world requests].
  destruct (execute R _) as [v|e|e].
  - cbn. destruct v as [| | | | |d]; cbn.
    6:{ exists (VDict d), None. eexists. split; [reflexivity|].
        split; [intros H; contradiction|]. split; [right; reflexivity|].
        split; [exact Hfs|]. right. eexists. split; [reflexivity|exact Hbody]. }
    1:{ exists VNone, None. eexists. split; [reflexivity|].
        split; [reflexivity|]. split; [left; reflexivity|].
        split; [exact Hfs|]. right. eexists. split; [reflexivity|exact Hbody]. }
    all: exists VNone, (Some ("Error in modify_gmail_message: "
           ++ "ValidationError: Input should be a valid dictionary")).
    all: eexists; split; [reflexivity|].
    all: split; [reflexivity|]; split; [left; reflexivity|].
    all: split; [exact Hfs|].
    all: right; eexists; split; [reflexivity|exact Hbody].
  - cbn. exists VNone, (Some ("Error modifying message: " ++ e)).
    eexists. split; [reflexivity|]. split; [reflexivity|].
    split; [left; reflexivity|]. split; [exact Hfs|].
    right. eexists. split; [reflexivity|exact Hbody].
  - cbn. exists VNone, (Some ("Error in modify_gmail_message: " ++ e)).
    eexists. split; [reflexivity|]. split; [reflexivity|].
    split; [left; reflexivity|]. split; [exact Hfs|].
    right. eexists. split; [reflexivity|exact Hbody].
Qed.

(** X24. Who reports a failed modification depends on the exception: an
    [HttpError] is caught by the helper and reported as
    "Error modifying message: ...", any other exception leaves the helper
    and is reported by the tool as "Error in modify_gmail_message: ...". In
    both cases the tool returns a response with no message. *)
Theorem modify_gmail_message_failure :
  forall (E : Env) (R : Api) (message_id : string)
         (add_labels remove_labels : option (list string))
         (user_id : option string) (s : Session) (svc : Service),
    service (world s) = Some svc ->
    GmailHelper.labels_truthy add_labels
    || GmailHelper.labels_truthy remove_labels = true ->
    let r := MessagesModify user_id message_id
               (GmailHelper.modify_body add_labels remove_labels) in
    let s' := mkSession (world s) (requests s ++ [r]) in
    (forall e,
        execute R r = HttpError e ->
        GmailServer.modify_gmail_message E R message_id add_labels
          remove_labels user_id s
        = Some (Returned
                  (Tool.Model "MessageResponse"
                     [("message", VNone);
                      ("error", VStr ("Error modifying message: " ++ e))]),
                s'))
    /\ (forall e,
          execute R r = OtherError e ->
          GmailServer.modify_gmail_message E R message_id add_labels
            remove_labels user_id s
          = Some (Returned
                    (Tool.Model "MessageResponse"
                       [("message", VNone);
                        ("error",
                         VStr ("Error in modify_gmail_message: " ++ e))]),
                  s')).
Proof.
  intros E R message_id add_labels remove_labels user_id s svc Hs Hlabels r s'.
  assert (Hguard : negb (GmailHelper.labels_truthy add_labels)
                   && negb (GmailHelper.labels_truthy remove_labels) = false).
  { destruct (GmailHelper.labels_truthy add_labels),
      (GmailHelper.labels_truthy remove_labels); try reflexivity.
    discriminate Hlabels. }
  split; intros e He.
  all: unfold GmailServer.modify_gmail_message, GmailServer.rrun, rtry_except.
  all: rewrite Hguard.
  all: unfold rbind at 1; unfold GmailHelper.modify_message.
  all: unfold rbind at 1; rewrite (of_ensure_service_ready E s svc Hs).
  all: cbn [negb]; unfold rbind, request, rret, rraise, rlift.
  all: fold r; rewrite He; cbn.
  - unfold str_truthy. reflexivity.
  - reflexivity.
Qed.

Lemma modify_gmail_message_failure_witness :
  let E := Examples.open_env Examples.working_auth Examples.failing_api in
  let r := MessagesModify (Some "me") "m1" [("addLabelIds", VList [VStr "STARRED"])] in
  let s' := mkSession Examples.ready_world [r] in
  GmailServer.modify_gmail_message E Scenarios.refusing "m1"
    (Some ["STARRED"]) None (Some "me") Scenarios.ready_session
  = Some (Returned
            (Tool.Model "MessageResponse"
               [("message", VNone);
                ("error",
                 VStr ("Error modifying message: " ++ "<HttpError 403>"))]),
          s').
Proof.
  exact (proj1 (modify_gmail_message_failure
                  (Examples.open_env Examples.working_auth Examples.failing_api)
                  Scenarios.refusing "m1" (Some ["STARRED"]) None (Some "me")
                  Scenarios.ready_session (mkService "gmail" "v1")
                  eq_refl eq_refl)
           "<HttpError 403>" eq_refl).
Defined.

(** ** Threads *)

Lemma collect_thread_headers_keys hs :
  forall headers res,
    GmailHelper.collect_thread_headers hs headers = Returned res ->
    NoDup (map fst headers) ->
    Forall (fun x => Facts.thread_name x = true) (map fst headers) ->
    NoDup (map fst res)
    /\ Forall (fun x => Facts.thread_name x = true) (map fst res).
Proof.
  induction hs as [|header rest IH]; intros headers res H Hnd Hw; cbn in H.
  - inversion H; subst. auto.
  - unfold and_then in H.
    destruct (getitem header "name") as [name|]; [|discriminate].
    destruct (GmailHelper.thread_header name) as [n|] eqn:Hn.
    + destruct (getitem header "value") as [v|]; [|discriminate].
      apply (IH _ _ H).
      * apply dict_set_nodup. exact Hnd.
      * apply Forall_forall. intros x Hx.
        destruct (dict_set_keys _ _ _ _ Hx) as [->|Hin].
        -- unfold GmailHelper.thread_header in Hn.
           destruct name; try discriminate Hn.
           unfold Facts.thread_name.
           destruct (String.eqb s "Subject" || String.eqb s "From"
                     || String.eqb s "To" || String.eqb s "Date") eqn:Hs;
             [|discriminate Hn].
           inversion Hn; subst. exact Hs.
        -- rewrite Forall_forall in Hw. exact (Hw x Hin).
    + exact (IH _ _ H Hnd Hw).
Qed.

Lemma thread_message_entry (message v : value) :
  GmailHelper.thread_message message = Returned v ->
  Facts.thread_entry v /\ Facts.id_of v = Facts.id_of message.
Proof.
  unfold GmailHelper.thread_message.
  destruct message as [| | | | |d]; try discriminate.
  cbn [get and_then contains].
  set (id := match assoc "id" d with Some x => x | None => VNone end).
  intros H.
  assert (Hheaders : forall headers,
            v = VDict [("id", id);
                       ("threadId",
                        match assoc "threadId" d with
                        | Some x => x | None => VNone end);
                       ("labelIds",
                        match assoc "labelIds" d with
                        | Some x => x | None => VList [] end);
                       ("snippet",
                        match assoc "snippet" d with
                        | Some x => x | None => VStr "" end);
                       ("headers", VDict headers)] ->
            NoDup (map fst headers) ->
            Forall (fun x => Facts.thread_name x = true) (map fst headers) ->
            Facts.thread_entry v /\ Facts.id_of v = Facts.id_of (VDict d)).
  { intros headers -> Hnd Hw. split.
    - do 5 eexists. split; [reflexivity|]. auto.
    - cbn. subst id. destruct (assoc "id" d); reflexivity. }
  destruct (assoc "payload" d) as [pl|] eqn:Hpl.
  2:{ cbn in H. inversion H; subst.
      apply (Hheaders []); [reflexivity|constructor|constructor]. }
  cbn [getitem] in H. rewrite Hpl in H. cbn [and_then] in H.
  destruct (contains "headers" pl) as [[|]|e] eqn:Hc; cbn [and_then] in H;
    try discriminate H.
  2:{ inversion H; subst.
      apply (Hheaders []); [reflexivity|constructor|constructor]. }
  destruct (getitem pl "headers") as [hs|e]; cbn [and_then] in H;
    [|discriminate H].
  destruct (iter hs) as [items|e]; cbn [and_then] in H; [|discriminate H].
  destruct (GmailHelper.collect_thread_headers items []) as [headers|e] eqn:Hh;
    cbn [and_then] in H; [|discriminate H].
  inversion H; subst.
  destruct (collect_thread_headers_keys _ _ _ Hh ltac:(constructor)
              ltac:(constructor)) as [Hnd Hw].
  apply (Hheaders headers); [reflexivity|exact Hnd|exact Hw].
Qed.

Lemma thread_messages_entries (ms : list value) :
  forall processed,
    GmailHelper.thread_messages ms = Returned processed ->
    Forall Facts.thread_entry processed
    /\ map Facts.id_of processed = map Facts.id_of ms.
Proof.
  induction ms as [|message rest IH]; intros processed H; cbn in H.
  - inversion H; subst. split; [constructor|reflexivity].
  - unfold and_then in H.
    destruct (GmailHelper.thread_message message) as [m|] eqn:Hm;
      [|discriminate H].
    destruct (GmailHelper.thread_messages rest) as [more|]; [|discriminate H].
    inversion H; subst.
    destruct (thread_message_entry _ _ Hm) as [He Hid].
    destruct (IH more eq_refl) as [Hall Hids].
    split; [constructor; assumption|]. cbn. rewrite Hid, Hids. reflexivity.
Qed.

(** What [get_thread] does with the thread it has fetched. *)
Lemma get_thread_processing (thread : value) (s : Session) :
  exists r,
    (rdo logged <- rlift (get thread "messages" (VList []));
     rdo _ <- rlift (GmailHelper.py_len logged);
     rdo id <- rlift (get thread "id" VNone);
     rdo historyId <- rlift (get thread "historyId" VNone);
     rdo messages <- rlift (get thread "messages" (VList []));
     rdo items <- rlift (iter messages);
     rdo processed <- rlift (GmailHelper.thread_messages items);
     rret (GmailHelper.mkResult
             (VDict [("id", id); ("historyId", historyId);
                     ("messages", VList processed)]) None)) s
    = Some (r, s)
    /\ forall x, r = Returned x ->
         GmailHelper.error x = None
         /\ exists d items processed,
             thread = VDict d
             /\ iter (default (VList []) (assoc "messages" d))
                = Returned items
             /\ GmailHelper.payload x
                = VDict [("id", default VNone (assoc "id" d));
                         ("historyId", default VNone (assoc "historyId" d));
                         ("messages", VList processed)]
             /\ Forall Facts.thread_entry processed
             /\ map Facts.id_of processed = map Facts.id_of items.
Proof.
  unfold rbind, rlift, rret.
  destruct thread as [| | | | |d]; cbn [get].
  1-5: eexists; split; [reflexivity|]; intros x Hx; discriminate Hx.
  destruct (GmailHelper.py_len _) as [n|e].
  2:{ eexists; split; [reflexivity|]; intros x Hx; discriminate Hx. }
  destruct (iter _) as [items|e] eqn:Hiter.
  2:{ eexists; split; [reflexivity|]; intros x Hx; discriminate Hx. }
  destruct (GmailHelper.thread_messages items) as [processed|e] eqn:Hp.
  2:{ eexists; split; [reflexivity|]; intros x Hx; discriminate Hx. }
  eexists. split; [reflexivity|].
  intros x Hx. inversion Hx; subst. cbn. split; [reflexivity|].
  destruct (thread_messages_entries _ _ Hp) as [Hall Hids].
  exists d, items, processed. split; [reflexivity|].
  split.
  { destruct (assoc "messages" d); exact Hiter. }
  split.
  { destruct (assoc "id" d), (assoc "historyId" d); reflexivity. }
  auto.
Qed.

Lemma get_thread_runs (E : Env) (R : Api) (thread_id : string)
    (user_id format : option string) (s : Session) :
  exists (r : GmailHelper.result value) (s' : Session),
    GmailHelper.get_thread E R thread_id user_id format s
    = Some (Returned r, s')
    /\ fs (world s') = fs (world s)
    /\ (GmailHelper.error r <> None -> GmailHelper.payload r = VNone)
    /\ (requests s' = requests s
        \/ requests s'
           = (requests s ++ [ThreadsGet user_id thread_id format])%list
        \/ (requests s'
            = (requests s ++ [ThreadsGet user_id thread_id format;
                              ThreadsGet user_id thread_id (Some "metadata")])%list
            /\ format = Some "full"
            /\ exists e,
                execute R (ThreadsGet user_id thread_id format) = HttpError e
                /\ Facts.refuses_full e = true))
    /\ (GmailHelper.error r = None ->
        exists d items processed,
          (execute R (ThreadsGet user_id thread_id format) = Ok (VDict d)
           \/ execute R (ThreadsGet user_id thread_id (Some "metadata"))
              = Ok (VDict d))
          /\ iter (default (VList []) (assoc "messages" d)) = Returned items
          /\ GmailHelper.payload r
             = VDict [("id", default VNone (assoc "id" d));
                      ("historyId", default VNone (assoc "historyId" d));
                      ("messages", VList processed)]
          /\ Forall Facts.thread_entry processed
          /\ map Facts.id_of processed = map Facts.id_of items).
Proof.
  unfold GmailHelper.get_thread. unfold rbind at 1.
  destruct (of_ensure_service_runs E s) as (b & w' & Hens & Hfs & _).
  rewrite Hens.
  destruct b; cbn [negb].
  2:{ do 2 eexists. split; [reflexivity|]. split; [exact Hfs|].
      split; [reflexivity|]. split; [left; reflexivity|discriminate]. }
  unfold rtry_except. unfold rbind at 1. unfold request at 1.
  cbn [world requests].
  destruct (execute R (ThreadsGet user_id thread_id format))
    as [thread|e|e] eqn:Hfirst.
  - unfold rbind at 1. unfold rret at 1.
    match goal with
    | |- context [rbind (rlift (get thread "messages" (VList []))) ?k ?s0] =>
        destruct (get_thread_processing thread s0) as (o & Hrun & Hx)
    end.
    rewrite Hrun.
    destruct o as [x|e].
    + destruct (Hx x eq_refl) as (Herr & d & items & processed & -> & Hrest).
      do 2 eexists. split; [reflexivity|]. split; [exact Hfs|].
      split; [intros H; contradiction|].
      split; [right; left; reflexivity|].
      intros _. exists d, items, processed. split; [left; reflexivity|exact Hrest].
    + do 2 eexists. split; [reflexivity|]. split; [exact Hfs|].
      split; [reflexivity|]. split; [right; left; reflexivity|discriminate].
  - destruct (GmailHelper.full_not_allowed format e) eqn:Hfull.
    2:{ unfold rbind, rraise. do 2 eexists. split; [reflexivity|].
        split; [exact Hfs|]. split; [reflexivity|].
        split; [right; left; reflexivity|discriminate]. }
    assert (Hformat : format = Some "full" /\ Facts.refuses_full e = true).
    { unfold GmailHelper.full_not_allowed in Hfull.
      destruct format as [f|]; [|discriminate Hfull].
      apply andb_prop in Hfull. destruct Hfull as [Hf He].
      apply String.eqb_eq in Hf. subst f. split; [reflexivity|exact He]. }
    unfold rbind at 1. unfold rbind at 1. unfold request at 1.
    cbn [world requests]. rewrite <- app_assoc. cbn [app].
    assert (Hsecond : (requests s ++
                         [ThreadsGet user_id thread_id format;
                          ThreadsGet user_id thread_id (Some "metadata")])%list
                      = (requests s ++
                         [ThreadsGet user_id thread_id format;
                          ThreadsGet user_id thread_id (Some "metadata")])%list
                      /\ format = Some "full"
                      /\ exists e0, HttpError e = HttpError e0
                                    /\ Facts.refuses_full e0 = true).
    { split; [reflexivity|]. split; [apply Hformat|].
      exists e. split; [reflexivity|apply Hformat]. }
    destruct (execute R (ThreadsGet user_id thread_id (Some "metadata")))
      as [thread|e2|e2] eqn:Hmeta.
    + unfold rret at 1.
      match goal with
      | |- context [rbind (rlift (get thread "messages" (VList []))) ?k ?s0] =>
          destruct (get_thread_processing thread s0) as (o & Hrun & Hx)
      end.
      rewrite Hrun.
      destruct o as [x|e3].
      * destruct (Hx x eq_refl) as (Herr & d & items & processed & -> & Hrest).
        do 2 eexists. split; [reflexivity|]. split; [exact Hfs|].
        split; [intros H; contradiction|].
        split; [right; right; exact Hsecond|].
        intros _. exists d, items, processed.
        split; [right; reflexivity|exact Hrest].
      * do 2 eexists. split; [reflexivity|]. split; [exact Hfs|].
        split; [reflexivity|].
        split; [right; right; exact Hsecond|discriminate].
    + unfold rraise. do 2 eexists. split; [reflexivity|].
      split; [exact Hfs|]. split; [reflexivity|].
      split; [right; right; exact Hsecond|discriminate].
    + unfold rraise. do 2 eexists. split; [reflexivity|].
      split; [exact Hfs|]. split; [reflexivity|].
      split; [right; right; exact Hsecond|discriminate].
  - unfold rbind, rraise. do 2 eexists. split; [reflexivity|].
    split; [exact Hfs|]. split; [reflexivity|].
    split; [right; left; reflexivity|discriminate].
Qed.

Lemma get_thread_sends (E : Env) (R : Api) (thread_id : string)
    (user_id format : option string) (s : Session) (b : bool) (w1 : World) :
  GmailHelper.ensure_service E (world s) = Some (Returned b, w1) ->
  exists (r : GmailHelper.result value) (s' : Session),
    GmailHelper.get_thread E R thread_id user_id format s
    = Some (Returned r, s')
    /\ (b = false ->
        requests s' = requests s
        /\ r = GmailHelper.mkResult VNone
                (Some "Failed to authenticate with Gmail"))
    /\ (b = true ->
        requests s'
        = (requests s
           ++ ThreadsGet user_id thread_id format
              :: (if Facts.full_refused R user_id thread_id format
                  then [ThreadsGet user_id thread_id (Some "metadata")]
                  else []))%list).
Proof.
  intros Hens.
  unfold GmailHelper.get_thread. unfold rbind at 1. unfold of_M.
  rewrite Hens.
  destruct b; cbn [negb].
  2:{ do 2 eexists. split; [reflexivity|].
      split; [intros _; split; reflexivity|discriminate]. }
  unfold rtry_except. unfold rbind at 1. unfold request at 1.
  cbn [world requests].
  destruct (execute R (ThreadsGet user_id thread_id format))
    as [thread|e|e] eqn:Hfirst.
  - unfold rbind at 1. unfold rret at 1.
    match goal with
    | |- context [rbind (rlift (get thread "messages" (VList []))) ?k ?s0] =>
        destruct (get_thread_processing thread s0) as (o & Hrun & _)
    end.
    rewrite Hrun.
    destruct o; do 2 eexists;
      (split; [reflexivity|]); (split; [discriminate|]);
      intros _; unfold Facts.full_refused; rewrite Hfirst; reflexivity.
  - assert (Hsame : Facts.full_refused R user_id thread_id format
                    = GmailHelper.full_not_allowed format e).
    { unfold Facts.full_refused. rewrite Hfirst. reflexivity. }
    rewrite Hsame.
    destruct (GmailHelper.full_not_allowed format e).
    2:{ unfold rbind, rraise. do 2 eexists. split; [reflexivity|].
        split; [discriminate|]. intros _. reflexivity. }
    unfold rbind at 1. unfold rbind at 1. unfold request at 1.
    cbn [world requests]. rewrite <- app_assoc. cbn [app].
    destruct (execute R (ThreadsGet user_id thread_id (Some "metadata")))
      as [thread|e2|e2].
    + unfold rret at 1.
      match goal with
      | |- context [rbind (rlift (get thread "messages" (VList []))) ?k ?s0] =>
          destruct (get_thread_processing thread s0) as (o & Hrun & _)
      end.
      rewrite Hrun.
      destruct o; do 2 eexists;
        (split; [reflexivity|]); (split; [discriminate|]);
        intros _; reflexivity.
    + unfold rraise. do 2 eexists. split; [reflexivity|].
      split; [discriminate|]. intros _. reflexivity.
    + unfold rraise. do 2 eexists. split; [reflexivity|].
      split; [discriminate|]. intros _. reflexivity.
  - unfold rbind, rraise.
    do 2 eexists. split; [reflexivity|].
    split; [discriminate|]. intros _.
    unfold Facts.full_refused. rewrite Hfirst. reflexivity.
Qed.

(** X25. [get_thread] never raises and sends at most two requests. It
    first makes sure of a service, authenticating if there is none. When
    that fails it sends no request and reports
    "Failed to authenticate with Gmail". Otherwise, and so whenever a
    service is at hand, it sends the request for the thread in the format
    asked for, and after it a second one, in format [metadata], exactly
    when format [full] was asked for and refused with an [HttpError] that
    says the scope does not allow it. With an error there is no thread. *)
Theorem get_thread_requests :
  forall (E : Env) (R : Api) (thread_id : string)
         (user_id format : option string) (s : Session),
  exists (r : GmailHelper.result value) (s' : Session),
    GmailHelper.get_thread E R thread_id user_id format s
    = Some (Returned r, s')
    /\ fs (world s') = fs (world s)
    /\ (GmailHelper.error r <> None -> GmailHelper.payload r = VNone)
    /\ (requests s' = requests s
        \/ requests s'
           = (requests s ++ [ThreadsGet user_id thread_id format])%list
        \/ (requests s'
            = (requests s ++ [ThreadsGet user_id thread_id format;
                              ThreadsGet user_id thread_id (Some "metadata")])%list
            /\ format = Some "full"
            /\ exists e,
                execute R (ThreadsGet user_id thread_id format) = HttpError e
                /\ Facts.refuses_full e = true))
    /\ (exists (b : bool) (w1 : World),
          GmailHelper.ensure_service E (world s) = Some (Returned b, w1)
          /\ (service (world s) <> None -> b = true)
          /\ (b = false ->
              requests s' = requests s
              /\ r = GmailHelper.mkResult VNone
                      (Some "Failed to authenticate with Gmail"))
          /\ (b = true ->
              requests s'
              = (requests s
                 ++ ThreadsGet user_id thread_id format
                    :: (if Facts.full_refused R user_id thread_id format
                        then [ThreadsGet user_id thread_id (Some "metadata")]
                        else []))%list)).
Proof.
  intros E R thread_id user_id format s.
  destruct (get_thread_runs E R thread_id user_id format s)
    as (r & s' & Hrun & Hfs & Herr & Hreq & _).
  exists r, s'.
  split; [exact Hrun|]. split; [exact Hfs|]. split; [exact Herr|].
  split; [exact Hreq|].
  destruct (ensure_service_runs E (world s))
    as (b & w1 & new & Hens & _).
  exists b, w1. split; [exact Hens|].
  split.
  { intros Hsvc. destruct (service (world s)) as [svc|] eqn:Hs;
      [|contradiction].
    rewrite (ensure_service_ready E (world s) svc Hs) in Hens.
    inversion Hens; reflexivity. }
  destruct (get_thread_sends E R thread_id user_id format s b w1 Hens)
    as (r0 & s0 & Hrun0 & Hfalse & Htrue).
  rewrite Hrun in Hrun0. inversion Hrun0; subst r0 s0.
  split; [exact Hfalse|exact Htrue].
Qed.

(** The three courses of [get_thread], with the API that refuses format
    [full]: no credentials, format [metadata], format [full]. *)
Lemma get_thread_requests_examples :
  let E := Examples.open_env Examples.working_auth Examples.failing_api in
  let F := Examples.open_env Examples.failing_auth Examples.failing_api in
  (exists r s',
      GmailHelper.get_thread F Scenarios.metadata_only "t1" (Some "me")
        (Some "full") (mkSession empty_world []) = Some (Returned r, s')
      /\ requests s' = []
      /\ GmailHelper.error r = Some "Failed to authenticate with Gmail")
  /\ (exists r s',
        GmailHelper.get_thread E Scenarios.metadata_only "t1" (Some "me")
          (Some "metadata") (mkSession empty_world [])
        = Some (Returned r, s')
        /\ requests s' = [ThreadsGet (Some "me") "t1" (Some "metadata")]
        /\ GmailHelper.error r = None)
  /\ (exists r s',
        GmailHelper.get_thread E Scenarios.metadata_only "t1" (Some "me")
          (Some "full") (mkSession empty_world [])
        = Some (Returned r, s')
        /\ requests s' = [ThreadsGet (Some "me") "t1" (Some "full");
                          ThreadsGet (Some "me") "t1" (Some "metadata")]
        /\ GmailHelper.error r = None).
Proof.
  split; [|split]; do 2 eexists; (split; [reflexivity|]);
    split; reflexivity.
Qed.

(** X26. When format [full] is refused for the scope, [get_thread] answers
    what it answers for format [metadata]: the thread, or the error, of the
    second request; the refused request stays in the log. *)
Theorem get_thread_falls_back_to_metadata :
  forall (E : Env) (R : Api) (thread_id : string) (user_id : option string)
         (s : Session) (svc : Service) (e : string),
    service (world s) = Some svc ->
    execute R (ThreadsGet user_id thread_id (Some "full")) = HttpError e ->
    Facts.refuses_full e = true ->
    GmailHelper.get_thread E R thread_id user_id (Some "full") s
    = GmailHelper.get_thread E R thread_id user_id (Some "metadata")
        (mkSession (world s)
           (requests s ++ [ThreadsGet user_id thread_id (Some "full")])).
Proof.
  intros E R thread_id user_id s svc e Hs Hfull Hphrase.
  unfold GmailHelper.get_thread, rbind at 1.
  rewrite (of_ensure_service_ready E s svc Hs).
  symmetry. unfold rbind at 1.
  rewrite (of_ensure_service_ready E (mkSession (world s) _) svc Hs).
  symmetry. cbn [negb].
  unfold rtry_except, rbind, request, rret, rraise. cbn [world requests].
  rewrite Hfull.
  unfold GmailHelper.full_not_allowed.
  unfold Facts.refuses_full in Hphrase. rewrite Hphrase.
  cbn [String.eqb Ascii.eqb Bool.eqb andb].
  destruct (execute R (ThreadsGet user_id thread_id (Some "metadata")));
    reflexivity.
Qed.

Lemma get_thread_falls_back_to_metadata_witness :
  let E := Examples.open_env Examples.working_auth Examples.failing_api in
  GmailHelper.get_thread E Scenarios.metadata_only "t1" (Some "me")
    (Some "full") Scenarios.ready_session
  = GmailHelper.get_thread E Scenarios.metadata_only "t1" (Some "me")
      (Some "metadata")
      (mkSession Examples.ready_world
         [ThreadsGet (Some "me") "t1" (Some "full")]).
Proof.
  exact (get_thread_falls_back_to_metadata
           (Examples.open_env Examples.working_auth Examples.failing_api)
           Scenarios.metadata_only "t1" (Some "me") Scenarios.ready_session
           (mkService "gmail" "v1") _ eq_refl eq_refl eq_refl).
Defined.

(** X27. A thread [get_thread] returns without error is made from a dict
    the API answered, to the request in the format asked for or to the one
    in format [metadata]: it keeps the [id] and [historyId] of that dict, and
    has one message per message of it, in the same order and under the same
    [id], each a dict with the keys [id], [threadId], [labelIds], [snippet]
    and [headers], whose headers are among Subject, From, To and Date with
    each name at most once. *)
Theorem get_thread_messages :
  forall (E : Env) (R : Api) (thread_id : string)
         (user_id format : option string) (s s' : Session)
         (r : GmailHelper.result value),
    GmailHelper.get_thread E R thread_id user_id format s
    = Some (Returned r, s') ->
    GmailHelper.error r = None ->
    exists d items processed,
      (execute R (ThreadsGet user_id thread_id format) = Ok (VDict d)
       \/ execute R (ThreadsGet user_id thread_id (Some "metadata"))
          = Ok (VDict d))
      /\ iter (default (VList []) (assoc "messages" d)) = Returned items
      /\ GmailHelper.payload r
         = VDict [("id", default VNone (assoc "id" d));
                  ("historyId", default VNone (assoc "historyId" d));
                  ("messages", VList processed)]
      /\ Forall Facts.thread_entry processed
      /\ map Facts.id_of processed = map Facts.id_of items.
Proof.
  intros E R thread_id user_id format s s' r Hrun Herr.
  destruct (get_thread_runs E R thread_id user_id format s)
    as (r0 & s0 & Hrun0 & _ & _ & _ & Hshape).
  rewrite Hrun in Hrun0. inversion Hrun0; subst r0 s0.
  exact (Hshape Herr).
Qed.

Lemma get_thread_messages_witness :
  exists d items processed,
    (execute Scenarios.metadata_only
       (ThreadsGet (Some "me") "t1" (Some "metadata")) = Ok (VDict d)
     \/ execute Scenarios.metadata_only
          (ThreadsGet (Some "me") "t1" (Some "metadata")) = Ok (VDict d))
    /\ iter (default (VList []) (assoc "messages" d)) = Returned items
    /\ VDict [("id", VStr "t1"); ("historyId", VStr "9");
              ("messages",
               VList [VDict [("id", VStr "m1"); ("threadId", VStr "t1");
                             ("labelIds", VList []); ("snippet", VStr "");
                             ("headers", VDict [("To", VStr "a@b.c")])];
                      VDict [("id", VStr "m2"); ("threadId", VNone);
                             ("labelIds", VList []); ("snippet", VStr "");
                             ("headers", VDict [])]])]
       = VDict [("id", default VNone (assoc "id" d));
                ("historyId", default VNone (assoc "historyId" d));
                ("messages", VList processed)]
    /\ Forall Facts.thread_entry processed
    /\ map Facts.id_of processed = map Facts.id_of items.
Proof.
  exact (get_thread_messages
           (Examples.open_env Examples.working_auth Examples.failing_api)
           Scenarios.metadata_only "t1" (Some "me") (Some "metadata")
           Scenarios.ready_session _ (GmailHelper.mkResult _ None)
           eq_refl eq_refl).
Defined.

(** X28. [list_gmail_threads] always returns a [ThreadListResponse] whose
    threads are dicts, after at most one request for the list. The list is
    empty exactly when there is an error, so that a search without result is
    reported as an error; without error the threads are those the API
    returned under [threads], as they are. *)
Theorem list_gmail_threads_response :
  forall (E : Env) (R : Api) (query : option string) (max_results : option Z)
         (user_id : option string) (s : Session),
  exists (threads : list value) (error : option string) (s' : Session),
    GmailServer.list_gmail_threads E R query max_results user_id s
    = Some (Returned
              (Tool.Model "ThreadListResponse"
                 [("threads", VList threads); ("error", of_opt error)]), s')
    /\ forallb Claims.is_dict threads = true
    /\ (threads = [] <-> error <> None)
    /\ (requests s' = requests s
        \/ requests s'
           = (requests s ++ [ThreadsList user_id query max_results])%list)
    /\ (error = None ->
        exists response,
          execute R (ThreadsList user_id query max_results) = Ok response
          /\ get response "threads" (VList []) = Returned (VList threads)).
Proof.
  intros E R query max_results user_id s.
  unfold GmailServer.list_gmail_threads, GmailServer.rrun, rtry_except.
  unfold rbind at 1. unfold GmailHelper.list_threads. unfold rbind at 1.
  destruct (of_ensure_service_runs E s) as (b & w' & Hens & Hfs & _).
  rewrite Hens.
  destruct b; cbn [negb].
  2:{ unfold rret. cbn.
      exists [], (Some "Failed to authenticate with Gmail").
      eexists. split; [reflexivity|]. split; [reflexivity|].
      split; [split; [discriminate|reflexivity]|].
      split; [left; reflexivity|discriminate]. }
  unfold rtry_except, rbind, request, rret, rraise, rlift.
  cbn [world requests].
  destruct (execute R (ThreadsList user_id query max_results))
    as [response|e|e] eqn:Hlist.
  2,3: cbn; exists [], (Some ("Error listing threads: " ++ e));
       eexists; (split; [reflexivity|]); (split; [reflexivity|]);
       (split; [split; [discriminate|reflexivity]|]);
       (split; [right; reflexivity|discriminate]).
  destruct (get response "threads" (VList [])) as [threads|e] eqn:Hget.
  2:{ cbn. exists [], (Some ("Error listing threads: " ++ e)).
      eexists. split; [reflexivity|]. split; [reflexivity|].
      split; [split; [discriminate|reflexivity]|].
      split; [right; reflexivity|discriminate]. }
  destruct (truthy threads) eqn:Htruthy; cbn [negb].
  2:{ cbn. destruct query as [q|]; cbn.
      all: eexists [], (Some _).
      all: eexists; split; [reflexivity|]; split; [reflexivity|].
      all: split; [split; [discriminate|reflexivity]|].
      all: split; [right; reflexivity|discriminate]. }
  destruct threads as [| | | |l|d]; cbn in Htruthy |- *;
    try discriminate Htruthy.
  1-2: eexists [], (Some _); eexists; (split; [reflexivity|]);
       (split; [reflexivity|]);
       (split; [split; [discriminate|reflexivity]|]);
       (split; [right; reflexivity|discriminate]).
  - destruct (negb (s0 =? "")); cbn.
    all: eexists [], (Some _); eexists; (split; [reflexivity|]);
         (split; [reflexivity|]);
         (split; [split; [discriminate|reflexivity]|]);
         (split; [right; reflexivity|discriminate]).
  - destruct l as [|t ts]; [discriminate Htruthy|].
    unfold GmailServer.ThreadListResponse, GmailServer.list_of_dicts, and_then.
    change (fun v : value => match v with VDict _ => true | _ => false end)
      with Claims.is_dict.
    destruct (forallb Claims.is_dict (t :: ts)) eqn:Hd; cbn.
    + exists (t :: ts), None. eexists. split; [reflexivity|].
      split; [exact Hd|].
      split; [split; [discriminate|intros H; contradiction]|].
      split; [right; reflexivity|].
      intros _. exists response. auto.
    + eexists [], (Some _). eexists. split; [reflexivity|].
      split; [reflexivity|].
      split; [split; [discriminate|reflexivity]|].
      split; [right; reflexivity|discriminate].
  - destruct d; [discriminate Htruthy|]. cbn.
    eexists [], (Some _). eexists. split; [reflexivity|].
    split; [reflexivity|].
    split; [split; [discriminate|reflexivity]|].
    split; [right; reflexivity|discriminate].
Qed.

(** ** Calendars and events *)

Lemma calendar_ensure_service_runs (E : Env) (s : Session) :
  exists (b : bool) (w' : World),
    of_M (GoogleCalendarHelper.ensure_service E) s
    = Some (Returned b, mkSession w' (requests s))
    /\ fs w' = fs (world s).
Proof.
  unfold of_M, GoogleCalendarHelper.ensure_service, bind, get_service.
  destruct (service (world s)).
  - exists true, (world s). split; reflexivity.
  - destruct (calendar_authenticate_runs E (world s))
      as (b & w' & new & Hrun & Hfs & _).
    rewrite Hrun. exists b, w'. split; [reflexivity|exact Hfs].
Qed.

Lemma lower_char_letter (c l : ascii) :
  In l ["p"; "r"; "i"; "m"; "a"; "y"]%char ->
  Ascii.eqb (GoogleCalendarHelper.lower_char c) l
  = Ascii.eqb c l || Ascii.eqb c (Facts.capital l).
Proof.
  intros Hl. cbn in Hl.
  destruct c as [b0 b1 b2 b3 b4 b5 b6 b7].
  destruct Hl as [<-|[<-|[<-|[<-|[<-|[<-|[]]]]]]];
    destruct b0, b1, b2, b3, b4, b5, b6, b7; reflexivity.
Qed.

Lemma lower_spelled (word : string) :
  Forall (fun l => In l ["p"; "r"; "i"; "m"; "a"; "y"]%char)
    (String.list_ascii_of_string word) ->
  forall s,
    String.eqb (GoogleCalendarHelper.lower s) word = Facts.spelled word s.
Proof.
  induction word as [|l word IH]; intros Hw s.
  - destruct s; reflexivity.
  - cbn in Hw. apply Forall_cons in Hw. destruct Hw as [Hl Hw].
    destruct s as [|c s]; [reflexivity|].
    cbn [GoogleCalendarHelper.lower Facts.spelled String.eqb].
    rewrite (lower_char_letter c l Hl), (IH Hw s).
    destruct (Ascii.eqb c l || Ascii.eqb c (Facts.capital l)); reflexivity.
Qed.

(** X29. The calendar tool [delete_calendar] never asks the API to delete
    the primary calendar, however the letters of "primary" are cased: for
    such an ID it sends no request and reports a failure. For every ID it
    sends at most one request, the deletion of that calendar, and it reports
    success exactly when it reports no error, which is after that request
    was sent and answered without exception. *)
Theorem delete_calendar_spares_primary :
  forall (E : Env) (R : Api) (calendar_id : string) (s : Session),
  exists (success : bool) (error : option string) (s' : Session),
    CalendarServer.delete_calendar E R calendar_id s
    = Some (Returned
              (Tool.Model "DeleteCalendarResponse"
                 [("success", VBool success); ("error", of_opt error)]), s')
    /\ (success = true <-> error = None)
    /\ (Facts.spelled "primary" calendar_id = true ->
        success = false /\ requests s' = requests s)
    /\ (requests s' = requests s
        \/ requests s' = (requests s ++ [CalendarsDelete calendar_id])%list)
    /\ (success = true ->
        requests s' = (requests s ++ [CalendarsDelete calendar_id])%list
        /\ exists v, execute R (CalendarsDelete calendar_id) = Ok v).
Proof.
  intros E R calendar_id s.
  unfold CalendarServer.delete_calendar, GmailServer.rrun, rtry_except.
  unfold rbind at 1. unfold GoogleCalendarHelper.delete_calendar.
  unfold rbind at 1.
  destruct (calendar_ensure_service_runs E s) as (b & w' & Hens & Hfs).
  rewrite Hens.
  destruct b; cbn [negb].
  2:{ unfold rret. cbn.
      exists false, (Some "Failed to authenticate with Google Calendar").
      eexists. split; [reflexivity|].
      split; [split; discriminate|].
      split; [intros _; split; reflexivity|].
      split; [left; reflexivity|discriminate]. }
  unfold rtry_except.
  rewrite (lower_spelled "primary"
             ltac:(repeat constructor; cbn; tauto) calendar_id).
  destruct (Facts.spelled "primary" calendar_id) eqn:Hprimary.
  { unfold rret. cbn.
    exists false, (Some "Cannot delete primary calendar").
    eexists. split; [reflexivity|].
    split; [split; discriminate|].
    split; [intros _; split; reflexivity|].
    split; [left; reflexivity|discriminate]. }
  unfold rbind, request, rret, rraise. cbn [world requests].
  destruct (execute R (CalendarsDelete calendar_id)) as [v|e|e]; cbn.
  - exists true, None. eexists. split; [reflexivity|].
    split; [split; reflexivity|].
    split; [discriminate|].
    split; [right; reflexivity|].
    intros _. split; [reflexivity|]. exists v. reflexivity.
  - eexists false, (Some _). eexists. split; [reflexivity|].
    split; [split; discriminate|].
    split; [discriminate|].
    split; [right; reflexivity|discriminate].
  - eexists false, (Some _). eexists. split; [reflexivity|].
    split; [split; discriminate|].
    split; [discriminate|].
    split; [right; reflexivity|discriminate].
Qed.

(** X30. The calendar tool [quick_add_event] always returns an
    [EventResponse], after at most one request and never a request with an
    empty text. With an error there is no event; without error the event is
    the dict the API answered. *)
Theorem quick_add_event_response :
  forall (E : Env) (R : Api) (calendar_id : option string) (text : string)
         (s : Session),
  exists (event : value) (error : option string) (s' : Session),
    CalendarServer.quick_add_event E R calendar_id text s
    = Some (Returned
              (Tool.Model "EventResponse"
                 [("event", event); ("error", of_opt error)]), s')
    /\ (error <> None -> event = VNone)
    /\ (error = None ->
        Claims.is_dict event = true
        /\ execute R (EventsQuickAdd calendar_id text) = Ok event)
    /\ (requests s' = requests s
        \/ (requests s'
            = (requests s ++ [EventsQuickAdd calendar_id text])%list
            /\ text <> ""))
    /\ fs (world s') = fs (world s).
Proof.
  intros E R calendar_id text s.
  unfold CalendarServer.quick_add_event, GmailServer.rrun, rtry_except.
  unfold rbind at 1. unfold GoogleCalendarHelper.quick_add_event.
  unfold rbind at 1.
  destruct (calendar_ensure_service_runs E s) as (b & w' & Hens & Hfs).
  rewrite Hens.
  destruct b; cbn [negb].
  2:{ unfold rret. cbn.
      exists VNone, (Some "Failed to authenticate with Google Calendar").
      eexists. split; [reflexivity|]. split; [reflexivity|].
      split; [discriminate|]. split; [left; reflexivity|exact Hfs]. }
  destruct (str_truthy text) eqn:Htext; cbn [negb].
  2:{ unfold rret. cbn.
      exists VNone, (Some "Text describing the event is required").
      eexists. split; [reflexivity|]. split; [reflexivity|].
      split; [discriminate|]. split; [left; reflexivity|exact Hfs]. }
  assert (Hne : text <> "").
  { intros ->. discriminate Htext. }
  unfold rtry_except, rbind, request, rret, rraise, rlift.
  cbn [world requests].
  destruct (execute R (EventsQuickAdd calendar_id text)) as [v|e|e]; cbn.
  - destruct v as [| | | | |d]; cbn.
    6:{ exists (VDict d), None. eexists. split; [reflexivity|].
        split; [intros H; contradiction|].
        split; [intros _; split; reflexivity|].
        split; [right; split; [reflexivity|exact Hne]|exact Hfs]. }
    all: eexists VNone, (Some _); eexists; (split; [reflexivity|]);
         (split; [reflexivity|]); (split; [discriminate|]);
         (split; [right; split; [reflexivity|exact Hne]|exact Hfs]).
  - eexists VNone, (Some _). eexists. split; [reflexivity|].
    split; [reflexivity|]. split; [discriminate|].
    split; [right; split; [reflexivity|exact Hne]|exact Hfs].
  - eexists VNone, (Some _). eexists. split; [reflexivity|].
    split; [reflexivity|]. split; [discriminate|].
    split; [right; split; [reflexivity|exact Hne]|exact Hfs].
Qed.
